(** * Business Ideas Tracker: ownership, collaboration and filtered listing

    A shallow embedding of the two Express/knex applications of the
    repository, [src/unnamed/part_000] (routes [/ideas], [/addIdea], ...) and
    [src/index.js] (routes [/view-ideas], [/add-idea], ...), over an explicit
    relational store, followed by the properties of the access-control,
    listing and mutation logic.

    Conventions.
    - A request field ([req.body.x], [req.query.x], [req.params.x]) is an
      [option string]: [None] is JavaScript's [undefined].
    - The store is a record of three tables, each a list of rows in
      insertion order, and the three serial counters.  An SQL NULL is
      [None].  A statement either runs or fails as a whole.
    - A JavaScript number is kept as an exact decimal; the rounding of
      doubles beyond their 15 significant digits is not modelled.
      [Js.exact] holds of the numbers that the rounding leaves as they
      are, and a property that tells which number is stored asks for it.
    - The store promises no order for the rows of a statement without
      ORDER BY.  The joins give them in the order of the FROM clause
      over the insertion order of the tables; the properties tell the
      order of rows only where the code asks for one or sorts the rows
      itself, and otherwise speak of membership and permutations.
    - [Sql.integer_in] and [Sql.numeric_in] read the decimal syntax that
      every version of the server reads, without the bounds of the
      types; a version from 16 on also reads other bases and
      underscores.  A JavaScript number bound to an integer column goes
      through [Sql.integer_of], which has the bounds of the type; a
      property that needs the bounds of a text states them. *)

From Stdlib Require Import ZArith List String Ascii Bool Lia DecimalString.
From Stdlib Require Import DecimalZ DecimalPos.
From Stdlib Require Import Sorting.Sorted Sorting.Permutation.
Import ListNotations.

Local Open Scope string_scope.
Local Open Scope list_scope.
Local Open Scope Z_scope.

(** ** JavaScript values of request fields *)

Module Js.

(** [if (x)], [!x], [x || y] on a field that is a string or undefined:
    only the empty string and [undefined] are falsy. *)
Definition truthy (x : option string) : bool :=
  match x with
  | Some s => negb (s =? "")%string
  | None => false
  end.

(** [x || null] *)
Definition or_null (x : option string) : option string :=
  if truthy x then x else None.

(** [x || ''] *)
Definition or_empty (x : option string) : string :=
  match x with
  | Some s => s
  | None => ""
  end.

(** A number: NaN, an infinity, or the decimal [m * 10^e]. *)
Inductive number : Type :=
| NaN
| Infinity (negative : bool)
| Finite (m e : Z).

(** White space, within ASCII: tab, line feed, vertical tab, form feed,
    carriage return, space. *)
Definition is_space (c : ascii) : bool :=
  let n := nat_of_ascii c in
  ((9 <=? n) && (n <=? 13))%nat || (n =? 32)%nat.

Fixpoint trim_start (cs : list ascii) : list ascii :=
  match cs with
  | c :: r => if is_space c then trim_start r else cs
  | [] => []
  end.

Definition digit (radix : Z) (c : ascii) : option Z :=
  let n := Z.of_nat (nat_of_ascii c) in
  let v := if (48 <=? n) && (n <=? 57) then n - 48
           else if (97 <=? n) && (n <=? 102) then n - 87
           else if (65 <=? n) && (n <=? 70) then n - 55
           else 16 in
  if v <? radix then Some v else None.

(** The longest run of digits at the head of [cs], read in [radix] on top
    of [acc]: the value, the number of digits and what follows. *)
Fixpoint digits (radix : Z) (cs : list ascii) (acc : Z) (n : Z)
  : Z * Z * list ascii :=
  match cs with
  | c :: r =>
    match digit radix c with
    | Some v => digits radix r (acc * radix + v) (n + 1)
    | None => (acc, n, cs)
    end
  | [] => (acc, n, [])
  end.

Definition sign (cs : list ascii) : bool * list ascii :=
  match cs with
  | "-"%char :: r => (true, r)
  | "+"%char :: r => (false, r)
  | _ => (false, cs)
  end.

Definition signed (negative : bool) (v : Z) : Z :=
  if negative then - v else v.

Fixpoint prefix (p cs : list ascii) : option (list ascii) :=
  match p, cs with
  | [], _ => Some cs
  | a :: p', c :: r => if Ascii.eqb a c then prefix p' r else None
  | _ :: _, [] => None
  end.

(** [parseInt(s)] with no radix: [None] is NaN.  The value is exact;
    JavaScript rounds it to a double from 2^53 on, far outside the range
    of the integer columns it is bound to. *)
Definition parseInt (s : string) : option Z :=
  let '(neg, cs) := sign (trim_start (list_ascii_of_string s)) in
  let '(radix, cs) :=
    match cs with
    | "0"%char :: "x"%char :: r => (16, r)
    | "0"%char :: "X"%char :: r => (16, r)
    | _ => (10, cs)
    end in
  let '(v, n, _) := digits radix cs 0 0 in
  if n =? 0 then None else Some (signed neg v).

(** An exponent part [e], [e+] or [e-] followed by digits; without
    digits it is not part of the literal. *)
Definition exponent (cs : list ascii) : Z * list ascii :=
  match cs with
  | c :: r =>
    if Ascii.eqb c "e" || Ascii.eqb c "E" then
      let '(neg, r') := sign r in
      let '(v, n, rest) := digits 10 r' 0 0 in
      if n =? 0 then (0, cs) else (signed neg v, rest)
    else (0, cs)
  | [] => (0, [])
  end.

(** The decimal literal at the head of [cs] (sign apart): the number and
    what follows it, or [None] when no digit is there. *)
Definition decimal (cs : list ascii) : option (Z * Z * list ascii) :=
  let '(i, ni, r1) := digits 10 cs 0 0 in
  let '(m, nf, r2) :=
    match r1 with
    | "."%char :: r => digits 10 r i 0
    | _ => (i, 0, r1)
    end in
  if ni + nf =? 0 then None
  else let '(e, r3) := exponent r2 in Some (m, e - nf, r3).

(** A signed literal: [Infinity] or a decimal. *)
Definition literal (cs : list ascii) : option (number * list ascii) :=
  let '(neg, r) := sign cs in
  match prefix (list_ascii_of_string "Infinity") r with
  | Some rest => Some (Infinity neg, rest)
  | None =>
    match decimal r with
    | Some (m, e, rest) => Some (Finite (signed neg m) e, rest)
    | None => None
    end
  end.

(** [parseFloat(s)] *)
Definition parseFloat (s : string) : number :=
  match literal (trim_start (list_ascii_of_string s)) with
  | Some (v, _) => v
  | None => NaN
  end.

(** [parseFloat] gives the double nearest to the decimal it reads, and a
    number bound to a statement is sent as the shortest decimal that
    names that double.  Both steps leave a decimal of at most 15 digits
    and of an exponent well inside the range of the doubles as it is,
    and NaN as well; [exact] holds of these.  The infinities, which a
    server before version 14 refuses, are left out. *)
Definition exact (n : number) : bool :=
  match n with
  | NaN => true
  | Infinity _ => false
  | Finite m e => (Z.abs m <? 10 ^ 15) && (-292 <=? e) && (e <=? 292)
  end.

End Js.

(** ** The values and operators of the SQL statements *)

Module Sql.

Import Js.

(** The order of [numeric]: every number is below NaN, which equals
    itself. *)
Definition compare (a b : number) : comparison :=
  match a, b with
  | NaN, NaN => Eq
  | NaN, _ => Gt
  | _, NaN => Lt
  | Infinity x, Infinity y =>
    if Bool.eqb x y then Eq else if x then Lt else Gt
  | Infinity x, Finite _ _ => if x then Lt else Gt
  | Finite _ _, Infinity y => if y then Gt else Lt
  | Finite m1 e1, Finite m2 e2 =>
    let e := Z.min e1 e2 in
    Z.compare (m1 * 10 ^ (e1 - e)) (m2 * 10 ^ (e2 - e))
  end.

Definition leb (a b : number) : bool :=
  match compare a b with
  | Gt => false
  | _ => true
  end.

(** [col <= p] and [col >= p] in a WHERE clause: a NULL column gives
    unknown, which keeps the row out. *)
Definition le_param (col : option number) (p : number) : bool :=
  match col with
  | Some v => leb v p
  | None => false
  end.

Definition ge_param (col : option number) (p : number) : bool :=
  match col with
  | Some v => leb p v
  | None => false
  end.

Definition ge_int (col : option Z) (p : Z) : bool :=
  match col with
  | Some v => p <=? v
  | None => false
  end.

(** A [numeric] far inside the bounds of the type (131072 digits before
    the decimal point, 16383 after it), and NaN.  The infinities, which
    a server before version 14 refuses, are left out. *)
Definition numeric_fits (n : number) : bool :=
  match n with
  | NaN => true
  | Infinity _ => false
  | Finite m e => (Z.abs m <? 10 ^ 1000) && (-1000 <=? e) && (e <=? 1000)
  end.

(** The range of the type [integer]. *)
Definition int4 (n : Z) : bool :=
  (-2147483648 <=? n) && (n <=? 2147483647).

(** A JavaScript number bound to an [integer] column, or compared with
    one: NaN ([None]) and a number outside the range of the type make
    the statement fail. *)
Definition integer_of (x : option Z) : option Z :=
  match x with
  | Some n => if int4 n then Some n else None
  | None => None
  end.

(** Lower case, within ASCII. *)
Definition lower_char (c : ascii) : ascii :=
  let n := nat_of_ascii c in
  if ((65 <=? n) && (n <=? 90))%nat then ascii_of_nat (n + 32) else c.

Definition lower (s : string) : list ascii :=
  map lower_char (list_ascii_of_string s).

(** [s LIKE p]: [%] stands for any run of characters, [_] for one
    character, and a backslash takes the next character literally. *)
Fixpoint like (p : list ascii) : list ascii -> bool :=
  match p with
  | [] => fun s => match s with [] => true | _ :: _ => false end
  | c :: p' =>
    if Ascii.eqb c "%" then
      fix any (s : list ascii) : bool :=
        like p' s || match s with [] => false | _ :: s' => any s' end
    else if Ascii.eqb c "_" then
      fun s => match s with [] => false | _ :: s' => like p' s' end
    else if Ascii.eqb c "\" then
      match p' with
      | [] => fun _ => false
      | d :: p'' =>
        fun s =>
          match s with
          | [] => false
          | x :: s' => Ascii.eqb x d && like p'' s'
          end
      end
    else
      fun s =>
        match s with
        | [] => false
        | x :: s' => Ascii.eqb x c && like p' s'
        end
  end.

(** [col ILIKE '%x%'], and [LOWER(col) LIKE LOWER('%x%')]: the same
    match.  A NULL column keeps the row out. *)
Definition contains_ci (col : option string) (x : string) : bool :=
  match col with
  | Some s => like (lower ("%" ++ x ++ "%")%string) (lower s)
  | None => false
  end.

(** [x = ANY(col)] on an array column. *)
Definition any_eq (x : string) (col : option (list string)) : bool :=
  match col with
  | Some l => existsb (String.eqb x) l
  | None => false
  end.

(** The text of a bound parameter read as an [integer]: blanks, a sign,
    decimal digits, blanks.  [None] makes the statement fail.  (The
    range of the type is not modelled.) *)
Definition integer_in (s : string) : option Z :=
  let '(neg, cs) := sign (trim_start (list_ascii_of_string s)) in
  let '(v, n, rest) := digits 10 cs 0 0 in
  if n =? 0 then None
  else match trim_start rest with
       | [] => Some (signed neg v)
       | _ :: _ => None
       end.

(** The text of a bound parameter read as a [numeric]: blanks, then
    [NaN] or a signed decimal or [Infinity], then blanks.  [None] makes
    the statement fail.  (Precision and scale are not modelled.) *)
Definition numeric_in (s : string) : option number :=
  let cs := trim_start (list_ascii_of_string s) in
  match prefix (list_ascii_of_string "NaN") cs with
  | Some rest =>
    match trim_start rest with [] => Some NaN | _ :: _ => None end
  | None =>
    match literal cs with
    | Some (v, rest) =>
      match trim_start rest with [] => Some v | _ :: _ => None end
    | None => None
    end
  end.

End Sql.

(** ** The relational store

    Modelled from the spec: the table declarations are not among the
    sources; the statements of the handlers name the tables and columns,
    and the data model of the spec gives the constraints.  [security],
    [idea_details] and [collaborations] have serial keys [userid],
    [ideaid] and [collaborationid]; an idea's name, description and owner
    are required, its other columns optional; [idea_details.userid] and
    [collaborations.userid] reference [security], and
    [collaborations.ideaid] references [idea_details]; the pair
    ([ideaid], [userid]) of a collaboration is unique; [createdat] is
    filled by the store when a row is inserted.  What the store does
    with the collaborations of a deleted idea is a parameter,
    [fk_action]; the data model of the spec has them deleted with it
    ([schema_on_delete]). *)

Module User.
Record row : Type := mk {
  userid : Z;
  username : string;
  passwordhash : option string;
  email : option string;
  firstname : option string;
  lastname : option string;
  accountcreated : option Z;
  lastlogin : option Z;
  failedattempts : option Z
}.
End User.

Module Idea.
(** [M] is the type of the [marketingstrategy] column: text in
    [part_000], an array of text in [index.js]. *)
Record row (M : Type) : Type := mk {
  ideaid : Z;
  userid : Z;
  ideaname : string;
  ideadescription : string;
  marketingstrategy : option M;
  targetcustomer : option string;
  estimatedcost : option Js.number;
  timeline : option string;
  potential : option Z;
  createdat : option Z;
  updatedat : option Z
}.
Arguments mk {M}.
Arguments ideaid {M}.
Arguments userid {M}.
Arguments ideaname {M}.
Arguments ideadescription {M}.
Arguments marketingstrategy {M}.
Arguments targetcustomer {M}.
Arguments estimatedcost {M}.
Arguments timeline {M}.
Arguments potential {M}.
Arguments createdat {M}.
Arguments updatedat {M}.
End Idea.

Module Collaboration.
Record row : Type := mk {
  collaborationid : Z;
  ideaid : Z;
  userid : Z
}.
End Collaboration.

Inductive fk_action : Type :=
| Cascade
| Restrict.

Definition schema_on_delete : fk_action := Cascade.

Module Store.

Record db (M : Type) : Type := mk {
  security : list User.row;
  idea_details : list (Idea.row M);
  collaborations : list Collaboration.row;
  next_userid : Z;
  next_ideaid : Z;
  next_collaborationid : Z
}.
Arguments mk {M}.
Arguments security {M}.
Arguments idea_details {M}.
Arguments collaborations {M}.
Arguments next_userid {M}.
Arguments next_ideaid {M}.
Arguments next_collaborationid {M}.

(** The outcome of a statement that writes: the store after it, and
    whether the statement ran.  A serial value drawn by a failed INSERT
    stays drawn. *)
Inductive exec (M : Type) : Type :=
| Done (d : db M)
| Failed (d : db M).
Arguments Done {M}.
Arguments Failed {M}.

Section Statements.
Context {M : Type}.
Implicit Types (d : db M) (k u : Z).

Definition empty : db M := mk [] [] [] 1 1 1.

Definition has_user d u : bool :=
  existsb (fun r => User.userid r =? u) (security d).

Definition has_idea d k : bool :=
  existsb (fun i => Idea.ideaid i =? k) (idea_details d).

Definition is_pair k u (c : Collaboration.row) : bool :=
  (Collaboration.ideaid c =? k) && (Collaboration.userid c =? u).

(** [knex(t).where({...}).first()] *)
Definition first_idea d k : option (Idea.row M) :=
  find (fun i => Idea.ideaid i =? k) (idea_details d).

Definition first_collaboration d k u : option Collaboration.row :=
  find (is_pair k u) (collaborations d).

Definition first_collaboration_by_id d c : option Collaboration.row :=
  find (fun r => Collaboration.collaborationid r =? c) (collaborations d).

Definition first_user d (name : string) : option User.row :=
  find (fun r => (User.username r =? name)%string) (security d).

(** [knex('security').insert(...)] *)
Definition insert_user (r : Z -> User.row) d : exec M :=
  Done (mk (security d ++ [r (next_userid d)]) (idea_details d)
           (collaborations d)
           (next_userid d + 1) (next_ideaid d) (next_collaborationid d)).

(** [knex('security').where({userid}).update(...)] *)
Definition update_user u (f : User.row -> User.row) d : exec M :=
  Done (mk (map (fun r => if User.userid r =? u then f r else r)
                (security d))
           (idea_details d) (collaborations d)
           (next_userid d) (next_ideaid d) (next_collaborationid d)).

(** [knex('idea_details').insert(...)]: the row takes the next [ideaid];
    its owner has to be a row of [security]. *)
Definition insert_idea (r : Z -> Idea.row M) d : exec M :=
  let row := r (next_ideaid d) in
  if has_user d (Idea.userid row) then
    Done (mk (security d) (idea_details d ++ [row]) (collaborations d)
             (next_userid d) (next_ideaid d + 1) (next_collaborationid d))
  else
    Failed (mk (security d) (idea_details d) (collaborations d)
               (next_userid d) (next_ideaid d + 1)
               (next_collaborationid d)).

(** [knex('idea_details').where({ideaid}).update(...)] *)
Definition update_idea k (f : Idea.row M -> Idea.row M) d : exec M :=
  Done (mk (security d)
           (map (fun i => if Idea.ideaid i =? k then f i else i)
                (idea_details d))
           (collaborations d)
           (next_userid d) (next_ideaid d) (next_collaborationid d)).

(** [knex('collaborations').where(...).del()] *)
Definition delete_collaborations (p : Collaboration.row -> bool) d
  : exec M :=
  Done (mk (security d) (idea_details d)
           (filter (fun c => negb (p c)) (collaborations d))
           (next_userid d) (next_ideaid d) (next_collaborationid d)).

(** [knex('idea_details').where({ideaid}).del()]: under [Cascade] the
    collaborations of the idea go with it; under [Restrict] the
    statement fails when a collaboration still references the idea. *)
Definition delete_idea (fk : fk_action) k d : exec M :=
  let ideas := filter (fun i => negb (Idea.ideaid i =? k)) (idea_details d) in
  let referenced :=
    existsb (fun c => Collaboration.ideaid c =? k) (collaborations d) in
  match fk with
  | Cascade =>
    Done (mk (security d) ideas
             (if has_idea d k
              then filter (fun c => negb (Collaboration.ideaid c =? k))
                          (collaborations d)
              else collaborations d)
             (next_userid d) (next_ideaid d) (next_collaborationid d))
  | Restrict =>
    if has_idea d k && referenced then Failed d
    else Done (mk (security d) ideas (collaborations d)
                  (next_userid d) (next_ideaid d) (next_collaborationid d))
  end.

(** [knex('collaborations').insert({ideaid, userid})], with
    [.onConflict(['ideaid', 'userid']).ignore()] when [ignore] is set:
    both references have to exist, and a second row for the pair is
    refused, silently under [ignore]. *)
Definition insert_collaboration (ignore : bool) k u d : exec M :=
  let drawn :=
    mk (security d) (idea_details d) (collaborations d)
       (next_userid d) (next_ideaid d) (next_collaborationid d + 1) in
  if existsb (is_pair k u) (collaborations d) then
    if ignore then Done drawn else Failed drawn
  else if has_idea d k && has_user d u then
    Done (mk (security d) (idea_details d)
             (collaborations d
              ++ [Collaboration.mk (next_collaborationid d) k u])
             (next_userid d) (next_ideaid d) (next_collaborationid d + 1))
  else Failed drawn.

(** How many collaboration rows the store holds for an idea and a user. *)
Definition rows_for d k u : nat :=
  List.length (filter (is_pair k u) (collaborations d)).

(** Joins, in the order of the FROM clause. *)
Definition join {A B : Type} (on : A -> B -> bool)
  (l : list A) (r : list B) : list (A * B) :=
  flat_map (fun a => map (pair a) (filter (on a) r)) l.

Definition left_join {A B : Type} (on : A -> B -> bool)
  (l : list A) (r : list B) : list (A * option B) :=
  flat_map (fun a =>
              match filter (on a) r with
              | [] => [(a, None)]
              | b :: bs => map (fun x => (a, Some x)) (b :: bs)
              end) l.

(** GROUP BY: one row for each value of the key, the first met. *)
Fixpoint group_by {A K : Type} (eqk : K -> K -> bool) (key : A -> K)
  (seen : list K) (l : list A) : list A :=
  match l with
  | [] => []
  | a :: r =>
    if existsb (eqk (key a)) seen then group_by eqk key seen r
    else a :: group_by eqk key (key a :: seen) r
  end.

(** A stable sort under a comparator in the manner of
    [Array.prototype.sort]: [a] goes before [b] when [cmp a b] is
    negative, and rows that compare equal keep their order. *)
Fixpoint insert_by {A : Type} (cmp : A -> A -> Z) (x : A) (l : list A)
  : list A :=
  match l with
  | [] => [x]
  | y :: r => if cmp x y <=? 0 then x :: l else y :: insert_by cmp x r
  end.

Definition sort_by {A : Type} (cmp : A -> A -> Z) (l : list A) : list A :=
  fold_right (insert_by cmp) [] l.

(** [a] may stand before [b] in a list ordered on [key], largest first. *)
Definition descending {A : Type} (key : A -> Z) (a b : A) : Prop :=
  key b <= key a.

(** *** Access control (the checks the handlers make) *)

Definition isOwner (idea : Idea.row M) u : bool :=
  Idea.userid idea =? u.

Definition isCollaborator d k u : bool :=
  match first_collaboration d k u with
  | Some _ => true
  | None => false
  end.

Definition canView d (idea : Idea.row M) u : bool :=
  isOwner idea u || isCollaborator d (Idea.ideaid idea) u.

(** *** The constraints of the schema, as a check on a store *)

Fixpoint distinct {K : Type} (eqk : K -> K -> bool) (l : list K) : bool :=
  match l with
  | [] => true
  | x :: r => negb (existsb (eqk x) r) && distinct eqk r
  end.

Definition pair_eqb (p q : Z * Z) : bool :=
  (fst p =? fst q) && (snd p =? snd q).

Definition pair_of (c : Collaboration.row) : Z * Z :=
  (Collaboration.ideaid c, Collaboration.userid c).

Definition consistent d : bool :=
  distinct Z.eqb (map User.userid (security d))
  && distinct Z.eqb (map Idea.ideaid (idea_details d))
  && distinct pair_eqb (map pair_of (collaborations d))
  && distinct Z.eqb (map Collaboration.collaborationid (collaborations d))
  && forallb (fun r => User.userid r <? next_userid d) (security d)
  && forallb (fun i => Idea.ideaid i <? next_ideaid d) (idea_details d)
  && forallb (fun c => Collaboration.collaborationid c
                       <? next_collaborationid d) (collaborations d)
  && forallb (fun i => has_user d (Idea.userid i)) (idea_details d)
  && forallb (fun c => has_idea d (Collaboration.ideaid c)
                       && has_user d (Collaboration.userid c))
             (collaborations d).

(** What [consistent] checks, as propositions. *)
Record Consistent d : Prop := {
  users_distinct : NoDup (map User.userid (security d));
  ideas_distinct : NoDup (map Idea.ideaid (idea_details d));
  pairs_distinct : NoDup (map pair_of (collaborations d));
  collaborations_distinct :
    NoDup (map Collaboration.collaborationid (collaborations d));
  users_drawn :
    forall r, In r (security d) -> User.userid r < next_userid d;
  ideas_drawn :
    forall i, In i (idea_details d) ->
              Idea.ideaid i < next_ideaid d;
  collaborations_drawn :
    forall c, In c (collaborations d) ->
              Collaboration.collaborationid c < next_collaborationid d;
  owner_exists :
    forall i, In i (idea_details d) ->
              has_user d (Idea.userid i) = true;
  references_exist :
    forall c, In c (collaborations d) ->
              has_idea d (Collaboration.ideaid c) = true
              /\ has_user d (Collaboration.userid c) = true
}.

(** *** What one request can do to the store *)

Inductive change d : db M -> Prop :=
| Unchanged : change d d
| IdeaIdDrawn :
    change d (mk (security d) (idea_details d) (collaborations d)
                 (next_userid d) (next_ideaid d + 1) (next_collaborationid d))
| CollaborationIdDrawn :
    change d (mk (security d) (idea_details d) (collaborations d)
                 (next_userid d) (next_ideaid d) (next_collaborationid d + 1))
| UserAdded (row : User.row) :
    User.userid row = next_userid d ->
    change d (mk (security d ++ [row]) (idea_details d) (collaborations d)
                 (next_userid d + 1) (next_ideaid d) (next_collaborationid d))
| UserUpdated u (f : User.row -> User.row) :
    (forall r, User.userid (f r) = User.userid r) ->
    change d (mk (map (fun r => if User.userid r =? u then f r else r)
                      (security d))
                 (idea_details d) (collaborations d)
                 (next_userid d) (next_ideaid d) (next_collaborationid d))
| IdeaAdded (row : Idea.row M) :
    Idea.ideaid row = next_ideaid d ->
    has_user d (Idea.userid row) = true ->
    change d (mk (security d) (idea_details d ++ [row]) (collaborations d)
                 (next_userid d) (next_ideaid d + 1) (next_collaborationid d))
| IdeaUpdated k (f : Idea.row M -> Idea.row M) :
    (forall i, Idea.ideaid (f i) = Idea.ideaid i
               /\ Idea.userid (f i) = Idea.userid i) ->
    change d (mk (security d)
                 (map (fun i => if Idea.ideaid i =? k then f i else i)
                      (idea_details d))
                 (collaborations d)
                 (next_userid d) (next_ideaid d) (next_collaborationid d))
| IdeaDeleted k :
    change d (mk (security d)
                 (filter (fun i => negb (Idea.ideaid i =? k)) (idea_details d))
                 (filter (fun c => negb (Collaboration.ideaid c =? k))
                         (collaborations d))
                 (next_userid d) (next_ideaid d) (next_collaborationid d))
| CollaborationAdded k u :
    first_collaboration d k u = None ->
    has_idea d k = true -> has_user d u = true ->
    change d (mk (security d) (idea_details d)
                 (collaborations d
                  ++ [Collaboration.mk (next_collaborationid d) k u])
                 (next_userid d) (next_ideaid d) (next_collaborationid d + 1))
| CollaborationsDeleted (p : Collaboration.row -> bool) :
    change d (mk (security d) (idea_details d)
                 (filter (fun c => negb (p c)) (collaborations d))
                 (next_userid d) (next_ideaid d) (next_collaborationid d)).

End Statements.

(** A query under construction over the rows [J] of its FROM clause:
    its WHERE clauses, and whether every bound value can be read at the
    type of its column. *)
Record builder (J : Type) : Type := mkBuilder {
  wheres : list (J -> bool);
  bound : bool
}.
Arguments mkBuilder {J}.
Arguments wheres {J}.
Arguments bound {J}.

Definition andWhere {J : Type} (q : builder J) (p : J -> bool) : builder J :=
  mkBuilder (wheres q ++ [p]) (bound q).

(** A clause that compares an integer column with [parseInt(x)]: NaN is
    no integer, nor is a number outside the range of the type, and the
    statement fails. *)
Definition andWhereInt {J : Type} (q : builder J) (p : Z -> J -> bool)
  (x : option Z) : builder J :=
  match Sql.integer_of x with
  | Some n => andWhere q (p n)
  | None => mkBuilder (wheres q) false
  end.

(** The rows of [from] the WHERE clauses keep; [None] when the store
    refuses the statement. *)
Definition select {J : Type} (q : builder J) (from : list J)
  : option (list J) :=
  if bound q then Some (filter (fun j => forallb (fun p => p j) (wheres q)) from)
  else None.

Definition store_of {M : Type} (e : exec M) : db M :=
  match e with
  | Done d => d
  | Failed d => d
  end.

End Store.

(** ** What a handler answers *)

Inductive response : Type :=
| Redirect (url : string)
| Render (view : string) (message : string)
| Unanswered.

(** The store after the handler, its answer, and the messages it wrote
    with [console.error] (one for each [catch] it went through). *)
Record reply (M : Type) : Type := mkReply {
  store : Store.db M;
  answer : response;
  console : list string
}.
Arguments mkReply {M}.
Arguments store {M}.
Arguments answer {M}.
Arguments console {M}.

(** An integer in a template string, as in [`/editIdea/${id}`]: its
    decimal digits.  (JavaScript changes to the exponent notation from
    10^21 on, far above the ids of the store.) *)
Definition string_of_Z (z : Z) : string :=
  NilZero.string_of_int (Z.to_int z).

(** ** [src/unnamed/part_000] *)

Module Part000.

Import Js Sql Store.

#[local] Abbreviation db := (Store.db string).

Record register_form : Type := mkRegister {
  r_username : option string;
  r_password : option string;
  r_email : option string;
  r_firstname : option string;
  r_lastname : option string
}.

Record idea_form : Type := mkForm {
  ideaname : option string;
  ideadescription : option string;
  marketingstrategy : option string;
  targetcustomer : option string;
  estimatedcost : option string;
  timeline : option string;
  potential : option string
}.

Record search : Type := mkSearch {
  searchName : option string;
  searchMarketing : option string;
  searchCustomer : option string;
  minCost : option string;
  maxCost : option string;
  minPotential : option string
}.

(** The global middleware: [req.session.isLoggedIn], set at login
    together with [req.session.userId]. *)
Definition isLoggedIn (session : option Z) : bool :=
  match session with
  | Some _ => true
  | None => false
  end.

Definition login_page (d : db) : reply string :=
  mkReply d (Render "login" "Please log in to access this page") [].

(** [app.post("/register")] *)
Definition post_register (now : Z) (body : register_form) (d : db)
  : reply string :=
  if negb (truthy (r_username body)) || negb (truthy (r_password body))
     || negb (truthy (r_email body)) || negb (truthy (r_firstname body))
     || negb (truthy (r_lastname body))
  then mkReply d (Render "register" "All fields are required") []
  else
    match first_user d (or_empty (r_username body)) with
    | Some _ =>
      mkReply d
        (Render "register" "Username already exists. Please choose another.")
        []
    | None =>
      match insert_user
              (fun id => User.mk id (or_empty (r_username body))
                           (r_password body) (r_email body)
                           (r_firstname body) (r_lastname body)
                           (Some now) None (Some 0)) d with
      | Done d' =>
        mkReply d' (Render "login" "Registration successful! Please log in.")
                []
      | Failed d' =>
        mkReply d'
          (Render "register" "Unable to create account. Please try again.")
          ["Error creating user:"]
      end
    end.

(** [estimatedcost ? parseFloat(estimatedcost) : null] *)
Definition cost_of (x : option string) : option number :=
  if truthy x then Some (parseFloat (or_empty x)) else None.

(** [potential ? parseInt(potential) : null], as the value bound to the
    integer column: the outer [None] is NaN or a number outside the
    range of the column, which the store refuses. *)
Definition potential_of (x : option string) : option (option Z) :=
  if truthy x then
    match integer_of (parseInt (or_empty x)) with
    | Some n => Some (Some n)
    | None => None
    end
  else Some None.

(** [app.post("/addIdea")] *)
Definition post_addIdea (now : Z) (session : option Z) (body : idea_form)
  (d : db) : reply string :=
  match session with
  | None => login_page d
  | Some userId =>
    if negb (truthy (ideaname body)) || negb (truthy (ideadescription body))
    then mkReply d (Render "addIdea" "Idea name and description are required")
                 []
    else
      let saved :=
        match potential_of (potential body) with
        | Some p =>
          insert_idea
            (fun id => Idea.mk id userId
                         (or_empty (ideaname body))
                         (or_empty (ideadescription body))
                         (or_null (marketingstrategy body))
                         (or_null (targetcustomer body))
                         (cost_of (estimatedcost body))
                         (or_null (timeline body))
                         p (Some now) None) d
        | None => Failed d
        end in
      match saved with
      | Done d' => mkReply d' (Redirect "/ideas") []
      | Failed d' =>
        mkReply d' (Render "addIdea" "Unable to save idea. Please try again.")
                ["Error inserting idea:"]
      end
  end.

(** The fields [app.post("/editIdea/:id")] writes: [updatedIdea]. *)
Definition updatedIdea (body : idea_form) (p : option Z)
  (i : Idea.row string) : Idea.row string :=
  Idea.mk (Idea.ideaid i) (Idea.userid i)
          (or_empty (ideaname body))
          (or_empty (ideadescription body))
          (or_null (marketingstrategy body))
          (or_null (targetcustomer body))
          (cost_of (estimatedcost body))
          (or_null (timeline body))
          p (Idea.createdat i) (Idea.updatedat i).

(** [app.post("/editIdea/:id")] *)
Definition post_editIdea (session : option Z) (id : string)
  (body : idea_form) (d : db) : reply string :=
  match session with
  | None => login_page d
  | Some userId =>
    if negb (truthy (ideaname body)) || negb (truthy (ideadescription body))
    then mkReply d (Redirect ("/editIdea/" ++ id)) []
    else
      match integer_in id with
      | None => mkReply d (Redirect "/ideas") ["Error checking permissions:"]
      | Some ideaId =>
        match first_idea d ideaId with
        | None => mkReply d (Redirect "/ideas") []
        | Some idea =>
          if negb (isOwner idea userId)
             && negb (isCollaborator d ideaId userId)
          then mkReply d (Redirect "/ideas") []
          else
            let saved :=
              match potential_of (potential body) with
              | Some p => update_idea ideaId (updatedIdea body p) d
              | None => Failed d
              end in
            match saved with
            | Done d' => mkReply d' (Redirect "/ideas") []
            | Failed d' =>
              mkReply d' (Redirect ("/editIdea/" ++ id))
                      ["Error updating idea:"]
            end
        end
      end
  end.

(** The store after the first statement of [/deleteIdea]:
    [knex("collaborations").where({ ideaid: ideaId }).del()]. *)
Definition store_of_first_delete (ideaId : Z) (d : db) : db :=
  store_of (delete_collaborations
              (fun c => Collaboration.ideaid c =? ideaId) d).

(** [app.post("/deleteIdea/:id")]: the collaborations first, then the
    idea. *)
Definition post_deleteIdea (fk : fk_action) (session : option Z)
  (id : string) (d : db) : reply string :=
  match session with
  | None => login_page d
  | Some userId =>
    match integer_in id with
    | None => mkReply d (Redirect "/ideas") ["Error checking ownership:"]
    | Some ideaId =>
      match first_idea d ideaId with
      | None => mkReply d (Redirect "/ideas") []
      | Some idea =>
        if negb (isOwner idea userId) then mkReply d (Redirect "/ideas") []
        else
          let d1 := store_of_first_delete ideaId d in
          match delete_idea fk ideaId d1 with
          | Done d2 => mkReply d2 (Redirect "/ideas") []
          | Failed d2 => mkReply d2 (Redirect "/ideas") ["Error deleting idea:"]
          end
      end
    end
  end.

(** [app.post("/addCollaborator/:id")].  The look-up of the existing
    collaboration is not under a [catch]: when it fails, nothing
    answers. *)
Definition post_addCollaborator (session : option Z) (id : string)
  (collaboratorId : option string) (d : db) : reply string :=
  match session with
  | None => login_page d
  | Some userId =>
    match integer_in id with
    | None =>
      mkReply d (Redirect ("/editIdea/" ++ id)) ["Error checking ownership:"]
    | Some ideaId =>
      match first_idea d ideaId with
      | None => mkReply d (Redirect ("/editIdea/" ++ id)) []
      | Some idea =>
        if negb (isOwner idea userId)
        then mkReply d (Redirect ("/editIdea/" ++ id)) []
        else
          match option_map integer_in collaboratorId with
          | Some (Some target) =>
            match first_collaboration d ideaId target with
            | Some _ => mkReply d (Redirect ("/editIdea/" ++ id)) []
            | None =>
              match insert_collaboration false ideaId target d with
              | Done d' => mkReply d' (Redirect ("/editIdea/" ++ id)) []
              | Failed d' =>
                mkReply d' (Redirect ("/editIdea/" ++ id))
                        ["Error adding collaborator:"]
              end
            end
          | _ => mkReply d Unanswered []
          end
      end
    end
  end.

(** [app.post("/removeCollaborator/:collaborationId")] *)
Definition post_removeCollaborator (session : option Z)
  (collaborationId : string) (d : db) : reply string :=
  match session with
  | None => login_page d
  | Some userId =>
    match integer_in collaborationId with
    | None => mkReply d (Redirect "/ideas") ["Error fetching collaboration:"]
    | Some cid =>
      match first_collaboration_by_id d cid with
      | None => mkReply d (Redirect "/ideas") []
      | Some collaboration =>
        let back :=
          Redirect ("/editIdea/"
                    ++ string_of_Z (Collaboration.ideaid collaboration)) in
        match first_idea d (Collaboration.ideaid collaboration) with
        | None => mkReply d back []
        | Some idea =>
          if negb (isOwner idea userId) then mkReply d back []
          else
            mkReply
              (store_of
                 (delete_collaborations
                    (fun c => Collaboration.collaborationid c =? cid) d))
              back []
        end
      end
    end
  end.

(** [app.post("/leaveCollaboration/:id")] *)
Definition post_leaveCollaboration (session : option Z) (id : string)
  (d : db) : reply string :=
  match session with
  | None => login_page d
  | Some userId =>
    match integer_in id with
    | None => mkReply d (Redirect "/ideas") ["Error leaving collaboration:"]
    | Some ideaId =>
      mkReply (store_of (delete_collaborations (is_pair ideaId userId) d))
              (Redirect "/ideas") []
    end
  end.

(** *** [app.get("/ideas")] *)

(** A row of the FROM clause: an idea, its owner ([leftJoin security])
    and one of its collaborations ([leftJoin collaborations]). *)
Definition joined : Type :=
  (Idea.row string * option User.row * option Collaboration.row)%type.

Definition j_idea (j : joined) : Idea.row string := fst (fst j).
Definition j_owner (j : joined) : option User.row := snd (fst j).
Definition j_collaboration (j : joined) : option Collaboration.row := snd j.

(** [where(function() { this.where('id.userid', userId)
                          .orWhere('c.userid', userId) })] *)
Definition visible (userId : Z) (j : joined) : bool :=
  (Idea.userid (j_idea j) =? userId)
  || match j_collaboration j with
     | Some c => Collaboration.userid c =? userId
     | None => false
     end.

Definition from_clause (d : db) : list joined :=
  left_join (fun (j : Idea.row string * option User.row) c =>
               Idea.ideaid (fst j) =? Collaboration.ideaid c)
            (left_join (fun i s => Idea.userid i =? User.userid s)
                       (idea_details d) (security d))
            (collaborations d).

Definition group_key (j : joined) : Z * option Z :=
  (Idea.ideaid (j_idea j), option_map User.userid (j_owner j)).

Definition group_key_eqb (a b : Z * option Z) : bool :=
  (fst a =? fst b)
  && match snd a, snd b with
     | Some x, Some y => x =? y
     | None, None => true
     | _, _ => false
     end.

(** The filters of the query string, in the order of the source. *)
Definition filters (s : search) (q : builder joined) : builder joined :=
  let searchName := or_empty (searchName s) in
  let searchMarketing := or_empty (searchMarketing s) in
  let searchCustomer := or_empty (searchCustomer s) in
  let minCost := or_empty (minCost s) in
  let maxCost := or_empty (maxCost s) in
  let minPotential := or_empty (minPotential s) in
  let q :=
    if truthy (Some searchName)
    then andWhere q (fun j => contains_ci (Some (Idea.ideaname (j_idea j)))
                                          searchName)
    else q in
  let q :=
    if truthy (Some searchMarketing)
    then andWhere q (fun j => contains_ci (Idea.marketingstrategy (j_idea j))
                                          searchMarketing)
    else q in
  let q :=
    if truthy (Some searchCustomer)
    then andWhere q (fun j => contains_ci (Idea.targetcustomer (j_idea j))
                                          searchCustomer)
    else q in
  let q :=
    if truthy (Some minCost)
    then andWhere q (fun j => ge_param (Idea.estimatedcost (j_idea j))
                                       (parseFloat minCost))
    else q in
  let q :=
    if truthy (Some maxCost)
    then andWhere q (fun j => le_param (Idea.estimatedcost (j_idea j))
                                       (parseFloat maxCost))
    else q in
  if truthy (Some minPotential)
  then andWhereInt q (fun n j => ge_int (Idea.potential (j_idea j)) n)
                   (parseInt minPotential)
  else q.

(** The statement: FROM, WHERE, GROUP BY [id.ideaid, s.userid],
    ORDER BY [id.ideaid] DESC.  [None] when the store refuses it. *)
Definition run (q : builder joined) (d : db) : option (list joined) :=
  match select q (from_clause d) with
  | Some rows =>
    Some (sort_by (fun a b => Idea.ideaid (j_idea b) - Idea.ideaid (j_idea a))
                  (group_by group_key_eqb group_key [] rows))
  | None => None
  end.

(** An entry of the page: the idea, its owner's columns, and the
    collaborators attached to it by the second query. *)
Record listed : Type := mkListed {
  idea : Idea.row string;
  owner : option User.row;
  collaborators : list User.row
}.

Definition collaborators_of (d : db) (ideaId : Z) : list User.row :=
  map snd
      (join (fun c s => Collaboration.userid c =? User.userid s)
            (filter (fun c => Collaboration.ideaid c =? ideaId)
                    (collaborations d))
            (security d)).

Inductive page : Type :=
| ViewIdeas (ideas : list listed) (error_message : option string)
| Login.

Definition get_ideas (session : option Z) (s : search) (d : db) : page :=
  match session with
  | None => Login
  | Some userId =>
    match run (filters s (mkBuilder [visible userId] true)) d with
    | Some rows =>
      ViewIdeas
        (map (fun j => mkListed (j_idea j) (j_owner j)
                         (collaborators_of d (Idea.ideaid (j_idea j))))
             rows)
        None
    | None => ViewIdeas [] (Some "Database error:")
    end
  end.

Definition ideas_of (p : page) : list listed :=
  match p with
  | ViewIdeas ideas _ => ideas
  | Login => []
  end.

(** *** The filters one by one, for the statements about them *)

Inductive filter_name : Type :=
| SearchName
| SearchMarketing
| SearchCustomer
| MinCost
| MaxCost
| MinPotential.

Definition all_filters : list filter_name :=
  [SearchName; SearchMarketing; SearchCustomer; MinCost; MaxCost;
   MinPotential].

Definition filter_index (f : filter_name) : nat :=
  match f with
  | SearchName => 0
  | SearchMarketing => 1
  | SearchCustomer => 2
  | MinCost => 3
  | MaxCost => 4
  | MinPotential => 5
  end.

Definition supplied (fs : list filter_name) (f : filter_name) : bool :=
  existsb (fun g => Nat.eqb (filter_index g) (filter_index f)) fs.

(** The query string with only the filters [fs] of [s] submitted. *)
Definition keep (fs : list filter_name) (s : search) : search :=
  mkSearch
    (if supplied fs SearchName then searchName s else None)
    (if supplied fs SearchMarketing then searchMarketing s else None)
    (if supplied fs SearchCustomer then searchCustomer s else None)
    (if supplied fs MinCost then minCost s else None)
    (if supplied fs MaxCost then maxCost s else None)
    (if supplied fs MinPotential then minPotential s else None).

(** Whether the clauses [filters] adds for [s] hold of an idea (they read
    no other part of the row), and the statement can run. *)
Definition matches (s : search) (i : Idea.row string) : bool :=
  let q := filters s (mkBuilder [] true) in
  bound q && forallb (fun p => p (i, None, None)) (wheres q).

(** The ids a page lists, in its order. *)
Definition ids (p : page) : list Z :=
  map (fun x => Idea.ideaid (idea x)) (ideas_of p).

(** *** The requests that write to the store *)

Inductive request : Type :=
| Register (now : Z) (body : register_form)
| AddIdea (now : Z) (session : option Z) (body : idea_form)
| EditIdea (session : option Z) (id : string) (body : idea_form)
| DeleteIdea (session : option Z) (id : string)
| AddCollaborator (session : option Z) (id : string)
    (collaboratorId : option string)
| RemoveCollaborator (session : option Z) (collaborationId : string)
| LeaveCollaboration (session : option Z) (id : string).

(** The user of the session a request comes with. *)
Definition requester (r : request) : option Z :=
  match r with
  | Register _ _ => None
  | AddIdea _ session _ => session
  | EditIdea session _ _ => session
  | DeleteIdea session _ => session
  | AddCollaborator session _ _ => session
  | RemoveCollaborator session _ => session
  | LeaveCollaboration session _ => session
  end.

Definition handle (fk : fk_action) (r : request) (d : db) : reply string :=
  match r with
  | Register now body => post_register now body d
  | AddIdea now session body => post_addIdea now session body d
  | EditIdea session id body => post_editIdea session id body d
  | DeleteIdea session id => post_deleteIdea fk session id d
  | AddCollaborator session id c => post_addCollaborator session id c d
  | RemoveCollaborator session c => post_removeCollaborator session c d
  | LeaveCollaboration session id => post_leaveCollaboration session id d
  end.

Definition serve (fk : fk_action) (rs : list request) (d : db) : db :=
  fold_left (fun d r => store (handle fk r d)) rs d.

End Part000.

(** ** [src/index.js] *)

Module IndexJs.

Import Js Sql Store.

#[local] Abbreviation db := (Store.db (list string)).

Record account_form : Type := mkAccount {
  a_username : option string;
  a_password : option string;
  a_email : option string;
  a_firstname : option string;
  a_lastname : option string
}.

(** A field a form may send several times (the marketing check boxes):
    absent, one text, or an array of texts. *)
Inductive field : Type :=
| Undefined
| Text (s : string)
| Array (l : list string).

Record idea_form : Type := mkForm {
  ideaname : option string;
  ideadescription : option string;
  marketingstrategy : field;
  targetcustomer : option string;
  estimatedcost : option string;
  timeline : option string;
  potential : option string
}.

Record search : Type := mkSearch {
  q_marketingstrategy : option string;
  q_maxcost : option string;
  q_ideaname : option string;
  q_potential : option string
}.

(** [requireAuth]: [req.session.userId] has to be truthy. *)
Definition requireAuth (session : option Z) : option Z :=
  match session with
  | Some userId => if userId =? 0 then None else Some userId
  | None => None
  end.

Definition to_login (d : db) : reply (list string) :=
  mkReply d (Redirect "/login") [].

(** [app.post('/create-account')] *)
Definition post_create_account (body : account_form) (d : db)
  : reply (list string) :=
  match a_username body with
  | None =>
    mkReply d (Render "createAccount" "An error occurred. Please try again.")
            ["Create account error:"]
  | Some username =>
    match first_user d username with
    | Some _ =>
      mkReply d
        (Render "createAccount"
                "Username already exists. Please choose a different username.")
        []
    | None =>
      mkReply
        (store_of
           (insert_user
              (fun id => User.mk id username (a_password body) (a_email body)
                           (a_firstname body) (a_lastname body)
                           None None None) d))
        (Redirect "/") []
    end
  end.

(** [app.post('/login')] *)
Definition post_login (now : Z) (username password : option string) (d : db)
  : reply (list string) :=
  match username, password with
  | Some name, Some pw =>
    match find (fun r => (User.username r =? name)%string
                         && match User.passwordhash r with
                            | Some h => (h =? pw)%string
                            | None => false
                            end) (security d) with
    | Some user =>
      mkReply
        (store_of
           (update_user (User.userid user)
              (fun r => User.mk (User.userid r) (User.username r)
                          (User.passwordhash r) (User.email r)
                          (User.firstname r) (User.lastname r)
                          (User.accountcreated r) (Some now)
                          (User.failedattempts r)) d))
        (Redirect "/") []
    | None => mkReply d (Render "login" "Invalid username or password") []
    end
  | _, _ =>
    mkReply d (Render "login" "An error occurred. Please try again.")
            ["Login error:"]
  end.

(** [marketingArray] *)
Definition marketingArray (x : field) : option (list string) :=
  match x with
  | Undefined => None
  | Text s => if (s =? "")%string then None else Some [s]
  | Array l => Some l
  end.

(** [x || null] bound to a column that [cast] reads: the outer [None] is
    a text the store refuses. *)
Definition bind {A : Type} (cast : string -> option A) (x : option string)
  : option (option A) :=
  match or_null x with
  | None => Some None
  | Some s =>
    match cast s with
    | Some v => Some (Some v)
    | None => None
    end
  end.

(** [app.post('/add-idea')].  An [undefined] name or description is
    left to the column's default, NULL, which the column refuses. *)
Definition post_add_idea (now : Z) (session : option Z) (body : idea_form)
  (d : db) : reply (list string) :=
  match requireAuth session with
  | None => to_login d
  | Some userId =>
    let saved :=
      match ideaname body, ideadescription body,
            bind numeric_in (estimatedcost body),
            bind integer_in (potential body) with
      | Some name, Some description, Some cost, Some p =>
        insert_idea
          (fun id => Idea.mk id userId name description
                       (marketingArray (marketingstrategy body))
                       (or_null (targetcustomer body))
                       cost
                       (or_null (timeline body))
                       p (Some now) None) d
      | _, _, _, _ => Failed d
      end in
    match saved with
    | Done d' => mkReply d' (Redirect "/view-ideas") []
    | Failed d' =>
      mkReply d' (Render "addIdea" "Failed to add idea. Please try again.")
              ["Add idea error:"]
    end
  end.

(** The columns [app.post('/edit-idea/:id')] writes.  A key of the
    update whose value is [undefined] is left out of the statement. *)
Definition updated (now : Z) (body : idea_form) (cost : option number)
  (p : option Z) (i : Idea.row (list string)) : Idea.row (list string) :=
  Idea.mk (Idea.ideaid i) (Idea.userid i)
          (match ideaname body with
           | Some s => s
           | None => Idea.ideaname i
           end)
          (match ideadescription body with
           | Some s => s
           | None => Idea.ideadescription i
           end)
          (marketingArray (marketingstrategy body))
          (or_null (targetcustomer body))
          cost
          (or_null (timeline body))
          p (Idea.createdat i) (Some now).

(** [app.post('/edit-idea/:id')] *)
Definition post_edit_idea (now : Z) (session : option Z) (id : string)
  (body : idea_form) (d : db) : reply (list string) :=
  match requireAuth session with
  | None => to_login d
  | Some userId =>
    let failed :=
      mkReply d (Redirect ("/edit-idea/" ++ id)) ["Update idea error:"] in
    match integer_in id with
    | None => failed
    | Some ideaId =>
      match first_idea d ideaId with
      | None => mkReply d (Redirect "/view-ideas") []
      | Some idea =>
        if negb (isOwner idea userId) && negb (isCollaborator d ideaId userId)
        then mkReply d (Redirect "/view-ideas") []
        else
          match bind numeric_in (estimatedcost body),
                bind integer_in (potential body) with
          | Some cost, Some p =>
            mkReply
              (store_of (update_idea ideaId (updated now body cost p) d))
              (Redirect "/view-ideas") []
          | _, _ => failed
          end
      end
    end
  end.

(** [app.post('/add-collaborator/:id')] *)
Definition post_add_collaborator (session : option Z) (id : string)
  (userid : option string) (d : db) : reply (list string) :=
  match requireAuth session with
  | None => to_login d
  | Some userId =>
    let back := Redirect ("/edit-idea/" ++ id) in
    match integer_in id with
    | None => mkReply d back ["Add collaborator error:"]
    | Some ideaId =>
      match first_idea d ideaId with
      | None => mkReply d back []
      | Some idea =>
        if isOwner idea userId then
          match match userid with
                | Some s => parseInt s
                | None => None
                end with
          | Some target =>
            match insert_collaboration true ideaId target d with
            | Done d' => mkReply d' back []
            | Failed d' => mkReply d' back ["Add collaborator error:"]
            end
          | None => mkReply d back ["Add collaborator error:"]
          end
        else mkReply d back []
      end
    end
  end.

(** [app.post('/remove-collaborator/:ideaid/:userid')] *)
Definition post_remove_collaborator (session : option Z)
  (ideaid userid : string) (d : db) : reply (list string) :=
  match requireAuth session with
  | None => to_login d
  | Some userId =>
    let back := Redirect ("/edit-idea/" ++ ideaid) in
    match integer_in ideaid with
    | None => mkReply d back ["Remove collaborator error:"]
    | Some ideaId =>
      match first_idea d ideaId with
      | None => mkReply d back []
      | Some idea =>
        if isOwner idea userId then
          match integer_in userid with
          | Some target =>
            mkReply
              (store_of (delete_collaborations (is_pair ideaId target) d))
              back []
          | None => mkReply d back ["Remove collaborator error:"]
          end
        else mkReply d back []
      end
    end
  end.

(** [app.post('/delete-idea/:id')]: one DELETE, on [idea_details]. *)
Definition post_delete_idea (fk : fk_action) (session : option Z)
  (id : string) (d : db) : reply (list string) :=
  match requireAuth session with
  | None => to_login d
  | Some userId =>
    match integer_in id with
    | None => mkReply d (Redirect "/view-ideas") ["Delete idea error:"]
    | Some ideaId =>
      match first_idea d ideaId with
      | None => mkReply d (Redirect "/view-ideas") []
      | Some idea =>
        if isOwner idea userId then
          match delete_idea fk ideaId d with
          | Done d' => mkReply d' (Redirect "/view-ideas") []
          | Failed d' =>
            mkReply d' (Redirect "/view-ideas") ["Delete idea error:"]
          end
        else mkReply d (Redirect "/view-ideas") []
      end
    end
  end.

(** *** [app.get('/view-ideas')] *)

(** The rows of the two FROM clauses. *)
Definition mine_row : Type := (Idea.row (list string) * option User.row)%type.

Definition shared_row : Type :=
  (Idea.row (list string) * option User.row * Collaboration.row)%type.

Definition with_creator (d : db) : list mine_row :=
  left_join (fun i s => Idea.userid i =? User.userid s)
            (idea_details d) (security d).

(** [myIdeasQuery]: [.where('i.userid', req.session.userId)] *)
Definition myIdeasQuery (userId : Z) : builder mine_row :=
  mkBuilder [fun j => Idea.userid (fst j) =? userId] true.

(** [sharedIdeasQuery]: [.where('c.userid', req.session.userId)
    .whereNot('i.userid', req.session.userId)] *)
Definition sharedIdeasQuery (userId : Z) : builder shared_row :=
  mkBuilder [fun j => Collaboration.userid (snd j) =? userId;
             fun j => negb (Idea.userid (fst (fst j)) =? userId)] true.

Definition shared_from (d : db) : list shared_row :=
  join (fun (j : mine_row) c => Idea.ideaid (fst j) =? Collaboration.ideaid c)
       (with_creator d) (collaborations d).

(** The filters of the query string, put on a query whose rows give
    the idea by [idea_of]; the source puts each on both queries. *)
Definition filters {J : Type} (idea_of : J -> Idea.row (list string))
  (s : search) (q : builder J) : builder J :=
  let q :=
    if truthy (q_marketingstrategy s)
    then andWhere q (fun j => any_eq (or_empty (q_marketingstrategy s))
                                     (Idea.marketingstrategy (idea_of j)))
    else q in
  let q :=
    if truthy (q_maxcost s)
    then andWhere q (fun j => le_param (Idea.estimatedcost (idea_of j))
                                       (parseFloat (or_empty (q_maxcost s))))
    else q in
  let q :=
    if truthy (q_ideaname s)
    then andWhere q (fun j => contains_ci (Some (Idea.ideaname (idea_of j)))
                                          (or_empty (q_ideaname s)))
    else q in
  if truthy (q_potential s)
  then andWhereInt q (fun n j => ge_int (Idea.potential (idea_of j)) n)
                   (parseInt (or_empty (q_potential s)))
  else q.

(** An entry of the page: [i.*], the creator's columns, [is_owner]. *)
Record listed : Type := mkListed {
  idea : Idea.row (list string);
  creator : option User.row;
  is_owner : bool
}.

(** [new Date(x.createdat)] as a number: NULL is the epoch. *)
Definition time_of (x : listed) : Z :=
  match Idea.createdat (idea x) with
  | Some t => t
  | None => 0
  end.

Inductive page : Type :=
| ViewIdeas (ideas : list listed)
| Error500
| Login.

Definition get_view_ideas (session : option Z) (s : search) (d : db) : page :=
  match requireAuth session with
  | None => Login
  | Some userId =>
    match select (filters fst s (myIdeasQuery userId)) (with_creator d),
          select (filters (fun j => fst (fst j)) s (sharedIdeasQuery userId))
                 (shared_from d) with
    | Some myIdeas, Some sharedIdeas =>
      ViewIdeas
        (sort_by (fun a b => time_of b - time_of a)
           (map (fun j => mkListed (fst j) (snd j) true) myIdeas
            ++ map (fun j => mkListed (fst (fst j)) (snd (fst j)) false)
                   sharedIdeas))
    | _, _ => Error500
    end
  end.

Definition ideas_of (p : page) : list listed :=
  match p with
  | ViewIdeas ideas => ideas
  | _ => []
  end.

(** *** The filters one by one, for the statements about them *)

Inductive filter_name : Type :=
| Marketingstrategy
| Maxcost
| Ideaname
| Potential.

Definition all_filters : list filter_name :=
  [Marketingstrategy; Maxcost; Ideaname; Potential].

Definition filter_index (f : filter_name) : nat :=
  match f with
  | Marketingstrategy => 0
  | Maxcost => 1
  | Ideaname => 2
  | Potential => 3
  end.

Definition supplied (fs : list filter_name) (f : filter_name) : bool :=
  existsb (fun g => Nat.eqb (filter_index g) (filter_index f)) fs.

(** The query string with only the filters [fs] of [s] submitted. *)
Definition keep (fs : list filter_name) (s : search) : search :=
  mkSearch
    (if supplied fs Marketingstrategy then q_marketingstrategy s else None)
    (if supplied fs Maxcost then q_maxcost s else None)
    (if supplied fs Ideaname then q_ideaname s else None)
    (if supplied fs Potential then q_potential s else None).

(** Whether the clauses [filters] adds for [s] hold of an idea, and the
    statement can run. *)
Definition matches (s : search) (i : Idea.row (list string)) : bool :=
  let q := filters (fun i => i) s (mkBuilder [] true) in
  bound q && forallb (fun p => p i) (wheres q).

(** The ids a page lists, in its order. *)
Definition ids (p : page) : list Z :=
  map (fun x => Idea.ideaid (idea x)) (ideas_of p).

(** *** The requests that write to the store *)

Inductive request : Type :=
| CreateAccount (body : account_form)
| LogIn (now : Z) (username password : option string)
| AddIdea (now : Z) (session : option Z) (body : idea_form)
| EditIdea (now : Z) (session : option Z) (id : string) (body : idea_form)
| DeleteIdea (session : option Z) (id : string)
| AddCollaborator (session : option Z) (id : string) (userid : option string)
| RemoveCollaborator (session : option Z) (ideaid userid : string).

(** The user of the session a request comes with. *)
Definition requester (r : request) : option Z :=
  match r with
  | CreateAccount _ => None
  | LogIn _ _ _ => None
  | AddIdea _ session _ => session
  | EditIdea _ session _ _ => session
  | DeleteIdea session _ => session
  | AddCollaborator session _ _ => session
  | RemoveCollaborator session _ _ => session
  end.

Definition handle (fk : fk_action) (r : request) (d : db)
  : reply (list string) :=
  match r with
  | CreateAccount body => post_create_account body d
  | LogIn now username password => post_login now username password d
  | AddIdea now session body => post_add_idea now session body d
  | EditIdea now session id body => post_edit_idea now session id body d
  | DeleteIdea session id => post_delete_idea fk session id d
  | AddCollaborator session id u => post_add_collaborator session id u d
  | RemoveCollaborator session i u => post_remove_collaborator session i u d
  end.

Definition serve (fk : fk_action) (rs : list request) (d : db) : db :=
  fold_left (fun d r => store (handle fk r d)) rs d.

End IndexJs.

(** ** [src/unnamed/part_000]: the session and the pages *)

Module Part000Pages.

Import Js Sql Store Part000.

#[local] Abbreviation db := (Store.db string).

(** What [app.post("/login")] puts in the session, next to
    [isLoggedIn]. *)
Record account : Type := mkAccount {
  userId : Z;
  username : string;
  email : option string;
  firstName : option string;
  lastName : option string
}.

(** The session: [None] before a login and after [/logout]. *)
Definition session : Type := option account.

(** [req.session.userId], as the handlers of [Part000] take it. *)
Definition user_of (s : session) : option Z := option_map userId s.

Definition account_of (r : User.row) : account :=
  mkAccount (User.userid r) (User.username r) (User.email r)
            (User.firstname r) (User.lastname r).

(** What a request leaves: the session, the answer, the console. *)
Record visit : Type := mkVisit {
  session_after : session;
  shown : response;
  logged : list string
}.

(** [.where("username", sUsername).andWhere("passwordhash", sPassword)] *)
Definition credentials (name pw : string) (r : User.row) : bool :=
  (User.username r =? name)%string
  && match User.passwordhash r with
     | Some h => (h =? pw)%string
     | None => false
     end.

(** [app.post("/login")]: the first row with the name and the password
    is logged in.  An [undefined] name or password is an undefined
    binding, which the [catch] answers. *)
Definition post_login (sUsername sPassword : option string) (s : session)
  (d : db) : visit :=
  match sUsername, sPassword with
  | Some name, Some pw =>
    match filter (credentials name pw) (security d) with
    | user :: _ => mkVisit (Some (account_of user)) (Redirect "/") []
    | [] => mkVisit s (Render "login" "Invalid username or password") []
    end
  | _, _ =>
    mkVisit s (Render "login" "Login error. Please try again.")
            ["Login error:"]
  end.

(** [app.get("/logout")] *)
Definition get_logout (s : session) : visit :=
  mkVisit None (Redirect "/") [].

(** [app.get("/")] *)
Definition get_home (s : session) : response :=
  if isLoggedIn (user_of s) then Render "index" "" else Render "landing" "".

(** [app.get("/login")] and [app.get("/register")] *)
Definition get_login (s : session) : response :=
  if isLoggedIn (user_of s) then Redirect "/" else Render "login" "".

Definition get_register (s : session) : response :=
  if isLoggedIn (user_of s) then Redirect "/" else Render "register" "".

(** The global middleware on a path. *)
Definition publicRoutes : list string := ["/"; "/login"; "/register"; "/logout"].

Definition passes (path : string) (s : session) : bool :=
  existsb (String.eqb path) publicRoutes || isLoggedIn (user_of s).

(** What [app.get("/editIdea/:id")] answers. *)
Inductive edit_page : Type :=
| EditPage (idea : Idea.row string)
    (collaborators : list (Collaboration.row * User.row))
    (availableUsers : list User.row) (isOwner : bool)
| Away (url : string) (errors : list string)
| LogInFirst.

(** The collaborators of the page: [collaborations] joined with
    [security], for the idea. *)
Definition collaborators_on (d : db) (ideaId : Z)
  : list (Collaboration.row * User.row) :=
  filter (fun j => Collaboration.ideaid (fst j) =? ideaId)
         (join (fun c s => Collaboration.userid c =? User.userid s)
               (collaborations d) (security d)).

(** [.whereNot('userid', idea.userid)
     .whereNotIn('userid', collaborators.map(c => c.userid))] *)
Definition availableUsers_for (d : db) (idea : Idea.row string)
  (collaborators : list (Collaboration.row * User.row)) : list User.row :=
  filter (fun r =>
            negb (User.userid r =? Idea.userid idea)
            && negb (existsb (fun c => User.userid (snd c) =? User.userid r)
                             collaborators))
         (security d).

(** [app.get("/editIdea/:id")] *)
Definition get_editIdea (session : option Z) (id : string) (d : db)
  : edit_page :=
  match session with
  | None => LogInFirst
  | Some userId =>
    match integer_in id with
    | None => Away "/ideas" ["Error fetching idea:"]
    | Some ideaId =>
      match first_idea d ideaId with
      | None => Away "/ideas" []
      | Some idea =>
        let isOwner := Store.isOwner idea userId in
        let isCollaborator := Store.isCollaborator d ideaId userId in
        if negb isOwner && negb isCollaborator then Away "/ideas" []
        else
          let collaborators := collaborators_on d ideaId in
          EditPage idea collaborators
                   (availableUsers_for d idea collaborators) isOwner
      end
    end
  end.

End Part000Pages.

(** ** [src/index.js]: the session and the pages *)

Module IndexJsPages.

Import Js Sql Store IndexJs.

#[local] Abbreviation db := (Store.db (list string)).

(** What a login puts in the session. *)
Record account : Type := mkAccount {
  userId : Z;
  username : string;
  firstName : option string
}.

Definition session : Type := option account.

(** [req.session.userId], as the handlers of [IndexJs] take it. *)
Definition user_of (s : session) : option Z := option_map userId s.

Definition account_of (r : User.row) : account :=
  mkAccount (User.userid r) (User.username r) (User.firstname r).

(** The session and the reply of a request. *)
Record visit : Type := mkVisit {
  session_after : session;
  reply_of : reply (list string)
}.

(** [app.post('/create-account')], session included: the new user is
    read back by name and logged in. *)
Definition create_account (body : account_form) (s : session) (d : db)
  : visit :=
  match a_username body with
  | None =>
    mkVisit s
      (mkReply d
         (Render "createAccount" "An error occurred. Please try again.")
         ["Create account error:"])
  | Some username =>
    match first_user d username with
    | Some _ =>
      mkVisit s
        (mkReply d
           (Render "createAccount"
              "Username already exists. Please choose a different username.")
           [])
    | None =>
      let d' :=
        store_of
          (insert_user
             (fun id => User.mk id username (a_password body) (a_email body)
                          (a_firstname body) (a_lastname body)
                          None None None) d) in
      match first_user d' username with
      | Some newUser =>
        mkVisit (Some (account_of newUser)) (mkReply d' (Redirect "/") [])
      | None =>
        mkVisit s
          (mkReply d'
             (Render "createAccount" "An error occurred. Please try again.")
             ["Create account error:"])
      end
    end
  end.

(** [app.post('/login')], session included. *)
Definition login (now : Z) (username password : option string) (s : session)
  (d : db) : visit :=
  match username, password with
  | Some name, Some pw =>
    match find (fun r => (User.username r =? name)%string
                         && match User.passwordhash r with
                            | Some h => (h =? pw)%string
                            | None => false
                            end) (security d) with
    | Some user =>
      mkVisit (Some (account_of user))
              (post_login now username password d)
    | None => mkVisit s (post_login now username password d)
    end
  | _, _ => mkVisit s (post_login now username password d)
  end.

(** [app.get('/logout')] *)
Definition get_logout (s : session) : session * response :=
  (None, Redirect "/login").

(** [app.get('/')], [app.get('/add-idea')]: behind [requireAuth]. *)
Definition get_home (s : session) : response :=
  match requireAuth (user_of s) with
  | Some _ => Render "landing" ""
  | None => Redirect "/login"
  end.

Definition get_add_idea (s : session) : response :=
  match requireAuth (user_of s) with
  | Some _ => Render "addIdea" ""
  | None => Redirect "/login"
  end.

(** [app.get('/login')] and [app.get('/create-account')] *)
Definition get_login (s : session) : response :=
  match requireAuth (user_of s) with
  | Some _ => Redirect "/"
  | None => Render "login" ""
  end.

Definition get_create_account (s : session) : response :=
  match requireAuth (user_of s) with
  | Some _ => Redirect "/"
  | None => Render "createAccount" ""
  end.

(** What [app.get('/edit-idea/:id')] answers. *)
Inductive edit_page : Type :=
| EditPage (idea : Idea.row (list string)) (isOwner : bool)
    (collaborators : list User.row) (allUsers : list User.row)
| Away (url : string) (errors : list string).

(** [app.get('/edit-idea/:id')] *)
Definition get_edit_idea (session : option Z) (id : string) (d : db)
  : edit_page :=
  match requireAuth session with
  | None => Away "/login" []
  | Some userId =>
    match integer_in id with
    | None => Away "/view-ideas" ["Edit idea page error:"]
    | Some ideaId =>
      match first_idea d ideaId with
      | None => Away "/view-ideas" []
      | Some idea =>
        let isOwner := Store.isOwner idea userId in
        if negb isOwner && negb (Store.isCollaborator d ideaId userId)
        then Away "/view-ideas" []
        else
          EditPage idea isOwner
            (map snd
               (filter (fun j : Collaboration.row * User.row =>
                          Collaboration.ideaid (fst j) =? ideaId)
                       (join (fun c s => Collaboration.userid c
                                         =? User.userid s)
                             (collaborations d) (security d))))
            (filter (fun r => negb (User.userid r =? Idea.userid idea))
                    (security d))
      end
    end
  end.

End IndexJsPages.

(** ** The store once an idea and its collaborations are deleted *)

Definition without {M : Type} (d : Store.db M) (k : Z) : Store.db M :=
  Store.mk (Store.security d)
     (filter (fun i => negb (Idea.ideaid i =? k)) (Store.idea_details d))
     (filter (fun c => negb (Collaboration.ideaid c =? k))
             (Store.collaborations d))
     (Store.next_userid d) (Store.next_ideaid d)
     (Store.next_collaborationid d).

(** ** What one request can do to the ideas *)

(** Nothing; a row more; an update of the rows of an id that keeps id
    and owner, for a user who may view the idea; the deletion of the
    rows of an id, for the owner of the idea. *)
Definition ideas_step {M : Type} (who : option Z) (d d' : Store.db M)
  : Prop :=
  Store.idea_details d' = Store.idea_details d
  \/ (exists row, Store.idea_details d' = Store.idea_details d ++ [row])
  \/ (exists u k i f,
         who = Some u /\ Store.first_idea d k = Some i
         /\ Store.canView d i u = true
         /\ (forall x, Idea.ideaid (f x) = Idea.ideaid x
                       /\ Idea.userid (f x) = Idea.userid x)
         /\ Store.idea_details d'
            = map (fun x => if Idea.ideaid x =? k then f x else x)
                  (Store.idea_details d))
  \/ (exists u k i,
         who = Some u /\ Store.first_idea d k = Some i
         /\ Store.isOwner i u = true
         /\ Store.idea_details d'
            = filter (fun x => negb (Idea.ideaid x =? k))
                     (Store.idea_details d)).

(** ** The characters LIKE reads as themselves *)

Definition literal_char (c : ascii) : Prop :=
  c <> "%"%char /\ c <> "_"%char /\ c <> "\"%char.

(** ** The order "newest first, then largest id first"

    Of two entries that stand next to each other, given by creation
    timestamp and id: the first is the newer one, or, when their
    timestamps are equal or one is absent, the one with the larger id. *)

Definition newest_then_largest (a b : option Z * Z) : Prop :=
  match fst a, fst b with
  | Some ta, Some tb => tb < ta \/ (tb = ta /\ snd b < snd a)
  | _, _ => snd b < snd a
  end.

Definition stamp_and_id {M : Type} (i : Idea.row M) : option Z * Z :=
  (Idea.createdat i, Idea.ideaid i).

(** ** A scenario: alice, bob, and the idea "Laundromat" *)

Module Scenario.

Import Store.

Definition alice : Part000.register_form :=
  Part000.mkRegister (Some "alice") (Some "pw1") (Some "a@x.org")
                     (Some "Alice") (Some "A").

Definition bob : Part000.register_form :=
  Part000.mkRegister (Some "bob") (Some "pw2") (Some "b@x.org")
                     (Some "Bob") (Some "B").

Definition laundromat : Part000.idea_form :=
  Part000.mkForm (Some "Laundromat") (Some "Coin laundry") None None
                 (Some "5000") None (Some "7").

Definition kiosk : Part000.idea_form :=
  Part000.mkForm (Some "Kiosk") (Some "Newspapers") (Some "flyers") None
                 (Some "500") None (Some "3").

(** Alice (user 1) and Bob (user 2) register; Alice adds two ideas
    (1 and 2) and shares the first with Bob. *)
Definition shared : Store.db string :=
  Part000.serve Restrict
    [Part000.Register 10 alice; Part000.Register 11 bob;
     Part000.AddIdea 20 (Some 1) laundromat;
     Part000.AddIdea 21 (Some 1) kiosk;
     Part000.AddCollaborator (Some 1) "1" (Some "2")]
    empty.

Definition laundromat_row : Idea.row string :=
  Idea.mk 1 1 "Laundromat" "Coin laundry" None None
          (Some (Js.Finite 5000 0)) None (Some 7) (Some 20) None.



Definition kiosk_row : Idea.row string :=
  Idea.mk 2 1 "Kiosk" "Newspapers" (Some "flyers") None
          (Some (Js.Finite 500 0)) None (Some 3) (Some 21) None.

(** Alice also lists herself as a collaborator of her first idea. *)
Definition self_shared : Store.db string :=
  store (Part000.post_addCollaborator (Some 1) "1" (Some "1") shared).

Definition no_search : Part000.search :=
  Part000.mkSearch None None None None None None.

(** A form with no cost and no potential. *)
Definition cafe : Part000.idea_form :=
  Part000.mkForm (Some "Cafe") (Some "Coffee") None None (Some "") None None.

(** Before Alice shares her first idea. *)
Definition unshared : Store.db string :=
  Part000.serve Restrict
    [Part000.Register 10 alice; Part000.Register 11 bob;
     Part000.AddIdea 20 (Some 1) laundromat]
    empty.

(** The name has an "o", the cost is at least 1000. *)
Definition o_and_cost : Part000.search :=
  Part000.mkSearch (Some "o") None None (Some "1000") None None.

(** At most 0 for the cost. *)
Definition free_only : Part000.search :=
  Part000.mkSearch None None None None (Some "0") None.

(** The same on [index.js]: the two ideas are added at the same instant. *)
Definition carol : IndexJs.account_form :=
  IndexJs.mkAccount (Some "carol") (Some "pw3") (Some "c@x.org")
                    (Some "Carol") (Some "C").

Definition dave : IndexJs.account_form :=
  IndexJs.mkAccount (Some "dave") (Some "pw4") (Some "d@x.org")
                    (Some "Dave") (Some "D").

Definition bakery : IndexJs.idea_form :=
  IndexJs.mkForm (Some "Bakery") (Some "Bread") (IndexJs.Text "flyers") None
                 (Some "5000") None (Some "7").

Definition florist : IndexJs.idea_form :=
  IndexJs.mkForm (Some "Florist") (Some "Flowers")
                 (IndexJs.Array ["flyers"; "radio"]) None
                 (Some "500") None (Some "3").

Definition unnamed : IndexJs.idea_form :=
  IndexJs.mkForm (Some "") (Some "") IndexJs.Undefined None None None None.

Definition shared_js : Store.db (list string) :=
  IndexJs.serve schema_on_delete
    [IndexJs.CreateAccount carol; IndexJs.CreateAccount dave;
     IndexJs.AddIdea 20 (Some 1) bakery;
     IndexJs.AddIdea 20 (Some 1) florist;
     IndexJs.AddCollaborator (Some 1) "1" (Some "2")]
    empty.

Definition bakery_row : Idea.row (list string) :=
  Idea.mk 1 1 "Bakery" "Bread" (Some ["flyers"]) None
          (Some (Js.Finite 5000 0)) None (Some 7) (Some 20) None.

Definition florist_row : Idea.row (list string) :=
  Idea.mk 2 1 "Florist" "Flowers" (Some ["flyers"; "radio"]) None
          (Some (Js.Finite 500 0)) None (Some 3) (Some 20) None.

Definition self_shared_js : Store.db (list string) :=
  store (IndexJs.post_add_collaborator (Some 1) "1" (Some "1") shared_js).

Definition no_search_js : IndexJs.search :=
  IndexJs.mkSearch None None None None.

Definition free_only_js : IndexJs.search :=
  IndexJs.mkSearch None (Some "0") None None.

End Scenario.


(** * Properties *)

(** ** The model on concrete requests *)

Example parseInt_12abc : Js.parseInt "  12abc" = Some 12.
Proof. reflexivity. Qed.

Example parseInt_hex : Js.parseInt "-0x1f" = Some (-31).
Proof. reflexivity. Qed.

Example parseInt_abc : Js.parseInt "abc" = None.
Proof. reflexivity. Qed.

Example parseFloat_zero : Js.parseFloat "0" = Js.Finite 0 0.
Proof. reflexivity. Qed.

Example parseFloat_exp : Js.parseFloat "12.50e1x" = Js.Finite 1250 (-1).
Proof. reflexivity. Qed.

Example parseFloat_dot : Js.parseFloat "." = Js.NaN.
Proof. reflexivity. Qed.

Example contains_ci_laundromat :
  Sql.contains_ci (Some "Laundromat") "DROM" = true.
Proof. reflexivity. Qed.

Example contains_ci_underscore :
  Sql.contains_ci (Some "Laundromat") "l_u" = true.
Proof. reflexivity. Qed.

Example integer_in_trailing : Sql.integer_in "12abc" = None.
Proof. reflexivity. Qed.

Example scenario_alice_sees_both :
  Part000.ids (Part000.get_ideas (Some 1) Scenario.no_search Scenario.shared)
  = [2; 1].
Proof. vm_compute. reflexivity. Qed.

Example scenario_bob_sees_shared :
  Part000.ids (Part000.get_ideas (Some 2) Scenario.no_search Scenario.shared)
  = [1].
Proof. vm_compute. reflexivity. Qed.

Example scenario_bob_leaves :
  Part000.ids
    (Part000.get_ideas (Some 2) Scenario.no_search
       (store (Part000.post_leaveCollaboration (Some 2) "1" Scenario.shared)))
  = [].
Proof. vm_compute. reflexivity. Qed.

Example scenario_maxCost :
  Part000.ids
    (Part000.get_ideas (Some 1)
       (Part000.mkSearch None None None None (Some "1000") None)
       Scenario.shared)
  = [2].
Proof. vm_compute. reflexivity. Qed.

Example empty_consistent :
  Store.consistent (Store.empty (M := string)) = true.
Proof. reflexivity. Qed.

Example scenario_consistent : Store.consistent Scenario.shared = true.
Proof. vm_compute. reflexivity. Qed.

Example scenario_js_tied :
  IndexJs.ids
    (IndexJs.get_view_ideas (Some 1) Scenario.no_search_js Scenario.shared_js)
  = [1; 2].
Proof. vm_compute. reflexivity. Qed.

Example scenario_js_shared :
  IndexJs.ids
    (IndexJs.get_view_ideas (Some 2) Scenario.no_search_js Scenario.shared_js)
  = [1].
Proof. vm_compute. reflexivity. Qed.

Example scenario_js_consistent : Store.consistent Scenario.shared_js = true.
Proof. vm_compute. reflexivity. Qed.

(** ** Lists: joins, grouping and sorting *)

Section ListFacts.
Context {A B : Type}.

Lemma in_join (on : A -> B -> bool) l r a b :
  In (a, b) (Store.join on l r) <-> In a l /\ In b r /\ on a b = true.
Proof.
  unfold Store.join. rewrite in_flat_map. split.
  - intros (x & Hx & Hin). apply in_map_iff in Hin.
    destruct Hin as (y & Heq & Hy). inversion Heq; subst.
    apply filter_In in Hy. tauto.
  - intros (Ha & Hb & Hon). exists a. split; [assumption|].
    apply in_map. apply filter_In. tauto.
Qed.

Lemma in_left_join (on : A -> B -> bool) l r a ob :
  In (a, ob) (Store.left_join on l r) <->
  In a l /\ match ob with
            | Some b => In b r /\ on a b = true
            | None => forall b, In b r -> on a b = false
            end.
Proof.
  unfold Store.left_join. rewrite in_flat_map. split.
  - intros (x & Hx & Hin).
    destruct (filter (on x) r) as [|y ys] eqn:Hf.
    + destruct Hin as [Heq|[]]. inversion Heq; subst. split; [assumption|].
      intros b Hb. destruct (on a b) eqn:Hon; [|reflexivity].
      assert (Hin : In b (filter (on a) r)) by (apply filter_In; tauto).
      rewrite Hf in Hin. destruct Hin.
    + apply in_map_iff in Hin. destruct Hin as (z & Heq & Hz).
      inversion Heq; subst. split; [assumption|].
      rewrite <- Hf in Hz. apply filter_In in Hz. exact Hz.
  - intros (Ha & Hob). exists a. split; [assumption|].
    destruct ob as [b|].
    + assert (Hin : In b (filter (on a) r)) by (apply filter_In; tauto).
      destruct (filter (on a) r) as [|y ys]; [destruct Hin|].
      apply in_map_iff. exists b. tauto.
    + destruct (filter (on a) r) as [|y ys] eqn:Hf; [left; reflexivity|].
      assert (Hy : In y (filter (on a) r)) by (rewrite Hf; left; reflexivity).
      apply filter_In in Hy. destruct Hy as (Hy & Hon).
      rewrite (Hob y Hy) in Hon. discriminate.
Qed.

Lemma insert_by_perm (cmp : A -> A -> Z) x l :
  Permutation (Store.insert_by cmp x l) (x :: l).
Proof.
  induction l as [|y l IH]; simpl.
  - apply Permutation_refl.
  - destruct (cmp x y <=? 0).
    + apply Permutation_refl.
    + eapply perm_trans; [apply perm_skip, IH | apply perm_swap].
Qed.

Lemma sort_by_perm (cmp : A -> A -> Z) l :
  Permutation (Store.sort_by cmp l) l.
Proof.
  induction l as [|x l IH]; simpl.
  - apply perm_nil.
  - eapply perm_trans; [apply insert_by_perm | apply perm_skip, IH].
Qed.

Lemma in_sort_by (cmp : A -> A -> Z) l x :
  In x (Store.sort_by cmp l) <-> In x l.
Proof.
  split; apply Permutation_in;
    [|apply Permutation_sym]; apply sort_by_perm.
Qed.

(** Sorting on a key, largest first. *)
Variable key : A -> Z.


Lemma insert_by_sorted x l :
  StronglySorted (Store.descending key) l ->
  StronglySorted (Store.descending key)
    (Store.insert_by (fun a b => key b - key a) x l).
Proof.
  induction 1 as [|y l Hl IH Hy]; simpl.
  - constructor; constructor.
  - destruct (key y - key x <=? 0) eqn:Hc.
    + apply Z.leb_le in Hc. constructor.
      * constructor; assumption.
      * constructor; [unfold Store.descending; lia|].
        eapply Forall_impl; [|exact Hy]. unfold Store.descending. intros; lia.
    + apply Z.leb_gt in Hc. constructor; [exact IH|].
      eapply Permutation_Forall;
        [apply Permutation_sym, insert_by_perm|].
      constructor; [unfold Store.descending; lia | exact Hy].
Qed.

Lemma sort_by_sorted l :
  StronglySorted (Store.descending key)
                 (Store.sort_by (fun a b => key b - key a) l).
Proof.
  induction l as [|x l IH]; simpl.
  - constructor.
  - apply insert_by_sorted, IH.
Qed.

(** The sort is stable: the rows of one key keep their order. *)
Lemma insert_by_stable t x l :
  filter (fun y => key y =? t)
         (Store.insert_by (fun a b => key b - key a) x l)
  = filter (fun y => key y =? t) (x :: l).
Proof.
  induction l as [|y l IH]; [reflexivity|].
  cbn [Store.insert_by]. destruct (key y - key x <=? 0) eqn:Hc; [reflexivity|].
  apply Z.leb_gt in Hc. cbn [filter] in *. rewrite IH.
  destruct (key y =? t) eqn:Hy; [|reflexivity].
  apply Z.eqb_eq in Hy.
  assert (Hx : (key x =? t) = false) by (apply Z.eqb_neq; lia).
  rewrite Hx. reflexivity.
Qed.

Lemma sort_by_stable t l :
  filter (fun y => key y =? t)
         (Store.sort_by (fun a b => key b - key a) l)
  = filter (fun y => key y =? t) l.
Proof.
  induction l as [|x l IH]; [reflexivity|].
  cbn [Store.sort_by fold_right]. fold (Store.sort_by (fun a b => key b - key a) l).
  rewrite insert_by_stable. cbn [filter]. rewrite IH. reflexivity.
Qed.

End ListFacts.

(** Grouping on a key whose test decides equality. *)
Section Grouping.
Context {A K : Type}.
Variable eqk : K -> K -> bool.
Variable gkey : A -> K.
Hypothesis eqk_spec : forall a b, eqk a b = true <-> a = b.

Lemma seen_spec k seen : existsb (eqk k) seen = true <-> In k seen.
Proof.
  rewrite existsb_exists. split.
  - intros (x & Hx & He). apply eqk_spec in He. subst. assumption.
  - intros H. exists k. split; [assumption | apply eqk_spec; reflexivity].
Qed.

Lemma in_group_by l : forall seen x,
  In x (Store.group_by eqk gkey seen l) -> In x l /\ ~ In (gkey x) seen.
Proof.
  induction l as [|a l IH]; simpl; intros seen x Hx.
  - destruct Hx.
  - destruct (existsb (eqk (gkey a)) seen) eqn:Hs.
    + apply IH in Hx. tauto.
    + destruct Hx as [->|Hx].
      * split; [left; reflexivity|].
        intros Hin. apply seen_spec in Hin. congruence.
      * apply IH in Hx. destruct Hx as (Hx & Hn). split; [tauto|].
        intros Hin. apply Hn. right. assumption.
Qed.

Lemma group_by_distinct l : forall seen,
  NoDup (map gkey (Store.group_by eqk gkey seen l)).
Proof.
  induction l as [|a l IH]; simpl; intros seen.
  - constructor.
  - destruct (existsb (eqk (gkey a)) seen); [apply IH|].
    simpl. constructor; [|apply IH].
    intros Hin. apply in_map_iff in Hin. destruct Hin as (y & Hy & Hin).
    apply in_group_by in Hin. destruct Hin as (_ & Hn).
    apply Hn. left. symmetry. assumption.
Qed.

Lemma group_by_covers l : forall seen x,
  In x l -> ~ In (gkey x) seen ->
  In (gkey x) (map gkey (Store.group_by eqk gkey seen l)).
Proof.
  induction l as [|a l IH]; simpl; intros seen x Hx Hn.
  - destruct Hx.
  - destruct (existsb (eqk (gkey a)) seen) eqn:Hs.
    + destruct Hx as [->|Hx].
      * apply seen_spec in Hs. contradiction.
      * apply IH; assumption.
    + simpl. destruct Hx as [->|Hx]; [left; reflexivity|].
      destruct (eqk (gkey a) (gkey x)) eqn:He.
      * left. apply eqk_spec. assumption.
      * right. apply IH; [assumption|].
        intros [Heq|Hin]; [|contradiction].
        rewrite Heq in He.
        assert (eqk (gkey x) (gkey x) = true) by (apply eqk_spec; reflexivity).
        congruence.
Qed.

End Grouping.

Lemma map_nodup_coarser {A K L : Type} (f : A -> K) (g : A -> L) l :
  NoDup (map f l) ->
  (forall a b, In a l -> In b l -> g a = g b -> f a = f b) ->
  NoDup (map g l).
Proof.
  induction l as [|x l IH]; simpl; intros Hnd Hfg.
  - constructor.
  - inversion Hnd as [|? ? Hx Hl]; subst. constructor.
    + intros Hin. apply in_map_iff in Hin. destruct Hin as (y & Hy & Hin).
      apply Hx. apply in_map_iff. exists y. split; [|assumption].
      apply Hfg; auto.
    + apply IH; [assumption|]. intros; apply Hfg; auto.
Qed.

Lemma distinct_NoDup {K : Type} (eqk : K -> K -> bool) (l : list K) :
  (forall a b, eqk a b = true <-> a = b) ->
  Store.distinct eqk l = true <-> NoDup l.
Proof.
  intros Hspec. induction l as [|x l IH]; simpl.
  - split; [constructor | reflexivity].
  - rewrite andb_true_iff, negb_true_iff, IH. split.
    + intros (Hx & Hl). constructor; [|assumption].
      intros Hin. apply (seen_spec eqk Hspec) in Hin. congruence.
    + intros Hnd. inversion Hnd as [|? ? Hx Hl]; subst. split; [|assumption].
      destruct (existsb (eqk x) l) eqn:He; [|reflexivity].
      apply (seen_spec eqk Hspec) in He. contradiction.
Qed.

Lemma forallb_ext_in {A : Type} (f g : A -> bool) l :
  (forall x, In x l -> f x = g x) -> forallb f l = forallb g l.
Proof.
  induction l as [|x l IH]; simpl; intros H; [reflexivity|].
  rewrite (H x) by (left; reflexivity). f_equal. apply IH. auto.
Qed.

Lemma NoDup_map_inj {A K : Type} (f : A -> K) l a b :
  NoDup (map f l) -> In a l -> In b l -> f a = f b -> a = b.
Proof.
  induction l as [|x l IH]; simpl; intros Hnd Ha Hb Hf; [destruct Ha|].
  inversion Hnd as [|? ? Hx Hl]; subst.
  destruct Ha as [->|Ha], Hb as [->|Hb]; auto.
  - exfalso. apply Hx. rewrite Hf. apply in_map. assumption.
  - exfalso. apply Hx. rewrite <- Hf. apply in_map. assumption.
Qed.

(** ** The store and its constraints *)

Lemma pair_eqb_spec (a b : Z * Z) : Store.pair_eqb a b = true <-> a = b.
Proof.
  destruct a as [a1 a2], b as [b1 b2]. unfold Store.pair_eqb. simpl.
  rewrite andb_true_iff, !Z.eqb_eq. split.
  - intros [-> ->]. reflexivity.
  - intros H. inversion H. auto.
Qed.

Section StoreFacts.
Context {M : Type}.
Implicit Types (d : Store.db M) (k u : Z).

Lemma has_user_spec d u :
  Store.has_user d u = true <->
  exists r, In r (Store.security d) /\ User.userid r = u.
Proof.
  unfold Store.has_user. rewrite existsb_exists.
  split; intros (r & Hr & He); exists r; (split; [assumption|]);
    apply Z.eqb_eq; assumption.
Qed.

Lemma has_idea_spec d k :
  Store.has_idea d k = true <->
  exists i, In i (Store.idea_details d) /\ Idea.ideaid i = k.
Proof.
  unfold Store.has_idea. rewrite existsb_exists.
  split; intros (r & Hr & He); exists r; (split; [assumption|]);
    apply Z.eqb_eq; assumption.
Qed.

Lemma first_idea_some d k i :
  Store.first_idea d k = Some i ->
  In i (Store.idea_details d) /\ Idea.ideaid i = k.
Proof.
  unfold Store.first_idea. intros H. apply find_some in H.
  rewrite Z.eqb_eq in H. exact H.
Qed.

Lemma first_idea_none d k i :
  Store.first_idea d k = None ->
  In i (Store.idea_details d) -> Idea.ideaid i <> k.
Proof.
  unfold Store.first_idea. intros H Hin.
  apply (find_none _ _ H) in Hin. apply Z.eqb_neq. assumption.
Qed.

Lemma is_pair_spec k u c :
  Store.is_pair k u c = true <->
  Collaboration.ideaid c = k /\ Collaboration.userid c = u.
Proof.
  unfold Store.is_pair. rewrite andb_true_iff, !Z.eqb_eq. tauto.
Qed.

Lemma isCollaborator_spec d k u :
  Store.isCollaborator d k u = true <->
  exists c, In c (Store.collaborations d)
            /\ Collaboration.ideaid c = k /\ Collaboration.userid c = u.
Proof.
  unfold Store.isCollaborator, Store.first_collaboration.
  destruct (find _ _) as [c|] eqn:Hf.
  - apply find_some in Hf. rewrite is_pair_spec in Hf.
    split; [|reflexivity]. intros _. exists c. exact Hf.
  - split; [discriminate|]. intros (c & Hc & Hp).
    apply is_pair_spec in Hp. rewrite (find_none _ _ Hf c Hc) in Hp.
    discriminate.
Qed.

Lemma consistent_spec d : Store.consistent d = true <-> Store.Consistent d.
Proof.
  unfold Store.consistent.
  rewrite !andb_true_iff, !forallb_forall.
  rewrite !(distinct_NoDup Z.eqb) by (intros; apply Z.eqb_eq).
  rewrite (distinct_NoDup Store.pair_eqb) by apply pair_eqb_spec.
  split.
  - intros ((((((((H1 & H2) & H3) & H4) & H5) & H6) & H7) & H8) & H9).
    constructor; try assumption.
    + intros r Hr. apply Z.ltb_lt, H5, Hr.
    + intros i Hi. apply Z.ltb_lt, H6, Hi.
    + intros c Hc. apply Z.ltb_lt, H7, Hc.
    + intros c Hc. apply andb_true_iff, H9, Hc.
  - intros [H1 H2 H3 H4 H5 H6 H7 H8 H9].
    repeat split; try assumption.
    + intros r Hr. apply Z.ltb_lt, H5, Hr.
    + intros i Hi. apply Z.ltb_lt, H6, Hi.
    + intros c Hc. apply Z.ltb_lt, H7, Hc.
    + intros c Hc. apply andb_true_iff, H9, Hc.
Qed.

Lemma idea_by_id d i j :
  Store.Consistent d ->
  In i (Store.idea_details d) -> In j (Store.idea_details d) ->
  Idea.ideaid i = Idea.ideaid j -> i = j.
Proof.
  intros Hc. apply NoDup_map_inj, (Store.ideas_distinct _ Hc).
Qed.

End StoreFacts.

(** ** The listing of [part_000] *)

Section Part000Listing.
Import Js Sql Store Part000.

Ltac split_filters :=
  repeat match goal with
         | |- context [truthy ?x] => destruct (truthy x)
         | |- context [integer_of ?x] => destruct (integer_of x)
         end.

Lemma p0_filters_split (s : search) (q : builder joined) :
  wheres (filters s q) = wheres q ++ wheres (filters s (mkBuilder [] true))
  /\ bound (filters s q) = bound q && bound (filters s (mkBuilder [] true)).
Proof.
  unfold filters, andWhereInt. cbv zeta. split_filters;
    unfold andWhere; simpl;
    rewrite <- ?app_assoc, ?app_nil_r, ?andb_true_r, ?andb_false_r;
    split; reflexivity.
Qed.

Lemma p0_filters_local (s : search) (p : joined -> bool) (j : joined) :
  In p (wheres (filters s (mkBuilder [] true))) ->
  p j = p (j_idea j, None, None).
Proof.
  unfold filters, andWhereInt. cbv zeta. split_filters;
    unfold andWhere; simpl;
    intros H; repeat (destruct H as [<-|H]; [reflexivity|]); destruct H.
Qed.

Lemma p0_select (s : search) (ws : list (joined -> bool)) (from : list joined) :
  select (filters s (mkBuilder ws true)) from
  = if bound (filters s (mkBuilder [] true))
    then Some (filter (fun j => forallb (fun p => p j) ws
                                && matches s (j_idea j)) from)
    else None.
Proof.
  unfold select, matches.
  destruct (p0_filters_split s (mkBuilder ws true)) as (Hw & Hb).
  rewrite Hw, Hb. simpl.
  destruct (bound (filters s (mkBuilder [] true))); [|reflexivity].
  f_equal. apply filter_ext. intros j. rewrite forallb_app.
  f_equal. apply forallb_ext_in. intros p Hp.
  apply p0_filters_local with (s := s). exact Hp.
Qed.

(** The rows of the FROM clause. *)
Lemma p0_in_from (d : Store.db string) (j : joined) :
  In j (from_clause d) <->
  In (j_idea j) (idea_details d)
  /\ match j_owner j with
     | Some r => In r (security d) /\ User.userid r = Idea.userid (j_idea j)
     | None => forall r, In r (security d) ->
                         User.userid r <> Idea.userid (j_idea j)
     end
  /\ match j_collaboration j with
     | Some c => In c (collaborations d)
                 /\ Collaboration.ideaid c = Idea.ideaid (j_idea j)
     | None => forall c, In c (collaborations d) ->
                         Collaboration.ideaid c <> Idea.ideaid (j_idea j)
     end.
Proof.
  destruct j as [[i o] c].
  unfold from_clause, j_idea, j_owner, j_collaboration, joined.
  rewrite (in_left_join _ _ _ (i, o) c), in_left_join. simpl.
  assert (Ho : match o with
               | Some b => In b (security d)
                           /\ (Idea.userid i =? User.userid b) = true
               | None => forall b, In b (security d) ->
                                   (Idea.userid i =? User.userid b) = false
               end <->
               match o with
               | Some r => In r (security d) /\ User.userid r = Idea.userid i
               | None => forall r, In r (security d) ->
                                   User.userid r <> Idea.userid i
               end).
  { destruct o as [r|].
    - rewrite Z.eqb_eq. intuition congruence.
    - split; intros H r Hr; specialize (H r Hr).
      + apply Z.eqb_neq in H. congruence.
      + apply Z.eqb_neq. congruence. }
  assert (Hc : match c with
               | Some b => In b (collaborations d)
                           /\ (Idea.ideaid i =? Collaboration.ideaid b) = true
               | None => forall b, In b (collaborations d) ->
                           (Idea.ideaid i =? Collaboration.ideaid b) = false
               end <->
               match c with
               | Some x => In x (collaborations d)
                           /\ Collaboration.ideaid x = Idea.ideaid i
               | None => forall x, In x (collaborations d) ->
                                   Collaboration.ideaid x <> Idea.ideaid i
               end).
  { destruct c as [x|].
    - rewrite Z.eqb_eq. intuition congruence.
    - split; intros H x Hx; specialize (H x Hx).
      + apply Z.eqb_neq in H. congruence.
      + apply Z.eqb_neq. congruence. }
  tauto.
Qed.

(** A row the first WHERE clause keeps is a row of an idea its reader
    may view. *)
Lemma p0_visible_canView (d : Store.db string) (u : Z) (j : joined) :
  In j (from_clause d) -> visible u j = true ->
  canView d (j_idea j) u = true.
Proof.
  intros Hj Hv. apply p0_in_from in Hj. destruct Hj as (_ & _ & Hc).
  unfold visible in Hv. unfold canView, isOwner.
  apply orb_true_iff in Hv. apply orb_true_iff.
  destruct Hv as [Hv|Hv]; [left; assumption|right].
  destruct (j_collaboration j) as [c|]; [|discriminate].
  apply isCollaborator_spec. exists c. apply Z.eqb_eq in Hv. tauto.
Qed.

(** Every idea has a row in the FROM clause, and a viewable one has a
    row the first WHERE clause keeps. *)
Lemma p0_canView_visible (d : Store.db string) (u : Z) (i : Idea.row string) :
  In i (idea_details d) -> canView d i u = true ->
  exists j, In j (from_clause d) /\ j_idea j = i /\ visible u j = true.
Proof.
  intros Hi Hv.
  assert (Hown : exists o, In (i, o) (left_join
                        (fun i s => Idea.userid i =? User.userid s)
                        (idea_details d) (security d))).
  { destruct (filter (fun s => Idea.userid i =? User.userid s) (security d))
      as [|r rs] eqn:Hf.
    - exists None. apply in_left_join. split; [assumption|].
      intros b Hb. destruct (Idea.userid i =? User.userid b) eqn:He;
        [|reflexivity].
      assert (Hin : In b (filter (fun s => Idea.userid i =? User.userid s)
                                 (security d))) by (apply filter_In; tauto).
      rewrite Hf in Hin. destruct Hin.
    - exists (Some r). apply in_left_join. split; [assumption|].
      assert (Hin : In r (filter (fun s => Idea.userid i =? User.userid s)
                                 (security d))) by (rewrite Hf; left; reflexivity).
      apply filter_In in Hin. exact Hin. }
  destruct Hown as (o & Ho).
  unfold canView in Hv. apply orb_true_iff in Hv.
  destruct (isCollaborator d (Idea.ideaid i) u) eqn:Hcol.
  - apply isCollaborator_spec in Hcol. destruct Hcol as (c & Hc & Hk & Hu).
    exists (i, o, Some c). split; [|split; [reflexivity|]].
    + unfold from_clause. apply in_left_join. split; [assumption|].
      split; [assumption|]. simpl. apply Z.eqb_eq. congruence.
    + unfold visible, j_idea, j_collaboration. simpl.
      apply orb_true_iff. right. apply Z.eqb_eq. assumption.
  - destruct Hv as [Hv|Hv]; [|discriminate].
    destruct (filter (fun c => Idea.ideaid i =? Collaboration.ideaid c)
                     (collaborations d)) as [|c cs] eqn:Hf.
    + exists (i, o, None). split; [|split; [reflexivity|]].
      * unfold from_clause. apply in_left_join. split; [assumption|].
        intros b Hb. simpl.
        destruct (Idea.ideaid i =? Collaboration.ideaid b) eqn:He;
          [|reflexivity].
        assert (Hin : In b (filter (fun c => Idea.ideaid i
                                             =? Collaboration.ideaid c)
                                   (collaborations d)))
          by (apply filter_In; tauto).
        rewrite Hf in Hin. destruct Hin.
      * unfold visible, j_idea. simpl. apply orb_true_iff. left. exact Hv.
    + exists (i, o, Some c). split; [|split; [reflexivity|]].
      * unfold from_clause. apply in_left_join. split; [assumption|].
        assert (Hin : In c (filter (fun c => Idea.ideaid i
                                             =? Collaboration.ideaid c)
                                   (collaborations d)))
          by (rewrite Hf; left; reflexivity).
        apply filter_In in Hin. exact Hin.
      * unfold visible, j_idea. simpl. apply orb_true_iff. left. exact Hv.
Qed.

Lemma p0_group_key_eqb_spec (a b : Z * option Z) :
  group_key_eqb a b = true <-> a = b.
Proof.
  destruct a as [a [x|]], b as [b [y|]]; unfold group_key_eqb; simpl;
    rewrite andb_true_iff, ?Z.eqb_eq; split;
    try (intros [-> H]; try discriminate; try apply Z.eqb_eq in H; congruence);
    intros H; inversion H; subst; split; try reflexivity;
    apply Z.eqb_eq; reflexivity.
Qed.

(** The rows the statement returns, before they are decorated. *)
Lemma p0_run (u : Z) (s : search) (d : Store.db string) :
  run (filters s (mkBuilder [visible u] true)) d
  = if bound (filters s (mkBuilder [] true))
    then Some (sort_by (fun a b => Idea.ideaid (j_idea b)
                                   - Idea.ideaid (j_idea a))
                 (group_by group_key_eqb group_key []
                    (filter (fun j => visible u j && matches s (j_idea j))
                            (from_clause d))))
    else None.
Proof.
  unfold run. rewrite p0_select.
  destruct (bound (filters s (mkBuilder [] true))); [|reflexivity].
  do 3 f_equal. apply filter_ext. intros j. simpl.
  rewrite andb_true_r. reflexivity.
Qed.

Lemma p0_in_rows (u : Z) (s : search) (d : Store.db string) rows j :
  run (filters s (mkBuilder [visible u] true)) d = Some rows ->
  In j rows ->
  In j (from_clause d) /\ visible u j = true
  /\ matches s (j_idea j) = true.
Proof.
  rewrite p0_run.
  destruct (bound (filters s (mkBuilder [] true))); [|discriminate].
  intros H Hj. inversion H; subst; clear H.
  apply in_sort_by in Hj.
  apply (in_group_by _ _ p0_group_key_eqb_spec) in Hj.
  destruct Hj as (Hj & _). apply filter_In in Hj.
  rewrite andb_true_iff in Hj. tauto.
Qed.

(** The ideas on the page: those of the store that the reader may view
    and that pass the filters. *)
Lemma p0_in_ids (u : Z) (s : search) (d : Store.db string) (k : Z) :
  In k (ids (get_ideas (Some u) s d)) <->
  exists i, In i (idea_details d) /\ Idea.ideaid i = k
            /\ canView d i u = true /\ matches s i = true.
Proof.
  unfold ids, get_ideas.
  destruct (run (filters s (mkBuilder [visible u] true)) d) as [rows|] eqn:Hr.
  - simpl. rewrite map_map. simpl. rewrite in_map_iff. split.
    + intros (j & Hk & Hj).
      destruct (p0_in_rows u s d rows j Hr Hj) as (Hf & Hv & Hm).
      exists (j_idea j). repeat split; try assumption.
      * apply p0_in_from in Hf. tauto.
      * apply p0_visible_canView; assumption.
    + intros (i & Hi & Hk & Hv & Hm).
      destruct (p0_canView_visible d u i Hi Hv) as (j & Hj & Hji & Hvis).
      rewrite p0_run in Hr.
      destruct (bound (filters s (mkBuilder [] true))); [|discriminate].
      inversion Hr; subst rows; clear Hr.
      assert (Hin : In j (filter (fun j => visible u j && matches s (j_idea j))
                                 (from_clause d))).
      { apply filter_In. split; [assumption|].
        rewrite Hvis, Hji, Hm. reflexivity. }
      apply (group_by_covers _ group_key p0_group_key_eqb_spec _ []) in Hin;
        [|intros []].
      apply in_map_iff in Hin. destruct Hin as (y & Hy & Hin).
      exists y. split.
      * unfold group_key in Hy. inversion Hy. congruence.
      * apply in_sort_by. assumption.
  - simpl. split; [intros []|].
    intros (i & _ & _ & _ & Hm). exfalso.
    rewrite p0_run in Hr. unfold matches in Hm.
    destruct (bound (filters s (mkBuilder [] true))); discriminate.
Qed.

(** An idea is on the page once. *)
Lemma p0_ids_distinct (session : option Z) (s : search) (d : Store.db string) :
  Consistent d -> NoDup (ids (get_ideas session s d)).
Proof.
  intros Hc. unfold ids, get_ideas. destruct session as [u|]; [|constructor].
  destruct (run (filters s (mkBuilder [visible u] true)) d) as [rows|] eqn:Hr;
    [|constructor].
  simpl. rewrite map_map. simpl.
  apply map_nodup_coarser with (f := group_key).
  - rewrite p0_run in Hr.
    destruct (bound (filters s (mkBuilder [] true))); [|discriminate].
    inversion Hr; subst rows; clear Hr.
    eapply Permutation_NoDup.
    + apply Permutation_map, Permutation_sym, sort_by_perm.
    + apply (group_by_distinct _ _ p0_group_key_eqb_spec).
  - intros a b Ha Hb Hk.
    apply (p0_in_rows u s d rows a Hr) in Ha. destruct Ha as (Ha & _).
    apply (p0_in_rows u s d rows b Hr) in Hb. destruct Hb as (Hb & _).
    apply p0_in_from in Ha, Hb.
    destruct Ha as (Hia & Hoa & _), Hb as (Hib & Hob & _).
    assert (Hi : j_idea a = j_idea b) by (apply (idea_by_id d); assumption).
    unfold group_key. rewrite Hk. f_equal.
    rewrite Hi in Hoa.
    destruct (j_owner a) as [ra|], (j_owner b) as [rb|]; simpl.
    + f_equal. destruct Hoa, Hob. congruence.
    + exfalso. destruct Hoa as (Hra & He). exact (Hob ra Hra He).
    + exfalso. destruct Hob as (Hrb & He). exact (Hoa rb Hrb He).
    + reflexivity.
Qed.

(** An entry of the page is an idea of the store that its reader may
    view and that passes the filters. *)
Lemma p0_in_ideas (u : Z) (s : search) (d : Store.db string) x :
  In x (ideas_of (get_ideas (Some u) s d)) ->
  In (idea x) (idea_details d) /\ canView d (idea x) u = true
  /\ matches s (idea x) = true.
Proof.
  unfold get_ideas.
  destruct (run (filters s (mkBuilder [visible u] true)) d) as [rows|] eqn:Hr;
    [|intros []].
  simpl. rewrite in_map_iff. intros (j & <- & Hj). simpl.
  destruct (p0_in_rows u s d rows j Hr Hj) as (Hf & Hv & Hm).
  repeat split; try assumption.
  - apply p0_in_from in Hf. tauto.
  - apply p0_visible_canView; assumption.
Qed.

End Part000Listing.

(** ** The listing of [index.js] *)

Lemma nodup_rows_by_head {A C : Type} (f : A -> list (A * C)) (l : list A) :
  (forall a x, In x (f a) -> fst x = a) ->
  (forall a, NoDup (f a)) ->
  NoDup l -> NoDup (flat_map f l).
Proof.
  intros Hhead Hf. induction 1 as [|a l Ha Hl IH]; simpl.
  - constructor.
  - apply NoDup_app; [apply Hf | exact IH |].
    intros x Hx Hin. apply in_flat_map in Hin.
    destruct Hin as (b & Hb & Hxb).
    apply Hhead in Hx. apply Hhead in Hxb. congruence.
Qed.

Lemma nodup_join {A B : Type} (on : A -> B -> bool) l r :
  NoDup l -> NoDup r -> NoDup (Store.join on l r).
Proof.
  intros Hl Hr. unfold Store.join. apply nodup_rows_by_head.
  - intros a x Hx. apply in_map_iff in Hx. destruct Hx as (b & <- & _).
    reflexivity.
  - intros a. apply NoDup_map_NoDup_ForallPairs.
    + intros x y _ _ H. inversion H. reflexivity.
    + apply NoDup_filter. assumption.
  - assumption.
Qed.

Lemma nodup_left_join {A B : Type} (on : A -> B -> bool) l r :
  NoDup l -> NoDup r -> NoDup (Store.left_join on l r).
Proof.
  intros Hl Hr. unfold Store.left_join. apply nodup_rows_by_head.
  - intros a x Hx. destruct (filter (on a) r) as [|b bs].
    + destruct Hx as [<-|[]]. reflexivity.
    + apply in_map_iff in Hx. destruct Hx as (y & <- & _). reflexivity.
  - intros a. destruct (filter (on a) r) as [|b bs] eqn:Hf.
    + constructor; [intros [] | constructor].
    + apply NoDup_map_NoDup_ForallPairs.
      * intros x y _ _ H. inversion H. reflexivity.
      * rewrite <- Hf. apply NoDup_filter. assumption.
  - assumption.
Qed.

Lemma forallb_lifted {J I : Type} (g : J -> I) (l : list (I -> bool)) (j : J) :
  forallb (fun p => p j) (map (fun p x => p (g x)) l)
  = forallb (fun p => p (g j)) l.
Proof.
  induction l as [|p l IH]; simpl; [reflexivity|]. rewrite IH. reflexivity.
Qed.

Section IndexJsListing.
Import Js Sql Store IndexJs.

Ltac split_filters :=
  repeat match goal with
         | |- context [truthy ?x] => destruct (truthy x)
         | |- context [integer_of ?x] => destruct (integer_of x)
         end.

Lemma js_filters_split {J : Type} (idea_of : J -> Idea.row (list string))
  (s : search) (q : builder J) :
  wheres (filters idea_of s q)
  = wheres q ++ map (fun p j => p (idea_of j))
                    (wheres (filters (fun i => i) s (mkBuilder [] true)))
  /\ bound (filters idea_of s q)
     = bound q && bound (filters (fun i => i) s (mkBuilder [] true)).
Proof.
  unfold filters, andWhereInt. cbv zeta. split_filters;
    unfold andWhere; simpl;
    rewrite <- ?app_assoc, ?app_nil_r, ?andb_true_r, ?andb_false_r;
    split; reflexivity.
Qed.

Lemma js_select {J : Type} (idea_of : J -> Idea.row (list string))
  (s : search) (ws : list (J -> bool)) (from : list J) :
  select (filters idea_of s (mkBuilder ws true)) from
  = if bound (filters (fun i => i) s (mkBuilder [] true))
    then Some (filter (fun j => forallb (fun p => p j) ws
                                && matches s (idea_of j)) from)
    else None.
Proof.
  unfold select, matches.
  destruct (js_filters_split idea_of s (mkBuilder ws true)) as (Hw & Hb).
  rewrite Hw, Hb. simpl.
  destruct (bound (filters (fun i => i) s (mkBuilder [] true)));
    [|reflexivity].
  f_equal. apply filter_ext. intros j. rewrite forallb_app, forallb_lifted.
  reflexivity.
Qed.

(** The page, when the session is authenticated. *)
Lemma js_page (u : Z) (s : search) (d : Store.db (list string)) :
  u <> 0 ->
  get_view_ideas (Some u) s d
  = if bound (filters (fun i => i) s (mkBuilder [] true))
    then ViewIdeas
           (sort_by (fun a b => time_of b - time_of a)
              (map (fun j => mkListed (fst j) (snd j) true)
                   (filter (fun j => (Idea.userid (fst j) =? u)
                                     && matches s (fst j))
                           (with_creator d))
               ++ map (fun j => mkListed (fst (fst j)) (snd (fst j)) false)
                      (filter (fun j : shared_row =>
                                 (Collaboration.userid (snd j) =? u)
                                 && negb (Idea.userid (fst (fst j)) =? u)
                                 && matches s (fst (fst j)))
                              (shared_from d))))
    else Error500.
Proof.
  intros Hu. unfold get_view_ideas, requireAuth.
  apply Z.eqb_neq in Hu. rewrite Hu.
  unfold myIdeasQuery, sharedIdeasQuery. rewrite !js_select.
  destruct (bound (filters (fun i => i) s (mkBuilder [] true)));
    [|reflexivity].
  do 3 f_equal.
  - f_equal. apply filter_ext. intros j. simpl. rewrite andb_true_r.
    reflexivity.
  - f_equal. apply filter_ext. intros j. simpl. rewrite andb_true_r.
    reflexivity.
Qed.

Lemma js_in_with_creator (d : Store.db (list string)) (j : mine_row) :
  In j (with_creator d) <->
  In (fst j) (idea_details d)
  /\ match snd j with
     | Some r => In r (security d) /\ User.userid r = Idea.userid (fst j)
     | None => forall r, In r (security d) ->
                         User.userid r <> Idea.userid (fst j)
     end.
Proof.
  destruct j as [i o]. unfold with_creator, mine_row.
  rewrite in_left_join. simpl. destruct o as [r|].
  - rewrite Z.eqb_eq. intuition congruence.
  - split; intros (Hi & H); (split; [assumption|]); intros r Hr;
      specialize (H r Hr).
    + apply Z.eqb_neq in H. congruence.
    + apply Z.eqb_neq. congruence.
Qed.

Lemma js_creator_exists (d : Store.db (list string)) i :
  In i (idea_details d) -> exists o, In (i, o) (with_creator d).
Proof.
  intros Hi. unfold with_creator.
  destruct (filter (fun s => Idea.userid i =? User.userid s) (security d))
    as [|r rs] eqn:Hf.
  - exists None. apply in_left_join. split; [assumption|].
    intros b Hb. destruct (Idea.userid i =? User.userid b) eqn:He;
      [|reflexivity].
    assert (Hin : In b (filter (fun s => Idea.userid i =? User.userid s)
                               (security d))) by (apply filter_In; tauto).
    rewrite Hf in Hin. destruct Hin.
  - exists (Some r). apply in_left_join. split; [assumption|].
    assert (Hin : In r (filter (fun s => Idea.userid i =? User.userid s)
                               (security d))) by (rewrite Hf; left; reflexivity).
    apply filter_In in Hin. exact Hin.
Qed.

Lemma js_in_shared_from (d : Store.db (list string)) (j : shared_row) :
  In j (shared_from d) <->
  In (fst j) (with_creator d) /\ In (snd j) (collaborations d)
  /\ Collaboration.ideaid (snd j) = Idea.ideaid (fst (fst j)).
Proof.
  destruct j as [[i o] c]. unfold shared_from, shared_row, mine_row.
  rewrite (in_join _ _ _ (i, o) c). simpl. rewrite Z.eqb_eq.
  intuition congruence.
Qed.

(** An entry of the page is an idea of the store that its reader may
    view and that passes the filters; [is_owner] says whether the reader
    owns it. *)
Lemma js_in_ideas (u : Z) (s : search) (d : Store.db (list string)) x :
  u <> 0 ->
  In x (ideas_of (get_view_ideas (Some u) s d)) ->
  In (idea x) (idea_details d) /\ canView d (idea x) u = true
  /\ matches s (idea x) = true /\ is_owner x = isOwner (idea x) u.
Proof.
  intros Hu. rewrite (js_page u s d Hu).
  destruct (bound (filters (fun i => i) s (mkBuilder [] true)));
    [|intros []].
  simpl. rewrite in_sort_by, in_app_iff, !in_map_iff.
  intros [(j & <- & Hj)|(j & <- & Hj)]; apply filter_In in Hj;
    destruct Hj as (Hj & Hp); simpl.
  - apply andb_true_iff in Hp. destruct Hp as (Ho & Hm).
    apply js_in_with_creator in Hj. unfold canView, isOwner.
    rewrite Ho. simpl. tauto.
  - rewrite !andb_true_iff in Hp. destruct Hp as ((Hc & Hn) & Hm).
    apply js_in_shared_from in Hj. destruct Hj as (Hj & Hc' & Hk).
    apply js_in_with_creator in Hj. unfold canView, isOwner.
    apply negb_true_iff in Hn. rewrite Hn. simpl.
    repeat split; try tauto.
    apply isCollaborator_spec. exists (snd j). apply Z.eqb_eq in Hc. tauto.
Qed.

Lemma js_in_ids (u : Z) (s : search) (d : Store.db (list string)) (k : Z) :
  u <> 0 ->
  In k (ids (get_view_ideas (Some u) s d)) <->
  exists i, In i (idea_details d) /\ Idea.ideaid i = k
            /\ canView d i u = true /\ matches s i = true.
Proof.
  intros Hu. split.
  - unfold ids. rewrite in_map_iff. intros (x & <- & Hx).
    apply (js_in_ideas u s d x Hu) in Hx. exists (idea x). tauto.
  - intros (i & Hi & Hk & Hv & Hm). unfold ids.
    rewrite (js_page u s d Hu).
    assert (Hb : bound (filters (fun i => i) s (mkBuilder [] true)) = true).
    { unfold matches in Hm. apply andb_true_iff in Hm. tauto. }
    rewrite Hb. simpl. apply in_map_iff.
    destruct (js_creator_exists d i Hi) as (o & Ho).
    destruct (Idea.userid i =? u) eqn:Hown.
    + exists (mkListed i o true). split; [assumption|].
      apply in_sort_by, in_app_iff. left. apply in_map_iff.
      exists (i, o). split; [reflexivity|]. apply filter_In.
      split; [assumption|]. simpl. rewrite Hown, Hm. reflexivity.
    + unfold canView, isOwner in Hv. rewrite Hown in Hv. simpl in Hv.
      apply isCollaborator_spec in Hv. destruct Hv as (c & Hc & Hck & Hcu).
      exists (mkListed i o false). split; [assumption|].
      apply in_sort_by, in_app_iff. right. apply in_map_iff.
      exists (i, o, c). split; [reflexivity|]. apply filter_In. split.
      * apply js_in_shared_from. simpl. tauto.
      * simpl. rewrite Hown, Hm. apply Z.eqb_eq in Hcu. rewrite Hcu.
        reflexivity.
Qed.

Lemma js_owner_unique (d : Store.db (list string)) (a b : mine_row) :
  Consistent d -> In a (with_creator d) -> In b (with_creator d) ->
  Idea.ideaid (fst a) = Idea.ideaid (fst b) -> a = b.
Proof.
  intros Hc Ha Hb Hk. apply js_in_with_creator in Ha, Hb.
  destruct a as [i o], b as [i' o']. simpl in *.
  destruct Ha as (Hi & Ho), Hb as (Hi' & Ho').
  assert (i = i') by (apply (idea_by_id d); assumption). subst i'.
  f_equal. destruct o as [r|], o' as [r'|].
  - f_equal. apply (NoDup_map_inj User.userid (security d));
      [apply (users_distinct _ Hc) | tauto | tauto |].
    destruct Ho, Ho'. congruence.
  - exfalso. destruct Ho as (Hr & He). exact (Ho' r Hr He).
  - exfalso. destruct Ho' as (Hr & He). exact (Ho r' Hr He).
  - reflexivity.
Qed.

(** An idea is on the page once. *)
Lemma js_ids_distinct (session : option Z) (s : search)
  (d : Store.db (list string)) :
  Consistent d -> NoDup (ids (get_view_ideas session s d)).
Proof.
  intros Hc. destruct session as [u|]; [|constructor].
  destruct (Z.eq_dec u 0) as [->|Hu]; [constructor|].
  unfold ids. rewrite (js_page u s d Hu).
  destruct (bound (filters (fun i => i) s (mkBuilder [] true)));
    [|constructor].
  simpl. eapply Permutation_NoDup;
    [apply Permutation_map, Permutation_sym, sort_by_perm|].
  assert (Hcre : NoDup (with_creator d)).
  { apply nodup_left_join.
    - apply (NoDup_map_inv Idea.ideaid), (ideas_distinct _ Hc).
    - apply (NoDup_map_inv User.userid), (users_distinct _ Hc). }
  rewrite map_app, !map_map. simpl. apply NoDup_app.
  - apply NoDup_map_NoDup_ForallPairs; [|apply NoDup_filter, Hcre].
    intros a b Ha Hb Hk. apply filter_In in Ha, Hb.
    apply (js_owner_unique d); tauto.
  - apply NoDup_map_NoDup_ForallPairs.
    + intros a b Ha Hb Hk. apply filter_In in Ha, Hb.
      destruct Ha as (Ha & Hpa), Hb as (Hb & Hpb).
      apply js_in_shared_from in Ha, Hb.
      rewrite !andb_true_iff in Hpa. rewrite !andb_true_iff in Hpb.
      destruct a as [ja ca], b as [jb cb]. simpl in *.
      assert (ja = jb) by (apply (js_owner_unique d); tauto). subst jb.
      f_equal. apply (NoDup_map_inj pair_of (collaborations d));
        [apply (pairs_distinct _ Hc) | tauto | tauto |].
      unfold pair_of.
      assert (Hua : Collaboration.userid ca = u)
        by (apply Z.eqb_eq; tauto).
      assert (Hub : Collaboration.userid cb = u)
        by (apply Z.eqb_eq; tauto).
      f_equal; [intuition congruence | congruence].
    + apply NoDup_filter, nodup_join; [exact Hcre|].
      apply (NoDup_map_inv pair_of), (pairs_distinct _ Hc).
  - intros k Hm Hs. apply in_map_iff in Hm, Hs.
    destruct Hm as (a & Hka & Ha), Hs as (b & Hkb & Hb).
    apply filter_In in Ha, Hb.
    destruct Ha as (Ha & Hpa), Hb as (Hb & Hpb).
    apply js_in_shared_from in Hb. destruct Hb as (Hb & _).
    assert (a = fst b) by (apply (js_owner_unique d); try tauto; congruence).
    subst a. rewrite !andb_true_iff in Hpa. rewrite !andb_true_iff in Hpb.
    destruct Hpa as (Hown & _), Hpb as ((_ & Hnot) & _).
    rewrite Hown in Hnot. discriminate.
Qed.

End IndexJsListing.

(** ** The listing shows what its reader may view, once *)

(** C1.  Whatever the reader and the filters, every entry of the page
    of [/ideas] and of [/view-ideas] is an idea of the store that the
    reader may view: the reader owns it or a collaboration row for the
    idea and the reader exists.  An idea the reader may not view is
    therefore on no page. *)
Theorem listing_shows_only_viewable_ideas :
  (forall (u : Z) (s : Part000.search) (d : Store.db string),
      Forall (fun x => In (Part000.idea x) (Store.idea_details d)
                       /\ Store.canView d (Part000.idea x) u = true)
             (Part000.ideas_of (Part000.get_ideas (Some u) s d)))
  /\ (forall (u : Z) (s : IndexJs.search) (d : Store.db (list string)),
         Forall (fun x => In (IndexJs.idea x) (Store.idea_details d)
                          /\ Store.canView d (IndexJs.idea x) u = true)
                (IndexJs.ideas_of (IndexJs.get_view_ideas (Some u) s d))).
Proof.
  split; intros u s d; apply Forall_forall; intros x Hx.
  - apply p0_in_ideas in Hx. tauto.
  - destruct (Z.eq_dec u 0) as [->|Hu]; [destruct Hx|].
    apply (js_in_ideas u s d x Hu) in Hx. tauto.
Qed.

(** C7.  In a store that meets the constraints of the schema, no idea
    is on the page twice, and an idea the reader may view and that
    passes the filters is on it exactly once, also when the reader both
    owns it and has a collaboration row for it. *)
Theorem listing_shows_each_idea_once :
  (forall (u : Z) (s : Part000.search) (d : Store.db string),
      Store.consistent d = true ->
      NoDup (Part000.ids (Part000.get_ideas (Some u) s d))
      /\ forall i, In i (Store.idea_details d) ->
                   Store.canView d i u = true ->
                   Part000.matches s i = true ->
                   count_occ Z.eq_dec
                     (Part000.ids (Part000.get_ideas (Some u) s d))
                     (Idea.ideaid i) = 1%nat)
  /\ (forall (u : Z) (s : IndexJs.search) (d : Store.db (list string)),
         Store.consistent d = true -> u <> 0 ->
         NoDup (IndexJs.ids (IndexJs.get_view_ideas (Some u) s d))
         /\ forall i, In i (Store.idea_details d) ->
                      Store.canView d i u = true ->
                      IndexJs.matches s i = true ->
                      count_occ Z.eq_dec
                        (IndexJs.ids (IndexJs.get_view_ideas (Some u) s d))
                        (Idea.ideaid i) = 1%nat).
Proof.
  split.
  - intros u s d Hc. apply consistent_spec in Hc.
    pose proof (p0_ids_distinct (Some u) s d Hc) as Hnd.
    split; [exact Hnd|]. intros i Hi Hv Hm.
    apply (proj1 (NoDup_count_occ' Z.eq_dec _) Hnd).
    apply p0_in_ids. exists i. tauto.
  - intros u s d Hc Hu. apply consistent_spec in Hc.
    pose proof (js_ids_distinct (Some u) s d Hc) as Hnd.
    split; [exact Hnd|]. intros i Hi Hv Hm.
    apply (proj1 (NoDup_count_occ' Z.eq_dec _) Hnd).
    apply js_in_ids; [assumption|]. exists i. tauto.
Qed.

Lemma listing_shows_each_idea_once_witness :
  Store.isCollaborator Scenario.self_shared 1 1 = true
  /\ Part000.ids
       (Part000.get_ideas (Some 1) Scenario.no_search Scenario.self_shared)
     = [2; 1]
  /\ NoDup (Part000.ids
              (Part000.get_ideas (Some 1) Scenario.no_search
                                 Scenario.self_shared))
  /\ Store.isCollaborator Scenario.self_shared_js 1 1 = true
  /\ NoDup (IndexJs.ids
              (IndexJs.get_view_ideas (Some 1) Scenario.no_search_js
                                      Scenario.self_shared_js)).
Proof.
  split; [vm_compute; reflexivity|].
  split; [vm_compute; reflexivity|].
  split.
  - apply (proj1 listing_shows_each_idea_once 1 Scenario.no_search
                 Scenario.self_shared).
    vm_compute. reflexivity.
  - split; [vm_compute; reflexivity|].
    apply (proj2 listing_shows_each_idea_once 1 Scenario.no_search_js
                 Scenario.self_shared_js).
    + vm_compute. reflexivity.
    + discriminate.
Defined.

(** ** The filters are joined by AND *)

Section Part000Filters.
Import Js Sql Store Part000.

Lemma p0_supplied_spec (fs : list filter_name) (f : filter_name) :
  supplied fs f = true <-> In f fs.
Proof.
  unfold supplied. rewrite existsb_exists. split.
  - intros (g & Hg & He). apply Nat.eqb_eq in He.
    destruct g, f; try discriminate; assumption.
  - intros H. exists f. split; [assumption | apply Nat.eqb_refl].
Qed.

Lemma p0_all_filters (f : filter_name) : In f all_filters.
Proof. destruct f; simpl; tauto. Qed.

(** The filters of a query string hold together when each holds alone. *)
Lemma p0_matches_each (s : search) (i : Idea.row string) :
  matches s i = forallb (fun f => matches (keep [f] s) i) all_filters.
Proof.
  assert (He : truthy (Some (or_empty None)) = false) by reflexivity.
  destruct s as [n m c lo hi p].
  unfold matches, filters, keep, all_filters, andWhereInt. cbv zeta.
  cbn -[truthy parseInt parseFloat contains_ci ge_param le_param ge_int
        or_empty andWhere integer_of].
  rewrite ?He.
  destruct (truthy (Some (or_empty n))), (truthy (Some (or_empty m))),
    (truthy (Some (or_empty c))), (truthy (Some (or_empty lo))),
    (truthy (Some (or_empty hi))), (truthy (Some (or_empty p)));
    try destruct (integer_of (parseInt (or_empty p)));
    cbn -[parseFloat contains_ci ge_param le_param ge_int or_empty];
    repeat rewrite ?andb_true_r, ?andb_false_r, ?andb_assoc; reflexivity.
Qed.

Lemma p0_keep_keep (fs : list filter_name) (f : filter_name) (s : search) :
  keep [f] (keep fs s) = if supplied fs f then keep [f] s else keep [] s.
Proof.
  unfold keep. destruct f; simpl; destruct (supplied fs _); reflexivity.
Qed.

Lemma p0_matches_none (s : search) (i : Idea.row string) :
  matches (keep [] s) i = true.
Proof. reflexivity. Qed.

Lemma p0_matches_keep (fs : list filter_name) (s : search)
  (i : Idea.row string) :
  matches (keep fs s) i = forallb (fun f => matches (keep [f] s) i) fs.
Proof.
  rewrite p0_matches_each. apply eq_true_iff_eq.
  rewrite !forallb_forall. split.
  - intros H f Hf. specialize (H f (p0_all_filters f)).
    rewrite p0_keep_keep in H.
    apply p0_supplied_spec in Hf. rewrite Hf in H. exact H.
  - intros H f _. rewrite p0_keep_keep.
    destruct (supplied fs f) eqn:Hs; [|apply p0_matches_none].
    apply H, p0_supplied_spec, Hs.
Qed.

End Part000Filters.

Section IndexJsFilters.
Import Js Sql Store IndexJs.

Lemma js_supplied_spec (fs : list filter_name) (f : filter_name) :
  supplied fs f = true <-> In f fs.
Proof.
  unfold supplied. rewrite existsb_exists. split.
  - intros (g & Hg & He). apply Nat.eqb_eq in He.
    destruct g, f; try discriminate; assumption.
  - intros H. exists f. split; [assumption | apply Nat.eqb_refl].
Qed.

Lemma js_all_filters (f : filter_name) : In f all_filters.
Proof. destruct f; simpl; tauto. Qed.

Lemma js_matches_each (s : search) (i : Idea.row (list string)) :
  matches s i = forallb (fun f => matches (keep [f] s) i) all_filters.
Proof.
  assert (He : truthy None = false) by reflexivity.
  destruct s as [m hi n p].
  unfold matches, filters, keep, all_filters, andWhereInt. cbv zeta.
  cbn -[truthy parseInt parseFloat contains_ci any_eq le_param ge_int
        or_empty andWhere integer_of].
  rewrite ?He.
  destruct (truthy m), (truthy hi), (truthy n), (truthy p);
    try destruct (integer_of (parseInt (or_empty p)));
    cbn -[parseFloat contains_ci any_eq le_param ge_int or_empty];
    repeat rewrite ?andb_true_r, ?andb_false_r, ?andb_assoc; reflexivity.
Qed.

Lemma js_keep_keep (fs : list filter_name) (f : filter_name) (s : search) :
  keep [f] (keep fs s) = if supplied fs f then keep [f] s else keep [] s.
Proof.
  unfold keep. destruct f; simpl; destruct (supplied fs _); reflexivity.
Qed.

Lemma js_matches_none (s : search) (i : Idea.row (list string)) :
  matches (keep [] s) i = true.
Proof. reflexivity. Qed.

Lemma js_matches_keep (fs : list filter_name) (s : search)
  (i : Idea.row (list string)) :
  matches (keep fs s) i = forallb (fun f => matches (keep [f] s) i) fs.
Proof.
  rewrite js_matches_each. apply eq_true_iff_eq.
  rewrite !forallb_forall. split.
  - intros H f Hf. specialize (H f (js_all_filters f)).
    rewrite js_keep_keep in H.
    apply js_supplied_spec in Hf. rewrite Hf in H. exact H.
  - intros H f _. rewrite js_keep_keep.
    destruct (supplied fs f) eqn:Hs; [|apply js_matches_none].
    apply H, js_supplied_spec, Hs.
Qed.

End IndexJsFilters.

Lemma js_unauthenticated (s : IndexJs.search) (d : Store.db (list string)) :
  IndexJs.ids (IndexJs.get_view_ideas (Some 0) s d) = [].
Proof. reflexivity. Qed.

(** *** Each filter by its criterion *)

Section FilterCriteria.
Import Js Sql Store.

Lemma truthy_or_empty (x : option string) :
  truthy (Some (or_empty x)) = truthy x.
Proof. destruct x; reflexivity. Qed.

(** A filter that is supplied, that is, neither absent nor empty. *)
Lemma supplied_criterion (x : option string) (P : string -> bool) :
  (if truthy x then P (or_empty x) else true) = true
  <-> forall v, x = Some v -> v <> "" -> P v = true.
Proof.
  destruct x as [v|]; cbn [truthy or_empty].
  - destruct (String.eqb_spec v "") as [->|Hv]; cbn [negb].
    + split; [|reflexivity]. intros _ v Hv Hne. inversion Hv; subst.
      contradiction.
    + split.
      * intros H w Hw _. inversion Hw; subst. exact H.
      * intros H. apply (H v eq_refl Hv).
  - split; [|reflexivity]. intros _ v Hv. discriminate.
Qed.

Lemma integer_criterion (col : option Z) (v : string) :
  match integer_of (parseInt v) with
  | Some k => ge_int col k
  | None => false
  end = true
  <-> exists k, parseInt v = Some k /\ -2147483648 <= k <= 2147483647
                /\ ge_int col k = true.
Proof.
  unfold integer_of, int4. destruct (parseInt v) as [k|].
  - destruct ((-2147483648 <=? k) && (k <=? 2147483647)) eqn:Hr.
    + apply andb_true_iff in Hr. rewrite !Z.leb_le in Hr. split.
      * intros H. exists k. tauto.
      * intros (k' & Hk & _ & H). inversion Hk; subst. exact H.
    + split; [discriminate|]. intros (k' & Hk & Hrange & _).
      inversion Hk; subst k'.
      assert ((-2147483648 <=? k) && (k <=? 2147483647) = true)
        by (apply andb_true_iff; rewrite !Z.leb_le; exact Hrange).
      congruence.
  - split; [discriminate|]. intros (k & Hk & _). discriminate.
Qed.

(** [part_000]: the clauses of a query string, filter by filter. *)
Lemma p0_matches_clauses (s : Part000.search) (i : Idea.row string) :
  Part000.matches s i
  = (if truthy (Part000.searchName s)
     then contains_ci (Some (Idea.ideaname i))
                      (or_empty (Part000.searchName s))
     else true)
    && (if truthy (Part000.searchMarketing s)
        then contains_ci (Idea.marketingstrategy i)
                         (or_empty (Part000.searchMarketing s))
        else true)
    && (if truthy (Part000.searchCustomer s)
        then contains_ci (Idea.targetcustomer i)
                         (or_empty (Part000.searchCustomer s))
        else true)
    && (if truthy (Part000.minCost s)
        then ge_param (Idea.estimatedcost i)
                      (parseFloat (or_empty (Part000.minCost s)))
        else true)
    && (if truthy (Part000.maxCost s)
        then le_param (Idea.estimatedcost i)
                      (parseFloat (or_empty (Part000.maxCost s)))
        else true)
    && (if truthy (Part000.minPotential s)
        then match integer_of (parseInt (or_empty (Part000.minPotential s)))
             with
             | Some k => ge_int (Idea.potential i) k
             | None => false
             end
        else true).
Proof.
  destruct s as [n m c lo hi p].
  unfold Part000.matches, Part000.filters, andWhereInt. cbv zeta.
  cbn -[truthy parseInt parseFloat contains_ci ge_param le_param ge_int
        or_empty andWhere integer_of].
  rewrite !truthy_or_empty.
  destruct (truthy n), (truthy m), (truthy c), (truthy lo), (truthy hi),
    (truthy p);
    try destruct (integer_of (parseInt (or_empty p)));
    cbn -[parseFloat contains_ci ge_param le_param ge_int or_empty];
    repeat rewrite ?andb_true_r, ?andb_false_r, ?andb_assoc; reflexivity.
Qed.

(** [index.js]: the same. *)
Lemma js_matches_clauses (s : IndexJs.search) (i : Idea.row (list string)) :
  IndexJs.matches s i
  = (if truthy (IndexJs.q_marketingstrategy s)
     then any_eq (or_empty (IndexJs.q_marketingstrategy s))
                 (Idea.marketingstrategy i)
     else true)
    && (if truthy (IndexJs.q_maxcost s)
        then le_param (Idea.estimatedcost i)
                      (parseFloat (or_empty (IndexJs.q_maxcost s)))
        else true)
    && (if truthy (IndexJs.q_ideaname s)
        then contains_ci (Some (Idea.ideaname i))
                         (or_empty (IndexJs.q_ideaname s))
        else true)
    && (if truthy (IndexJs.q_potential s)
        then match integer_of (parseInt (or_empty (IndexJs.q_potential s)))
             with
             | Some k => ge_int (Idea.potential i) k
             | None => false
             end
        else true).
Proof.
  destruct s as [m hi n p].
  unfold IndexJs.matches, IndexJs.filters, andWhereInt. cbv zeta.
  cbn -[truthy parseInt parseFloat contains_ci any_eq le_param ge_int
        or_empty andWhere integer_of].
  destruct (truthy m), (truthy hi), (truthy n), (truthy p);
    try destruct (integer_of (parseInt (or_empty p)));
    cbn -[parseFloat contains_ci any_eq le_param ge_int or_empty];
    repeat rewrite ?andb_true_r, ?andb_false_r, ?andb_assoc; reflexivity.
Qed.

End FilterCriteria.

(** C8.  In a store that meets the constraints of the schema, the page
    for two filters lists the ideas that the page for the one and the
    page for the other both list; whatever the filters, an idea on the
    page is on the page of each of them alone.  And the page lists an
    id exactly when an idea of that id may be viewed and passes every
    filter that is supplied, each filter by its own criterion: the
    pattern match on the name, the marketing strategy and the target
    customer ([= ANY] on the marketing strategies in [index.js]), the
    two bounds on the cost, and the threshold on the potential, which
    has to start with an integer of the range of the column. *)
Theorem filters_are_conjunctive :
  (forall (u : Z) (s : Part000.search) (f g : Part000.filter_name)
          (d : Store.db string) (k : Z),
      Store.consistent d = true ->
      (In k (Part000.ids
               (Part000.get_ideas (Some u) (Part000.keep [f; g] s) d))
       <-> In k (Part000.ids
                   (Part000.get_ideas (Some u) (Part000.keep [f] s) d))
           /\ In k (Part000.ids
                      (Part000.get_ideas (Some u) (Part000.keep [g] s) d))))
  /\ (forall (u : Z) (s : Part000.search) (f : Part000.filter_name)
             (d : Store.db string) (k : Z),
         In k (Part000.ids (Part000.get_ideas (Some u) s d)) ->
         In k (Part000.ids
                 (Part000.get_ideas (Some u) (Part000.keep [f] s) d)))
  /\ (forall (u : Z) (s : IndexJs.search) (f g : IndexJs.filter_name)
             (d : Store.db (list string)) (k : Z),
         Store.consistent d = true ->
         (In k (IndexJs.ids
                  (IndexJs.get_view_ideas (Some u) (IndexJs.keep [f; g] s) d))
          <-> In k (IndexJs.ids
                      (IndexJs.get_view_ideas (Some u) (IndexJs.keep [f] s) d))
              /\ In k (IndexJs.ids
                         (IndexJs.get_view_ideas (Some u)
                                                 (IndexJs.keep [g] s) d))))
  /\ (forall (u : Z) (s : IndexJs.search) (f : IndexJs.filter_name)
             (d : Store.db (list string)) (k : Z),
         In k (IndexJs.ids (IndexJs.get_view_ideas (Some u) s d)) ->
         In k (IndexJs.ids
                 (IndexJs.get_view_ideas (Some u) (IndexJs.keep [f] s) d)))
  /\ (forall (u : Z) (s : Part000.search) (d : Store.db string) (k : Z),
         In k (Part000.ids (Part000.get_ideas (Some u) s d))
         <-> exists i,
               In i (Store.idea_details d) /\ Idea.ideaid i = k
               /\ Store.canView d i u = true
               /\ (forall v, Part000.searchName s = Some v -> v <> "" ->
                              Sql.contains_ci (Some (Idea.ideaname i)) v
                              = true)
               /\ (forall v, Part000.searchMarketing s = Some v -> v <> "" ->
                              Sql.contains_ci (Idea.marketingstrategy i) v
                              = true)
               /\ (forall v, Part000.searchCustomer s = Some v -> v <> "" ->
                              Sql.contains_ci (Idea.targetcustomer i) v
                              = true)
               /\ (forall v, Part000.minCost s = Some v -> v <> "" ->
                              Sql.ge_param (Idea.estimatedcost i)
                                           (Js.parseFloat v) = true)
               /\ (forall v, Part000.maxCost s = Some v -> v <> "" ->
                              Sql.le_param (Idea.estimatedcost i)
                                           (Js.parseFloat v) = true)
               /\ (forall v, Part000.minPotential s = Some v -> v <> "" ->
                              exists n,
                                Js.parseInt v = Some n
                                /\ -2147483648 <= n <= 2147483647
                                /\ Sql.ge_int (Idea.potential i) n = true))
  /\ (forall (u : Z) (s : IndexJs.search) (d : Store.db (list string))
             (k : Z),
         u <> 0 ->
         (In k (IndexJs.ids (IndexJs.get_view_ideas (Some u) s d))
          <-> exists i,
                In i (Store.idea_details d) /\ Idea.ideaid i = k
                /\ Store.canView d i u = true
                /\ (forall v, IndexJs.q_marketingstrategy s = Some v ->
                               v <> "" ->
                               exists l, Idea.marketingstrategy i = Some l
                                         /\ In v l)
                /\ (forall v, IndexJs.q_maxcost s = Some v -> v <> "" ->
                               Sql.le_param (Idea.estimatedcost i)
                                            (Js.parseFloat v) = true)
                /\ (forall v, IndexJs.q_ideaname s = Some v -> v <> "" ->
                               Sql.contains_ci (Some (Idea.ideaname i)) v
                               = true)
                /\ (forall v, IndexJs.q_potential s = Some v -> v <> "" ->
                               exists n,
                                 Js.parseInt v = Some n
                                 /\ -2147483648 <= n <= 2147483647
                                 /\ Sql.ge_int (Idea.potential i) n
                                    = true))).
Proof.
  split; [|split; [|split; [|split; [|split]]]].
  - intros u s f g d k Hc. apply consistent_spec in Hc.
    rewrite !p0_in_ids. split.
    + intros (i & Hi & Hk & Hv & Hm).
      rewrite p0_matches_keep in Hm. cbn [forallb] in Hm.
      rewrite andb_true_r in Hm. apply andb_true_iff in Hm.
      split; exists i; tauto.
    + intros ((i & Hi & Hk & Hv & Hm) & (j & Hj & Hkj & _ & Hmj)).
      assert (i = j) by (apply (idea_by_id d); congruence). subst j.
      exists i. repeat split; try assumption.
      rewrite p0_matches_keep. cbn [forallb]. rewrite Hm, Hmj. reflexivity.
  - intros u s f d k. rewrite !p0_in_ids.
    intros (i & Hi & Hk & Hv & Hm). exists i. repeat split; try assumption.
    rewrite p0_matches_each in Hm.
    exact (proj1 (forallb_forall _ _) Hm f (p0_all_filters f)).
  - intros u s f g d k Hc. apply consistent_spec in Hc.
    destruct (Z.eq_dec u 0) as [->|Hu];
      [rewrite !js_unauthenticated; cbn [In]; tauto|].
    rewrite !(js_in_ids u _ d k Hu). split.
    + intros (i & Hi & Hk & Hv & Hm).
      rewrite js_matches_keep in Hm. cbn [forallb] in Hm.
      rewrite andb_true_r in Hm. apply andb_true_iff in Hm.
      split; exists i; tauto.
    + intros ((i & Hi & Hk & Hv & Hm) & (j & Hj & Hkj & _ & Hmj)).
      assert (i = j) by (apply (idea_by_id d); congruence). subst j.
      exists i. repeat split; try assumption.
      rewrite js_matches_keep. cbn [forallb]. rewrite Hm, Hmj. reflexivity.
  - intros u s f d k.
    destruct (Z.eq_dec u 0) as [->|Hu];
      [rewrite !js_unauthenticated; intros []|].
    rewrite !(js_in_ids u _ d k Hu).
    intros (i & Hi & Hk & Hv & Hm). exists i. repeat split; try assumption.
    rewrite js_matches_each in Hm.
    exact (proj1 (forallb_forall _ _) Hm f (js_all_filters f)).
  - intros u s d k. rewrite p0_in_ids.
    assert (Hm : forall i,
               Part000.matches s i = true
               <-> (forall v, Part000.searchName s = Some v -> v <> "" ->
                              Sql.contains_ci (Some (Idea.ideaname i)) v
                              = true)
                   /\ (forall v, Part000.searchMarketing s = Some v ->
                                 v <> "" ->
                                 Sql.contains_ci (Idea.marketingstrategy i) v
                                 = true)
                   /\ (forall v, Part000.searchCustomer s = Some v ->
                                 v <> "" ->
                                 Sql.contains_ci (Idea.targetcustomer i) v
                                 = true)
                   /\ (forall v, Part000.minCost s = Some v -> v <> "" ->
                                 Sql.ge_param (Idea.estimatedcost i)
                                              (Js.parseFloat v) = true)
                   /\ (forall v, Part000.maxCost s = Some v -> v <> "" ->
                                 Sql.le_param (Idea.estimatedcost i)
                                              (Js.parseFloat v) = true)
                   /\ (forall v, Part000.minPotential s = Some v ->
                                 v <> "" ->
                                 exists n,
                                   Js.parseInt v = Some n
                                   /\ -2147483648 <= n <= 2147483647
                                   /\ Sql.ge_int (Idea.potential i) n
                                      = true)).
    { intros i. rewrite p0_matches_clauses, !andb_true_iff.
      rewrite (supplied_criterion (Part000.searchName s)
                 (fun v => Sql.contains_ci (Some (Idea.ideaname i)) v)).
      rewrite (supplied_criterion (Part000.searchMarketing s)
                 (fun v => Sql.contains_ci (Idea.marketingstrategy i) v)).
      rewrite (supplied_criterion (Part000.searchCustomer s)
                 (fun v => Sql.contains_ci (Idea.targetcustomer i) v)).
      rewrite (supplied_criterion (Part000.minCost s)
                 (fun v => Sql.ge_param (Idea.estimatedcost i)
                                        (Js.parseFloat v))).
      rewrite (supplied_criterion (Part000.maxCost s)
                 (fun v => Sql.le_param (Idea.estimatedcost i)
                                        (Js.parseFloat v))).
      rewrite (supplied_criterion (Part000.minPotential s)
                 (fun v => match Sql.integer_of (Js.parseInt v) with
                           | Some k => Sql.ge_int (Idea.potential i) k
                           | None => false
                           end)).
      split.
      - intros (((((H1 & H2) & H3) & H4) & H5) & H6).
        repeat split; try assumption.
        intros v Hv Hne. apply integer_criterion. exact (H6 v Hv Hne).
      - intros (H1 & H2 & H3 & H4 & H5 & H6).
        repeat split; try assumption.
        intros v Hv Hne. apply integer_criterion. exact (H6 v Hv Hne). }
    split; intros (i & Hi & Hk & Hv & H); exists i;
      (split; [exact Hi|]); (split; [exact Hk|]); (split; [exact Hv|]);
      apply Hm; exact H.
  - intros u s d k Hu. rewrite (js_in_ids u s d k Hu).
    assert (Hany : forall (v : string) (col : option (list string)),
               Sql.any_eq v col = true
               <-> exists l, col = Some l /\ In v l).
    { intros v [l|]; unfold Sql.any_eq.
      - rewrite existsb_exists. split.
        + intros (x & Hx & He). apply String.eqb_eq in He. subst x.
          exists l. tauto.
        + intros (l' & Hl & Hin). inversion Hl; subst l'.
          exists v. split; [assumption | apply String.eqb_refl].
      - split; [discriminate|]. intros (l & Hl & _). discriminate. }
    assert (Hm : forall i,
               IndexJs.matches s i = true
               <-> (forall v, IndexJs.q_marketingstrategy s = Some v ->
                              v <> "" ->
                              exists l, Idea.marketingstrategy i = Some l
                                        /\ In v l)
                   /\ (forall v, IndexJs.q_maxcost s = Some v -> v <> "" ->
                                 Sql.le_param (Idea.estimatedcost i)
                                              (Js.parseFloat v) = true)
                   /\ (forall v, IndexJs.q_ideaname s = Some v -> v <> "" ->
                                 Sql.contains_ci (Some (Idea.ideaname i)) v
                                 = true)
                   /\ (forall v, IndexJs.q_potential s = Some v -> v <> "" ->
                                 exists n,
                                   Js.parseInt v = Some n
                                   /\ -2147483648 <= n <= 2147483647
                                   /\ Sql.ge_int (Idea.potential i) n
                                      = true)).
    { intros i. rewrite js_matches_clauses, !andb_true_iff.
      rewrite (supplied_criterion (IndexJs.q_marketingstrategy s)
                 (fun v => Sql.any_eq v (Idea.marketingstrategy i))).
      rewrite (supplied_criterion (IndexJs.q_maxcost s)
                 (fun v => Sql.le_param (Idea.estimatedcost i)
                                        (Js.parseFloat v))).
      rewrite (supplied_criterion (IndexJs.q_ideaname s)
                 (fun v => Sql.contains_ci (Some (Idea.ideaname i)) v)).
      rewrite (supplied_criterion (IndexJs.q_potential s)
                 (fun v => match Sql.integer_of (Js.parseInt v) with
                           | Some k => Sql.ge_int (Idea.potential i) k
                           | None => false
                           end)).
      split.
      - intros (((H1 & H2) & H3) & H4).
        repeat split; try assumption.
        + intros v Hv Hne. apply Hany. exact (H1 v Hv Hne).
        + intros v Hv Hne. apply integer_criterion. exact (H4 v Hv Hne).
      - intros (H1 & H2 & H3 & H4).
        repeat split; try assumption.
        + intros v Hv Hne. apply Hany. exact (H1 v Hv Hne).
        + intros v Hv Hne. apply integer_criterion. exact (H4 v Hv Hne). }
    split; intros (i & Hi & Hk & Hv & H); exists i;
      (split; [exact Hi|]); (split; [exact Hk|]); (split; [exact Hv|]);
      apply Hm; exact H.
Qed.

Lemma filters_are_conjunctive_witness :
  Part000.ids
    (Part000.get_ideas (Some 1)
       (Part000.keep [Part000.SearchName; Part000.MinCost] Scenario.o_and_cost)
       Scenario.shared) = [1]
  /\ (In 1 (Part000.ids
              (Part000.get_ideas (Some 1)
                 (Part000.keep [Part000.SearchName] Scenario.o_and_cost)
                 Scenario.shared))
      /\ In 1 (Part000.ids
                 (Part000.get_ideas (Some 1)
                    (Part000.keep [Part000.MinCost] Scenario.o_and_cost)
                    Scenario.shared))).
Proof.
  split; [vm_compute; reflexivity|].
  assert (Hc : Store.consistent Scenario.shared = true)
    by (vm_compute; reflexivity).
  refine (proj1 (proj1 filters_are_conjunctive 1 Scenario.o_and_cost
                       Part000.SearchName Part000.MinCost Scenario.shared 1
                       Hc) _).
  vm_compute. left. reflexivity.
Defined.

(** ** The order of the listing *)

Lemma strictly_descending {A : Type} (key : A -> Z) (l : list A) :
  StronglySorted (Store.descending key) l -> NoDup (map key l) ->
  StronglySorted (fun a b => key b < key a) l.
Proof.
  induction 1 as [|x l Hl IH Hx]; simpl; intros Hnd; constructor.
  - apply IH. inversion Hnd. assumption.
  - inversion Hnd as [|? ? Hnot _]; subst.
    apply Forall_forall. intros y Hy.
    pose proof (proj1 (Forall_forall _ _) Hx y Hy) as Hle.
    unfold Store.descending in Hle.
    assert (key y <> key x).
    { intros He. apply Hnot. rewrite <- He. apply in_map. assumption. }
    lia.
Qed.

Lemma sorted_map {A B : Type} (f : A -> B) (R : B -> B -> Prop) (l : list A) :
  StronglySorted (fun a b => R (f a) (f b)) l -> StronglySorted R (map f l).
Proof.
  induction 1 as [|x l Hl IH Hx]; simpl; constructor.
  - exact IH.
  - apply Forall_forall. intros y Hy. apply in_map_iff in Hy.
    destruct Hy as (z & <- & Hz).
    exact (proj1 (Forall_forall _ _) Hx z Hz).
Qed.

(** The page of [/ideas] is in the order of the ids, largest first. *)
Lemma p0_ids_sorted (session : option Z) (s : Part000.search)
  (d : Store.db string) :
  StronglySorted (fun a b => b <= a)
                 (Part000.ids (Part000.get_ideas session s d)).
Proof.
  unfold Part000.ids, Part000.get_ideas.
  destruct session as [u|]; [|constructor].
  destruct (Part000.run _ d) as [rows|] eqn:Hr; [|constructor].
  simpl. rewrite map_map. simpl.
  rewrite p0_run in Hr.
  destruct (Store.bound _); [|discriminate].
  inversion Hr; subst rows; clear Hr.
  apply sorted_map.
  apply (sort_by_sorted (fun j => Idea.ideaid (Part000.j_idea j))).
Qed.

(** The page of [/view-ideas] is in the order of the creation
    timestamps, newest first. *)
Lemma js_times_sorted (session : option Z) (s : IndexJs.search)
  (d : Store.db (list string)) :
  StronglySorted (Store.descending IndexJs.time_of)
                 (IndexJs.ideas_of (IndexJs.get_view_ideas session s d)).
Proof.
  unfold IndexJs.get_view_ideas.
  destruct (IndexJs.requireAuth session) as [u|]; [|constructor].
  destruct (Store.select _ _); [|constructor].
  destruct (Store.select _ _); [|constructor].
  simpl. apply sort_by_sorted.
Qed.

(** C9, as the code has it.  The page of [/ideas] is ordered on the
    idea id alone, largest first (strictly so in a store that meets the
    constraints of the schema); the page of [/view-ideas] is ordered on
    the creation timestamp, newest first, a NULL timestamp read as the
    epoch: of two entries, the earlier is not the older one.  Entries of
    [/view-ideas] with one timestamp stand as the two queries gave
    them, the reader's own ideas before the shared ones; the id plays
    no part. *)
Theorem listing_order :
  (forall (session : option Z) (s : Part000.search) (d : Store.db string),
      StronglySorted (fun a b => b <= a)
                     (Part000.ids (Part000.get_ideas session s d))
      /\ (Store.consistent d = true ->
          StronglySorted (fun a b => b < a)
                         (Part000.ids (Part000.get_ideas session s d))))
  /\ (forall (session : option Z) (s : IndexJs.search)
             (d : Store.db (list string)),
         StronglySorted
           (fun a b => IndexJs.time_of b <= IndexJs.time_of a)
           (IndexJs.ideas_of (IndexJs.get_view_ideas session s d)))
  /\ (forall (session : option Z) (s : IndexJs.search)
             (d : Store.db (list string)) (t : Z),
         exists mine shared,
           filter (fun x => IndexJs.time_of x =? t)
                  (IndexJs.ideas_of (IndexJs.get_view_ideas session s d))
           = mine ++ shared
           /\ Forall (fun x => IndexJs.is_owner x = true) mine
           /\ Forall (fun x => IndexJs.is_owner x = false) shared).
Proof.
  split; [|split].
  - intros session s d. split; [apply p0_ids_sorted|].
    intros Hc. apply consistent_spec in Hc.
    pose proof (strictly_descending (fun k => k) _
                  (p0_ids_sorted session s d)) as H.
    rewrite map_id in H. apply H.
    apply p0_ids_distinct. assumption.
  - intros session s d. apply js_times_sorted.
  - intros session s d t. unfold IndexJs.get_view_ideas.
    destruct (IndexJs.requireAuth session) as [u|];
      [|exists [], []; repeat split; constructor].
    destruct (Store.select _ _) as [myIdeas|];
      [|exists [], []; repeat split; constructor].
    destruct (Store.select _ _) as [sharedIdeas|];
      [|exists [], []; repeat split; constructor].
    cbn [IndexJs.ideas_of].
    rewrite (sort_by_stable IndexJs.time_of), filter_app.
    eexists. eexists. split; [reflexivity|].
    split; apply Forall_forall; intros x Hx; apply filter_In in Hx;
      destruct Hx as (Hx & _); apply in_map_iff in Hx;
      destruct Hx as (j & <- & _); reflexivity.
Qed.

Lemma listing_order_witness :
  StronglySorted (fun a b => b < a)
    (Part000.ids
       (Part000.get_ideas (Some 1) Scenario.no_search Scenario.shared))
  /\ Part000.ids
       (Part000.get_ideas (Some 1) Scenario.no_search Scenario.shared)
     = [2; 1].
Proof.
  split.
  - apply (proj2 (proj1 listing_order (Some 1) Scenario.no_search
                        Scenario.shared)).
    vm_compute. reflexivity.
  - vm_compute. reflexivity.
Defined.

(** Two ideas of one owner added at the same instant are listed by
    [/view-ideas] in the order the store returns them, the smaller id
    first: not in the order "newest first, then largest id first". *)
Lemma listing_order_counterexample :
  ~ Sorted newest_then_largest
      (map (fun x => stamp_and_id (IndexJs.idea x))
           (IndexJs.ideas_of
              (IndexJs.get_view_ideas (Some 1) Scenario.no_search_js
                                      Scenario.shared_js))).
Proof.
  intros H.
  assert (He : map (fun x => stamp_and_id (IndexJs.idea x))
                   (IndexJs.ideas_of
                      (IndexJs.get_view_ideas (Some 1) Scenario.no_search_js
                                              Scenario.shared_js))
               = [(Some 20, 1); (Some 20, 2)])
    by (vm_compute; reflexivity).
  rewrite He in H. inversion H as [|? ? _ Hhd]; subst.
  inversion Hhd as [|? ? Hr]; subst.
  unfold newest_then_largest in Hr. simpl in Hr. lia.
Qed.

(** ** A numeric filter is left out only when it is blank *)

Lemma truthy_text (v : string) : Js.truthy (Some v) = true <-> v <> "".
Proof.
  unfold Js.truthy. rewrite negb_true_iff. apply String.eqb_neq.
Qed.

Section NumericFilters.
Import Js Sql Store.

Lemma p0_matches_minCost n m c hi p v (i : Idea.row string) :
  v <> "" ->
  Part000.matches (Part000.mkSearch n m c (Some v) hi p) i = true ->
  ge_param (Idea.estimatedcost i) (parseFloat v) = true.
Proof.
  intros Hv Hm. apply truthy_text in Hv.
  rewrite p0_matches_each in Hm.
  pose proof (proj1 (forallb_forall _ _) Hm Part000.MinCost
                    (p0_all_filters _)) as H.
  unfold Part000.matches, Part000.filters, Part000.keep in H.
  cbn -[truthy parseInt parseFloat contains_ci ge_param le_param ge_int] in H.
  rewrite Hv in H.
  cbn -[parseFloat contains_ci ge_param le_param ge_int] in H.
  rewrite andb_true_r in H. exact H.
Qed.

Lemma p0_matches_maxCost n m c lo p v (i : Idea.row string) :
  v <> "" ->
  Part000.matches (Part000.mkSearch n m c lo (Some v) p) i = true ->
  le_param (Idea.estimatedcost i) (parseFloat v) = true.
Proof.
  intros Hv Hm. apply truthy_text in Hv.
  rewrite p0_matches_each in Hm.
  pose proof (proj1 (forallb_forall _ _) Hm Part000.MaxCost
                    (p0_all_filters _)) as H.
  unfold Part000.matches, Part000.filters, Part000.keep in H.
  cbn -[truthy parseInt parseFloat contains_ci ge_param le_param ge_int] in H.
  rewrite Hv in H.
  cbn -[parseFloat contains_ci ge_param le_param ge_int] in H.
  rewrite andb_true_r in H. exact H.
Qed.

Lemma p0_matches_minPotential n m c lo hi v (i : Idea.row string) :
  v <> "" ->
  Part000.matches (Part000.mkSearch n m c lo hi (Some v)) i = true ->
  exists k, parseInt v = Some k /\ ge_int (Idea.potential i) k = true.
Proof.
  intros Hv Hm. apply truthy_text in Hv.
  rewrite p0_matches_each in Hm.
  pose proof (proj1 (forallb_forall _ _) Hm Part000.MinPotential
                    (p0_all_filters _)) as H.
  unfold Part000.matches, Part000.filters, Part000.keep in H.
  cbn -[truthy parseInt parseFloat contains_ci ge_param le_param ge_int] in H.
  rewrite Hv in H. unfold andWhereInt, integer_of in H.
  destruct (parseInt v) as [k|]; [|discriminate].
  destruct (int4 k); [|discriminate].
  cbn -[parseFloat contains_ci ge_param le_param ge_int] in H.
  rewrite andb_true_r in H. exists k. split; [reflexivity | exact H].
Qed.

Lemma js_matches_maxcost m n p v (i : Idea.row (list string)) :
  v <> "" ->
  IndexJs.matches (IndexJs.mkSearch m (Some v) n p) i = true ->
  le_param (Idea.estimatedcost i) (parseFloat v) = true.
Proof.
  intros Hv Hm. apply truthy_text in Hv.
  rewrite js_matches_each in Hm.
  pose proof (proj1 (forallb_forall _ _) Hm IndexJs.Maxcost
                    (js_all_filters _)) as H.
  unfold IndexJs.matches, IndexJs.filters, IndexJs.keep in H.
  cbn -[truthy parseInt parseFloat contains_ci any_eq le_param ge_int] in H.
  rewrite Hv in H.
  cbn -[parseFloat contains_ci any_eq le_param ge_int] in H.
  rewrite andb_true_r in H. exact H.
Qed.

Lemma js_matches_potential m hi n v (i : Idea.row (list string)) :
  v <> "" ->
  IndexJs.matches (IndexJs.mkSearch m hi n (Some v)) i = true ->
  exists k, parseInt v = Some k /\ ge_int (Idea.potential i) k = true.
Proof.
  intros Hv Hm. apply truthy_text in Hv.
  rewrite js_matches_each in Hm.
  pose proof (proj1 (forallb_forall _ _) Hm IndexJs.Potential
                    (js_all_filters _)) as H.
  unfold IndexJs.matches, IndexJs.filters, IndexJs.keep in H.
  cbn -[truthy parseInt parseFloat contains_ci any_eq le_param ge_int] in H.
  rewrite Hv in H. unfold andWhereInt, integer_of in H.
  destruct (parseInt v) as [k|]; [|discriminate].
  destruct (int4 k); [|discriminate].
  cbn -[parseFloat contains_ci any_eq le_param ge_int] in H.
  rewrite andb_true_r in H. exists k. split; [reflexivity | exact H].
Qed.

End NumericFilters.

(** C10, as the code has it.  A cost bound or potential threshold
    submitted as the empty string gives the page of the absent one.
    Submitted as any other text, "0" included, it is parsed and puts
    its clause on every entry of the page: a threshold of zero is
    applied as zero. *)
Theorem numeric_filter_blank_or_applied :
  (forall (session : option Z) (n m c lo hi p : option string)
          (d : Store.db string),
      Part000.get_ideas session (Part000.mkSearch n m c (Some "") hi p) d
      = Part000.get_ideas session (Part000.mkSearch n m c None hi p) d
      /\ Part000.get_ideas session (Part000.mkSearch n m c lo (Some "") p) d
         = Part000.get_ideas session (Part000.mkSearch n m c lo None p) d
      /\ Part000.get_ideas session (Part000.mkSearch n m c lo hi (Some "")) d
         = Part000.get_ideas session (Part000.mkSearch n m c lo hi None) d)
  /\ (forall (session : option Z) (m hi n p : option string)
             (d : Store.db (list string)),
         IndexJs.get_view_ideas session (IndexJs.mkSearch m (Some "") n p) d
         = IndexJs.get_view_ideas session (IndexJs.mkSearch m None n p) d
         /\ IndexJs.get_view_ideas session
              (IndexJs.mkSearch m hi n (Some "")) d
            = IndexJs.get_view_ideas session (IndexJs.mkSearch m hi n None) d)
  /\ (forall (u : Z) (n m c lo hi p : option string) (v : string)
             (d : Store.db string),
         v <> "" ->
         Forall (fun x => Sql.ge_param (Idea.estimatedcost (Part000.idea x))
                                       (Js.parseFloat v) = true)
                (Part000.ideas_of
                   (Part000.get_ideas (Some u)
                      (Part000.mkSearch n m c (Some v) hi p) d))
         /\ Forall (fun x => Sql.le_param
                               (Idea.estimatedcost (Part000.idea x))
                               (Js.parseFloat v) = true)
                   (Part000.ideas_of
                      (Part000.get_ideas (Some u)
                         (Part000.mkSearch n m c lo (Some v) p) d))
         /\ Forall (fun x => exists k,
                        Js.parseInt v = Some k
                        /\ Sql.ge_int (Idea.potential (Part000.idea x)) k
                           = true)
                   (Part000.ideas_of
                      (Part000.get_ideas (Some u)
                         (Part000.mkSearch n m c lo hi (Some v)) d)))
  /\ (forall (u : Z) (m hi n p : option string) (v : string)
             (d : Store.db (list string)),
         v <> "" ->
         Forall (fun x => Sql.le_param
                            (Idea.estimatedcost (IndexJs.idea x))
                            (Js.parseFloat v) = true)
                (IndexJs.ideas_of
                   (IndexJs.get_view_ideas (Some u)
                      (IndexJs.mkSearch m (Some v) n p) d))
         /\ Forall (fun x => exists k,
                        Js.parseInt v = Some k
                        /\ Sql.ge_int (Idea.potential (IndexJs.idea x)) k
                           = true)
                   (IndexJs.ideas_of
                      (IndexJs.get_view_ideas (Some u)
                         (IndexJs.mkSearch m hi n (Some v)) d))).
Proof.
  split; [|split; [|split]].
  - intros. repeat split; reflexivity.
  - intros. repeat split; reflexivity.
  - intros u n m c lo hi p v d Hv.
    repeat split; apply Forall_forall; intros x Hx;
      apply p0_in_ideas in Hx; destruct Hx as (_ & _ & Hm).
    + exact (p0_matches_minCost _ _ _ _ _ _ _ Hv Hm).
    + exact (p0_matches_maxCost _ _ _ _ _ _ _ Hv Hm).
    + exact (p0_matches_minPotential _ _ _ _ _ _ _ Hv Hm).
  - intros u m hi n p v d Hv.
    repeat split; apply Forall_forall; intros x Hx;
      (destruct (Z.eq_dec u 0) as [->|Hu]; [destruct Hx|]);
      apply (js_in_ideas u _ d x Hu) in Hx; destruct Hx as (_ & _ & Hm & _).
    + exact (js_matches_maxcost _ _ _ _ _ Hv Hm).
    + exact (js_matches_potential _ _ _ _ _ Hv Hm).
Qed.

Lemma numeric_filter_blank_or_applied_witness :
  Forall (fun x => Sql.le_param (Idea.estimatedcost (Part000.idea x))
                                (Js.Finite 0 0) = true)
         (Part000.ideas_of
            (Part000.get_ideas (Some 1) Scenario.free_only Scenario.shared)).
Proof.
  assert (Hv : "0" <> "") by discriminate.
  exact (proj1 (proj2 (proj1 (proj2 (proj2 numeric_filter_blank_or_applied))
                             1 None None None None None None "0"
                             Scenario.shared Hv))).
Defined.

(** With the two ideas of the scenario, which cost 5000 and 500, the
    page for a largest cost of "0" is not the page without that filter:
    it is empty. *)
Lemma numeric_filter_zero_counterexample :
  Part000.get_ideas (Some 1) Scenario.free_only Scenario.shared
  <> Part000.get_ideas (Some 1) Scenario.no_search Scenario.shared
  /\ IndexJs.get_view_ideas (Some 1) Scenario.free_only_js Scenario.shared_js
     <> IndexJs.get_view_ideas (Some 1) Scenario.no_search_js
                               Scenario.shared_js.
Proof.
  split; intros H.
  - apply (f_equal (fun p => List.length (Part000.ideas_of p))) in H.
    vm_compute in H. discriminate.
  - apply (f_equal (fun p => List.length (IndexJs.ideas_of p))) in H.
    vm_compute in H. discriminate.
Qed.

(** ** Deleting an idea *)

Lemma filter_twice {A : Type} (f : A -> bool) (l : list A) :
  filter f (filter f l) = filter f l.
Proof.
  induction l as [|x l IH]; simpl; [reflexivity|].
  destruct (f x) eqn:Hf; simpl; rewrite ?Hf, IH; reflexivity.
Qed.

Lemma filtered_out {A : Type} (f : A -> bool) (l : list A) :
  existsb f (filter (fun x => negb (f x)) l) = false.
Proof.
  induction l as [|x l IH]; simpl; [reflexivity|].
  destruct (f x) eqn:Hf; simpl; rewrite ?Hf, IH; reflexivity.
Qed.

Section Deleting.
Import Js Sql Store.
Context {M : Type}.
Implicit Types (d : Store.db M) (k u : Z).

Lemma has_idea_first d k :
  has_idea d k = match first_idea d k with Some _ => true | None => false end.
Proof.
  unfold has_idea, first_idea.
  induction (idea_details d) as [|i l IH]; simpl; [reflexivity|].
  destruct (Idea.ideaid i =? k); simpl; [reflexivity | exact IH].
Qed.

(** The two statements of [/deleteIdea], one after the other. *)
Lemma delete_in_two_steps (fk : fk_action) d k :
  has_idea d k = true ->
  delete_idea fk k
    (store_of (delete_collaborations
                 (fun c => Collaboration.ideaid c =? k) d))
  = Done (mk (security d)
             (filter (fun i => negb (Idea.ideaid i =? k)) (idea_details d))
             (filter (fun c => negb (Collaboration.ideaid c =? k))
                     (collaborations d))
             (next_userid d) (next_ideaid d) (next_collaborationid d)).
Proof.
  intros Hk. unfold delete_idea, delete_collaborations, store_of.
  unfold has_idea in *. simpl. rewrite Hk.
  destruct fk.
  - rewrite filter_twice. reflexivity.
  - rewrite (filtered_out (fun c => Collaboration.ideaid c =? k)). simpl.
    reflexivity.
Qed.

(** The one statement of [/delete-idea] under ON DELETE CASCADE. *)
Lemma delete_cascading d k :
  has_idea d k = true ->
  delete_idea Cascade k d
  = Done (mk (security d)
             (filter (fun i => negb (Idea.ideaid i =? k)) (idea_details d))
             (filter (fun c => negb (Collaboration.ideaid c =? k))
                     (collaborations d))
             (next_userid d) (next_ideaid d) (next_collaborationid d)).
Proof.
  intros Hk. unfold delete_idea. rewrite Hk. reflexivity.
Qed.

(** Without the cascade, the one statement fails as long as a
    collaboration references the idea, and removes nothing. *)
Lemma delete_restricted d k c :
  has_idea d k = true -> In c (collaborations d) ->
  Collaboration.ideaid c = k ->
  delete_idea Restrict k d = Failed d.
Proof.
  intros Hk Hc He. unfold delete_idea. rewrite Hk.
  assert (Hr : existsb (fun c => Collaboration.ideaid c =? k)
                       (collaborations d) = true).
  { apply existsb_exists. exists c. split; [assumption|].
    apply Z.eqb_eq. assumption. }
  rewrite Hr. reflexivity.
Qed.

Lemma no_idea_left d k :
  has_idea (mk (security d)
               (filter (fun i => negb (Idea.ideaid i =? k)) (idea_details d))
               (filter (fun c => negb (Collaboration.ideaid c =? k))
                       (collaborations d))
               (next_userid d) (next_ideaid d) (next_collaborationid d)) k
  = false.
Proof.
  unfold has_idea. simpl.
  apply (filtered_out (fun i : Idea.row M => Idea.ideaid i =? k)).
Qed.

End Deleting.

(** C2.  [/deleteIdea] by the owner of an existing idea first deletes
    the collaborations of the idea, then the idea, whatever the store
    does on such a delete; [/delete-idea] deletes the idea in one
    statement, with which the store of the data model deletes its
    collaborations.  Either way the idea's row is gone, no
    collaboration references its id, and the other rows stay.  By
    someone who is not the owner, both leave the store as it is. *)
Theorem deleteIdea_removes_idea_and_collaborations :
  (forall (fk : fk_action) (u : Z) (id : string) (k : Z)
          (idea : Idea.row string) (d : Store.db string),
      Sql.integer_in id = Some k ->
      Store.first_idea d k = Some idea ->
      (Store.isOwner idea u = true ->
       let d1 := Part000.store_of_first_delete k d in
       let d2 := store (Part000.post_deleteIdea fk (Some u) id d) in
       Store.idea_details d1 = Store.idea_details d
       /\ (forall c, In c (Store.collaborations d1) ->
                     Collaboration.ideaid c <> k)
       /\ Store.delete_idea fk k d1 = Store.Done d2
       /\ Store.idea_details d2
          = filter (fun i => negb (Idea.ideaid i =? k)) (Store.idea_details d)
       /\ Store.collaborations d2
          = filter (fun c => negb (Collaboration.ideaid c =? k))
                   (Store.collaborations d)
       /\ Store.has_idea d2 k = false
       /\ (forall c, In c (Store.collaborations d2) ->
                     Collaboration.ideaid c <> k))
      /\ (Store.isOwner idea u = false ->
          store (Part000.post_deleteIdea fk (Some u) id d) = d))
  /\ (forall (u : Z) (id : string) (k : Z)
             (idea : Idea.row (list string)) (d : Store.db (list string)),
         u <> 0 ->
         Sql.integer_in id = Some k ->
         Store.first_idea d k = Some idea ->
         (Store.isOwner idea u = true ->
          let d2 :=
            store (IndexJs.post_delete_idea schema_on_delete (Some u) id d) in
          Store.delete_idea schema_on_delete k d = Store.Done d2
          /\ Store.idea_details d2
             = filter (fun i => negb (Idea.ideaid i =? k))
                      (Store.idea_details d)
          /\ Store.collaborations d2
             = filter (fun c => negb (Collaboration.ideaid c =? k))
                      (Store.collaborations d)
          /\ Store.has_idea d2 k = false
          /\ (forall c, In c (Store.collaborations d2) ->
                        Collaboration.ideaid c <> k))
         /\ (Store.isOwner idea u = false ->
             store (IndexJs.post_delete_idea schema_on_delete (Some u) id d)
             = d)).
Proof.
  assert (Hgone : forall (l : list Collaboration.row) k c,
             In c (filter (fun c => negb (Collaboration.ideaid c =? k)) l) ->
             Collaboration.ideaid c <> k).
  { intros l k c Hc. apply filter_In in Hc. destruct Hc as (_ & Hc).
    apply negb_true_iff, Z.eqb_neq in Hc. exact Hc. }
  split.
  - intros fk u id k idea d Hid Hfirst.
    assert (Hk : Store.has_idea d k = true)
      by (rewrite has_idea_first, Hfirst; reflexivity).
    unfold Part000.post_deleteIdea, Part000.store_of_first_delete.
    rewrite Hid, Hfirst. split.
    + intros Ho. rewrite Ho. cbn [negb].
      rewrite (delete_in_two_steps fk d k Hk). cbv zeta.
      cbn [store Store.idea_details Store.collaborations Store.store_of
           Store.delete_collaborations].
      repeat split; try reflexivity.
      * apply Hgone.
      * apply no_idea_left.
      * apply Hgone.
    + intros Ho. rewrite Ho. reflexivity.
  - intros u id k idea d Hu Hid Hfirst.
    assert (Hk : Store.has_idea d k = true)
      by (rewrite has_idea_first, Hfirst; reflexivity).
    unfold IndexJs.post_delete_idea, IndexJs.requireAuth, schema_on_delete.
    apply Z.eqb_neq in Hu. rewrite Hu, Hid, Hfirst. split.
    + intros Ho. rewrite Ho. rewrite (delete_cascading d k Hk). cbv zeta.
      cbn [store Store.idea_details Store.collaborations].
      repeat split; try reflexivity.
      * apply no_idea_left.
      * apply Hgone.
    + intros Ho. rewrite Ho. reflexivity.
Qed.

Lemma deleteIdea_removes_idea_and_collaborations_witness :
  Store.has_idea
    (store (Part000.post_deleteIdea Restrict (Some 1) "1" Scenario.shared)) 1
  = false
  /\ store (Part000.post_deleteIdea Restrict (Some 2) "1" Scenario.shared)
     = Scenario.shared
  /\ Store.collaborations
       (store (IndexJs.post_delete_idea schema_on_delete (Some 1) "1"
                                        Scenario.shared_js))
     = filter (fun c => negb (Collaboration.ideaid c =? 1))
              (Store.collaborations Scenario.shared_js)
  /\ store (IndexJs.post_delete_idea schema_on_delete (Some 2) "1"
                                     Scenario.shared_js)
     = Scenario.shared_js.
Proof.
  assert (H0 : Store.first_idea Scenario.shared 1
               = Some Scenario.laundromat_row) by (vm_compute; reflexivity).
  assert (H1 : Store.first_idea Scenario.shared_js 1
               = Some Scenario.bakery_row) by (vm_compute; reflexivity).
  assert (Hu1 : 1 <> 0) by discriminate.
  assert (Hu2 : 2 <> 0) by discriminate.
  pose proof (proj1 deleteIdea_removes_idea_and_collaborations Restrict 1
                    "1" 1 _ _ eq_refl H0) as (Ha & _).
  pose proof (proj1 deleteIdea_removes_idea_and_collaborations Restrict 2
                    "1" 1 _ _ eq_refl H0) as (_ & Hb).
  pose proof (proj2 deleteIdea_removes_idea_and_collaborations 1
                    "1" 1 _ _ Hu1 eq_refl H1) as (Hc & _).
  pose proof (proj2 deleteIdea_removes_idea_and_collaborations 2
                    "1" 1 _ _ Hu2 eq_refl H1) as (_ & Hd).
  split; [exact (proj1 (proj2 (proj2 (proj2 (proj2 (proj2 (Ha eq_refl)))))))|].
  split; [exact (Hb eq_refl)|].
  split; [exact (proj1 (proj2 (proj2 (Hc eq_refl))))|].
  exact (Hd eq_refl).
Defined.

(** Under ON DELETE RESTRICT the one statement of [/delete-idea] fails
    for an idea that has a collaborator, and the idea stays. *)
Example delete_idea_without_cascade :
  IndexJs.post_delete_idea Restrict (Some 1) "1" Scenario.shared_js
  = mkReply Scenario.shared_js (Redirect "/view-ideas")
            ["Delete idea error:"].
Proof. vm_compute. reflexivity. Qed.

(** ** Creating an idea *)

(** C3, as the code has it.  [/addIdea] answers a name or description
    that is absent or empty with its validation message and leaves the
    store as it is.  Otherwise the potential decides: blank, it is
    stored as NULL; a text that starts with an integer of the range of
    the column is stored as that integer; any other text makes the
    INSERT fail, and the handler shows its error page and leaves the
    store as it is.  With a potential the store accepts and a user that
    exists, the row is appended with the next id and the session's user
    as owner; its cost is the decimal submitted when that decimal goes
    through a double unchanged.  [/add-idea] does not validate: with a
    name and a description submitted, empty or not, a cost the store
    reads within the bounds of its type and a potential it reads within
    the range of the column, it appends the row in the same way.  In both, an estimated cost or
    potential that is absent or empty is stored as NULL. *)
Theorem createIdea_validates_and_stores_null :
  (forall (now u : Z) (body : Part000.idea_form) (d : Store.db string),
      Js.truthy (Part000.ideaname body) = false
      \/ Js.truthy (Part000.ideadescription body) = false ->
      Part000.post_addIdea now (Some u) body d
      = mkReply d (Render "addIdea" "Idea name and description are required")
                [])
  /\ (forall (x : option string) (p : option Z),
         Part000.potential_of x = Some p
         <-> (Js.truthy x = false /\ p = None)
             \/ (Js.truthy x = true
                 /\ exists n, Js.parseInt (Js.or_empty x) = Some n
                              /\ -2147483648 <= n <= 2147483647
                              /\ p = Some n))
  /\ (forall (now u : Z) (body : Part000.idea_form) (d : Store.db string),
         Js.truthy (Part000.ideaname body) = true ->
         Js.truthy (Part000.ideadescription body) = true ->
         Part000.potential_of (Part000.potential body) = None ->
         Part000.post_addIdea now (Some u) body d
         = mkReply d
             (Render "addIdea" "Unable to save idea. Please try again.")
             ["Error inserting idea:"])
  /\ (forall (now u : Z) (body : Part000.idea_form) (p : option Z)
             (d : Store.db string),
         Js.truthy (Part000.ideaname body) = true ->
         Js.truthy (Part000.ideadescription body) = true ->
         Part000.potential_of (Part000.potential body) = Some p ->
         (forall c, Part000.cost_of (Part000.estimatedcost body) = Some c ->
                    Js.exact c = true) ->
         Store.has_user d u = true ->
         Part000.post_addIdea now (Some u) body d
         = mkReply
             (Store.mk (Store.security d)
                (Store.idea_details d
                 ++ [Idea.mk (Store.next_ideaid d) u
                       (Js.or_empty (Part000.ideaname body))
                       (Js.or_empty (Part000.ideadescription body))
                       (Js.or_null (Part000.marketingstrategy body))
                       (Js.or_null (Part000.targetcustomer body))
                       (Part000.cost_of (Part000.estimatedcost body))
                       (Js.or_null (Part000.timeline body))
                       p (Some now) None])
                (Store.collaborations d)
                (Store.next_userid d) (Store.next_ideaid d + 1)
                (Store.next_collaborationid d))
             (Redirect "/ideas") [])
  /\ (forall (now u : Z) (body : IndexJs.idea_form) (name description : string)
             (cost : option Js.number) (p : option Z)
             (d : Store.db (list string)),
         u <> 0 ->
         IndexJs.ideaname body = Some name ->
         IndexJs.ideadescription body = Some description ->
         IndexJs.bind Sql.numeric_in (IndexJs.estimatedcost body) = Some cost ->
         IndexJs.bind Sql.integer_in (IndexJs.potential body) = Some p ->
         (forall c, cost = Some c -> Sql.numeric_fits c = true) ->
         (forall n, p = Some n -> -2147483648 <= n <= 2147483647) ->
         Store.has_user d u = true ->
         IndexJs.post_add_idea now (Some u) body d
         = mkReply
             (Store.mk (Store.security d)
                (Store.idea_details d
                 ++ [Idea.mk (Store.next_ideaid d) u name description
                       (IndexJs.marketingArray (IndexJs.marketingstrategy body))
                       (Js.or_null (IndexJs.targetcustomer body))
                       cost
                       (Js.or_null (IndexJs.timeline body))
                       p (Some now) None])
                (Store.collaborations d)
                (Store.next_userid d) (Store.next_ideaid d + 1)
                (Store.next_collaborationid d))
             (Redirect "/view-ideas") [])
  /\ (forall (x : option string),
         Js.truthy x = false ->
         Part000.cost_of x = None
         /\ Part000.potential_of x = Some None
         /\ IndexJs.bind Sql.numeric_in x = Some None
         /\ IndexJs.bind Sql.integer_in x = Some None).
Proof.
  split; [|split; [|split; [|split; [|split]]]].
  - intros now u body d H. unfold Part000.post_addIdea.
    destruct H as [H|H]; rewrite H; simpl; [reflexivity|].
    rewrite orb_true_r. reflexivity.
  - intros x p. unfold Part000.potential_of, Sql.integer_of, Sql.int4.
    destruct (Js.truthy x).
    + destruct (Js.parseInt (Js.or_empty x)) as [n|].
      * destruct ((-2147483648 <=? n) && (n <=? 2147483647)) eqn:Hr.
        -- apply andb_true_iff in Hr. rewrite !Z.leb_le in Hr. split.
           ++ intros H. inversion H. right. split; [reflexivity|].
              exists n. repeat split; tauto.
           ++ intros [(H & _)|(_ & m & Hm & _ & ->)]; [discriminate|].
              congruence.
        -- split; [discriminate|].
           intros [(H & _)|(_ & m & Hm & Hrange & _)]; [discriminate|].
           inversion Hm; subst m.
           assert (Ht : (-2147483648 <=? n) && (n <=? 2147483647) = true).
           { apply andb_true_iff. rewrite !Z.leb_le. exact Hrange. }
           congruence.
      * split; [discriminate|].
        intros [(H & _)|(_ & m & Hm & _)]; discriminate.
    + split.
      * intros H. inversion H. left. tauto.
      * intros [(_ & ->)|(H & _)]; [reflexivity | discriminate].
  - intros now u body d Hn Hd Hp. unfold Part000.post_addIdea.
    rewrite Hn, Hd, Hp. reflexivity.
  - intros now u body p d Hn Hd Hp _ Hu. unfold Part000.post_addIdea.
    rewrite Hn, Hd, Hp. cbn [negb orb]. unfold Store.insert_idea.
    cbn [Idea.userid]. rewrite Hu. reflexivity.
  - intros now u body name description cost p d Hu Hn Hd Hc Hp _ _ Hhas.
    unfold IndexJs.post_add_idea, IndexJs.requireAuth.
    apply Z.eqb_neq in Hu. rewrite Hu, Hn, Hd, Hc, Hp.
    unfold Store.insert_idea. cbn [Idea.userid]. rewrite Hhas. reflexivity.
  - intros x Hx. unfold Part000.cost_of, Part000.potential_of, IndexJs.bind,
      Js.or_null. rewrite Hx. repeat split; reflexivity.
Qed.

Lemma createIdea_validates_and_stores_null_witness :
  Part000.post_addIdea 30 (Some 1)
    (Part000.mkForm (Some "") (Some "No name") None None None None None)
    Scenario.shared
  = mkReply Scenario.shared
            (Render "addIdea" "Idea name and description are required") []
  /\ Part000.post_addIdea 30 (Some 1)
       (Part000.mkForm (Some "Cafe") (Some "Coffee") None None None None
                       (Some "3000000000"))
       Scenario.shared
     = mkReply Scenario.shared
         (Render "addIdea" "Unable to save idea. Please try again.")
         ["Error inserting idea:"]
  /\ map (fun i => (Idea.ideaname i, Idea.userid i, Idea.estimatedcost i,
                    Idea.potential i))
         (Store.idea_details
            (store (Part000.post_addIdea 30 (Some 1) Scenario.kiosk
                                         Scenario.unshared)))
     = [("Laundromat", 1, Some (Js.Finite 5000 0), Some 7);
        ("Kiosk", 1, Some (Js.Finite 500 0), Some 3)]
  /\ map (fun i => (Idea.ideaname i, Idea.userid i, Idea.estimatedcost i,
                    Idea.potential i))
         (Store.idea_details
            (store (IndexJs.post_add_idea 30 (Some 2) Scenario.florist
                                          Scenario.shared_js)))
     = [("Bakery", 1, Some (Js.Finite 5000 0), Some 7);
        ("Florist", 1, Some (Js.Finite 500 0), Some 3);
        ("Florist", 2, Some (Js.Finite 500 0), Some 3)]
  /\ (Part000.cost_of (Some "") = None
      /\ Part000.potential_of (Some "") = Some None
      /\ IndexJs.bind Sql.numeric_in (Some "") = Some None
      /\ IndexJs.bind Sql.integer_in (Some "") = Some None).
Proof.
  split; [|split; [|split; [|split]]].
  - apply (proj1 createIdea_validates_and_stores_null). left. reflexivity.
  - apply (proj1 (proj2 (proj2 createIdea_validates_and_stores_null)));
      reflexivity.
  - rewrite (proj1 (proj2 (proj2 (proj2 createIdea_validates_and_stores_null)))
                   30 1 Scenario.kiosk (Some 3) Scenario.unshared
                   eq_refl eq_refl eq_refl).
    + vm_compute. reflexivity.
    + intros c Hc. vm_compute in Hc. inversion Hc. reflexivity.
    + reflexivity.
  - assert (Hu : 2 <> 0) by discriminate.
    rewrite (proj1 (proj2 (proj2 (proj2 (proj2
               createIdea_validates_and_stores_null))))
                   30 2 Scenario.florist "Florist" "Flowers"
                   (Some (Js.Finite 500 0)) (Some 3) Scenario.shared_js
                   Hu eq_refl eq_refl eq_refl eq_refl).
    + vm_compute. reflexivity.
    + intros c Hc. inversion Hc. vm_compute. reflexivity.
    + intros n Hn. inversion Hn. lia.
    + reflexivity.
  - apply (proj2 (proj2 (proj2 (proj2 (proj2
             createIdea_validates_and_stores_null))))).
    reflexivity.
Defined.

(** [/add-idea] with an empty name and an empty description: no
    validation message, and the row is in the store. *)
Lemma createIdea_validation_counterexample :
  ~ (exists message,
        IndexJs.post_add_idea 30 (Some 1) Scenario.unnamed Scenario.shared_js
        = mkReply Scenario.shared_js (Render "addIdea" message) [])
  /\ answer (IndexJs.post_add_idea 30 (Some 1) Scenario.unnamed
                                   Scenario.shared_js)
     = Redirect "/view-ideas"
  /\ map Idea.ideaname
         (Store.idea_details
            (store (IndexJs.post_add_idea 30 (Some 1) Scenario.unnamed
                                          Scenario.shared_js)))
     = ["Bakery"; "Florist"; ""].
Proof.
  split; [|split; vm_compute; reflexivity].
  intros (message & H).
  apply (f_equal (fun r => List.length (Store.idea_details (store r)))) in H.
  vm_compute in H. discriminate.
Qed.

(** ** Adding a collaborator *)

Lemma at_most_one {A K : Type} (f : A -> K) (p : A -> bool) (a : K)
  (l : list A) :
  NoDup (map f l) ->
  (forall x, In x l -> p x = true -> f x = a) ->
  (List.length (filter p l) <= 1)%nat.
Proof.
  induction l as [|x l IH]; simpl; intros Hnd Hp; [lia|].
  inversion Hnd as [|? ? Hx Hl]; subst.
  destruct (p x) eqn:Hpx; simpl.
  - assert (Hnone : filter p l = []).
    { destruct (filter p l) as [|y ys] eqn:Hf; [reflexivity|].
      exfalso. assert (Hy : In y (filter p l)) by (rewrite Hf; left; reflexivity).
      apply filter_In in Hy. destruct Hy as (Hy & Hpy).
      apply Hx. rewrite (Hp x (or_introl eq_refl) Hpx).
      rewrite <- (Hp y (or_intror Hy) Hpy). apply in_map. assumption. }
    rewrite Hnone. simpl. lia.
  - apply IH; [assumption|]. intros y Hy. apply Hp. right. assumption.
Qed.

Section Adding.
Import Js Sql Store.
Context {M : Type}.
Implicit Types (d : Store.db M) (k u t : Z).

Lemma rows_for_found d k t c :
  Consistent d -> first_collaboration d k t = Some c ->
  rows_for d k t = 1%nat.
Proof.
  intros Hc Hf. unfold rows_for, first_collaboration in *.
  pose proof (at_most_one pair_of (is_pair k t) (k, t) (collaborations d)
                (pairs_distinct _ Hc)) as Hle.
  assert (Hin : In c (filter (is_pair k t) (collaborations d))).
  { apply find_some in Hf. apply filter_In. exact Hf. }
  assert (List.length (filter (is_pair k t) (collaborations d)) <= 1)%nat.
  { apply Hle. intros x _ Hx. apply is_pair_spec in Hx.
    unfold pair_of. destruct Hx as [-> ->]. reflexivity. }
  destruct (filter (is_pair k t) (collaborations d)); [destruct Hin|].
  simpl in *. lia.
Qed.

Lemma rows_for_not_found d k t :
  first_collaboration d k t = None -> rows_for d k t = 0%nat.
Proof.
  intros Hf. unfold rows_for, first_collaboration in *.
  destruct (filter (is_pair k t) (collaborations d)) as [|c cs] eqn:He;
    [reflexivity|].
  assert (Hin : In c (filter (is_pair k t) (collaborations d)))
    by (rewrite He; left; reflexivity).
  apply filter_In in Hin. destruct Hin as (Hin & Hp).
  rewrite (find_none _ _ Hf c Hin) in Hp. discriminate.
Qed.

Lemma existsb_find {A : Type} (p : A -> bool) (l : list A) :
  existsb p l = match find p l with Some _ => true | None => false end.
Proof.
  induction l as [|x l IH]; simpl; [reflexivity|].
  destruct (p x); [reflexivity | exact IH].
Qed.

(** The INSERT of a collaboration, by cases. *)
Lemma insert_collaboration_new (ignore : bool) d k t :
  first_collaboration d k t = None ->
  has_idea d k = true -> has_user d t = true ->
  insert_collaboration ignore k t d
  = Done (mk (security d) (idea_details d)
             (collaborations d
              ++ [Collaboration.mk (next_collaborationid d) k t])
             (next_userid d) (next_ideaid d) (next_collaborationid d + 1)).
Proof.
  intros Hf Hk Ht. unfold insert_collaboration.
  rewrite existsb_find. unfold first_collaboration in Hf.
  rewrite Hf, Hk, Ht. reflexivity.
Qed.

Lemma insert_collaboration_again d k t c :
  first_collaboration d k t = Some c ->
  insert_collaboration true k t d
  = Done (mk (security d) (idea_details d) (collaborations d)
             (next_userid d) (next_ideaid d) (next_collaborationid d + 1)).
Proof.
  intros Hf. unfold insert_collaboration.
  rewrite existsb_find. unfold first_collaboration in Hf.
  rewrite Hf. reflexivity.
Qed.

Lemma rows_for_appended d k t n :
  first_collaboration d k t = None ->
  List.length (filter (is_pair k t)
                 (collaborations d ++ [Collaboration.mk n k t])) = 1%nat.
Proof.
  intros Hf. rewrite filter_app, length_app.
  fold (rows_for d k t). rewrite (rows_for_not_found d k t Hf).
  simpl. unfold is_pair. simpl. rewrite !Z.eqb_refl. reflexivity.
Qed.

Lemma first_collaboration_appended d k t n :
  first_collaboration d k t = None ->
  find (is_pair k t) (collaborations d ++ [Collaboration.mk n k t])
  = Some (Collaboration.mk n k t).
Proof.
  unfold first_collaboration.
  induction (collaborations d) as [|c l IH]; simpl; intros Hf.
  - unfold is_pair. simpl. rewrite !Z.eqb_refl. reflexivity.
  - destruct (is_pair k t c); [discriminate | apply IH, Hf].
Qed.

End Adding.

Section AddCollaborator.
Import Js Sql Store.

Lemma p0_add_existing u id k idea c t c0 (d : Store.db string) :
  integer_in id = Some k -> first_idea d k = Some idea ->
  isOwner idea u = true -> integer_in c = Some t ->
  first_collaboration d k t = Some c0 ->
  Part000.post_addCollaborator (Some u) id (Some c) d
  = mkReply d (Redirect ("/editIdea/" ++ id)) [].
Proof.
  intros Hid Hfirst Ho Hc Hf. unfold Part000.post_addCollaborator.
  rewrite Hid, Hfirst, Ho. cbn [negb option_map]. rewrite Hc, Hf.
  reflexivity.
Qed.

Lemma p0_add_new u id k idea c t (d : Store.db string) :
  integer_in id = Some k -> first_idea d k = Some idea ->
  isOwner idea u = true -> integer_in c = Some t ->
  has_user d t = true ->
  first_collaboration d k t = None ->
  Part000.post_addCollaborator (Some u) id (Some c) d
  = mkReply (mk (security d) (idea_details d)
                (collaborations d
                 ++ [Collaboration.mk (next_collaborationid d) k t])
                (next_userid d) (next_ideaid d) (next_collaborationid d + 1))
            (Redirect ("/editIdea/" ++ id)) [].
Proof.
  intros Hid Hfirst Ho Hc Ht Hf. unfold Part000.post_addCollaborator.
  rewrite Hid, Hfirst, Ho. cbn [negb option_map]. rewrite Hc, Hf.
  rewrite (insert_collaboration_new false d k t Hf); [reflexivity | | exact Ht].
  rewrite has_idea_first, Hfirst. reflexivity.
Qed.

Lemma js_add_existing u id k idea c t c0 (d : Store.db (list string)) :
  u <> 0 ->
  integer_in id = Some k -> first_idea d k = Some idea ->
  isOwner idea u = true -> parseInt c = Some t ->
  first_collaboration d k t = Some c0 ->
  IndexJs.post_add_collaborator (Some u) id (Some c) d
  = mkReply (mk (security d) (idea_details d) (collaborations d)
                (next_userid d) (next_ideaid d) (next_collaborationid d + 1))
            (Redirect ("/edit-idea/" ++ id)) [].
Proof.
  intros Hu Hid Hfirst Ho Hc Hf.
  unfold IndexJs.post_add_collaborator, IndexJs.requireAuth.
  apply Z.eqb_neq in Hu. rewrite Hu, Hid, Hfirst, Ho, Hc.
  rewrite (insert_collaboration_again d k t c0 Hf). reflexivity.
Qed.

Lemma js_add_new u id k idea c t (d : Store.db (list string)) :
  u <> 0 ->
  integer_in id = Some k -> first_idea d k = Some idea ->
  isOwner idea u = true -> parseInt c = Some t ->
  has_user d t = true ->
  first_collaboration d k t = None ->
  IndexJs.post_add_collaborator (Some u) id (Some c) d
  = mkReply (mk (security d) (idea_details d)
                (collaborations d
                 ++ [Collaboration.mk (next_collaborationid d) k t])
                (next_userid d) (next_ideaid d) (next_collaborationid d + 1))
            (Redirect ("/edit-idea/" ++ id)) [].
Proof.
  intros Hu Hid Hfirst Ho Hc Ht Hf.
  unfold IndexJs.post_add_collaborator, IndexJs.requireAuth.
  apply Z.eqb_neq in Hu. rewrite Hu, Hid, Hfirst, Ho, Hc.
  rewrite (insert_collaboration_new true d k t Hf); [reflexivity | | exact Ht].
  rewrite has_idea_first, Hfirst. reflexivity.
Qed.

End AddCollaborator.

(** C5.  By the owner of the idea, for a target that is a user of the
    store, in a store that meets the constraints of the schema:
    after [/addCollaborator] (and after [/add-collaborator]) the store
    holds one collaboration row for the idea and the target, and a
    second request leaves the collaborations as they are, goes through
    no [catch] and answers with the same redirect.  By someone who is
    not the owner, the store stays as it is. *)
Theorem addCollaborator_is_owner_gated_and_idempotent :
  (forall (u : Z) (id c : string) (k t : Z) (idea : Idea.row string)
          (d : Store.db string),
      Store.consistent d = true ->
      Sql.integer_in id = Some k ->
      Store.first_idea d k = Some idea ->
      Store.isOwner idea u = true ->
      Sql.integer_in c = Some t ->
      Store.has_user d t = true ->
      let once := Part000.post_addCollaborator (Some u) id (Some c) d in
      let twice :=
        Part000.post_addCollaborator (Some u) id (Some c) (store once) in
      Store.rows_for (store once) k t = 1%nat
      /\ twice = mkReply (store once) (Redirect ("/editIdea/" ++ id)) []
      /\ Store.rows_for (store twice) k t = 1%nat)
  /\ (forall (u : Z) (id : string) (c : option string) (k : Z)
             (idea : Idea.row string) (d : Store.db string),
         Sql.integer_in id = Some k ->
         Store.first_idea d k = Some idea ->
         Store.isOwner idea u = false ->
         store (Part000.post_addCollaborator (Some u) id c d) = d)
  /\ (forall (u : Z) (id c : string) (k t : Z)
             (idea : Idea.row (list string)) (d : Store.db (list string)),
         Store.consistent d = true ->
         u <> 0 ->
         Sql.integer_in id = Some k ->
         Store.first_idea d k = Some idea ->
         Store.isOwner idea u = true ->
         Js.parseInt c = Some t ->
         Store.has_user d t = true ->
         let once := IndexJs.post_add_collaborator (Some u) id (Some c) d in
         let twice :=
           IndexJs.post_add_collaborator (Some u) id (Some c) (store once) in
         Store.rows_for (store once) k t = 1%nat
         /\ Store.collaborations (store twice)
            = Store.collaborations (store once)
         /\ console twice = []
         /\ answer twice = Redirect ("/edit-idea/" ++ id)
         /\ Store.rows_for (store twice) k t = 1%nat)
  /\ (forall (u : Z) (id : string) (c : option string) (k : Z)
             (idea : Idea.row (list string)) (d : Store.db (list string)),
         Sql.integer_in id = Some k ->
         Store.first_idea d k = Some idea ->
         Store.isOwner idea u = false ->
         store (IndexJs.post_add_collaborator (Some u) id c d) = d).
Proof.
  split; [|split; [|split]].
  - intros u id c k t idea d Hc Hid Hfirst Ho Hct Ht once twice.
    apply consistent_spec in Hc.
    destruct (Store.first_collaboration d k t) as [c0|] eqn:Hf.
    + assert (H1 : once = mkReply d (Redirect ("/editIdea/" ++ id)) [])
        by (apply (p0_add_existing u id k idea c t c0); assumption).
      subst twice. rewrite H1. cbn [store].
      fold once. rewrite H1. cbn [store].
      pose proof (rows_for_found d k t c0 Hc Hf). tauto.
    + assert (H1 : once = mkReply
                     (Store.mk (Store.security d) (Store.idea_details d)
                        (Store.collaborations d
                         ++ [Collaboration.mk (Store.next_collaborationid d)
                                              k t])
                        (Store.next_userid d) (Store.next_ideaid d)
                        (Store.next_collaborationid d + 1))
                     (Redirect ("/editIdea/" ++ id)) [])
        by (apply (p0_add_new u id k idea c t); assumption).
      subst twice. rewrite H1. cbn [store].
      assert (H2 : Store.rows_for
                     (Store.mk (Store.security d) (Store.idea_details d)
                        (Store.collaborations d
                         ++ [Collaboration.mk (Store.next_collaborationid d)
                                              k t])
                        (Store.next_userid d) (Store.next_ideaid d)
                        (Store.next_collaborationid d + 1)) k t = 1%nat)
        by (apply rows_for_appended; assumption).
      rewrite (p0_add_existing u id k idea c t
                 (Collaboration.mk (Store.next_collaborationid d) k t));
        try assumption.
      * cbn [store]. tauto.
      * apply first_collaboration_appended. assumption.
  - intros u id c k idea d Hid Hfirst Ho.
    unfold Part000.post_addCollaborator. rewrite Hid, Hfirst, Ho.
    reflexivity.
  - intros u id c k t idea d Hc Hu Hid Hfirst Ho Hct Ht once twice.
    apply consistent_spec in Hc.
    destruct (Store.first_collaboration d k t) as [c0|] eqn:Hf.
    + assert (H1 : once = mkReply
                     (Store.mk (Store.security d) (Store.idea_details d)
                        (Store.collaborations d)
                        (Store.next_userid d) (Store.next_ideaid d)
                        (Store.next_collaborationid d + 1))
                     (Redirect ("/edit-idea/" ++ id)) [])
        by (apply (js_add_existing u id k idea c t c0); assumption).
      subst twice. rewrite H1. cbn [store].
      rewrite (js_add_existing u id k idea c t c0); try assumption.
      cbn [store answer console Store.collaborations].
      pose proof (rows_for_found d k t c0 Hc Hf) as Hr.
      unfold Store.rows_for in *. cbn [Store.collaborations]. tauto.
    + assert (H1 : once = mkReply
                     (Store.mk (Store.security d) (Store.idea_details d)
                        (Store.collaborations d
                         ++ [Collaboration.mk (Store.next_collaborationid d)
                                              k t])
                        (Store.next_userid d) (Store.next_ideaid d)
                        (Store.next_collaborationid d + 1))
                     (Redirect ("/edit-idea/" ++ id)) [])
        by (apply (js_add_new u id k idea c t); assumption).
      subst twice. rewrite H1. cbn [store].
      rewrite (js_add_existing u id k idea c t
                 (Collaboration.mk (Store.next_collaborationid d) k t));
        try assumption.
      * cbn [store answer console Store.collaborations].
        pose proof (rows_for_appended d k t (Store.next_collaborationid d) Hf)
          as Hr.
        unfold Store.rows_for. cbn [Store.collaborations]. tauto.
      * apply first_collaboration_appended. assumption.
  - intros u id c k idea d Hid Hfirst Ho.
    unfold IndexJs.post_add_collaborator.
    destruct (IndexJs.requireAuth (Some u)) as [v|] eqn:Ha; [|reflexivity].
    assert (v = u).
    { unfold IndexJs.requireAuth in Ha. destruct (u =? 0); congruence. }
    subst v. rewrite Hid, Hfirst, Ho. reflexivity.
Qed.

Lemma addCollaborator_is_owner_gated_and_idempotent_witness :
  Store.rows_for
    (store (Part000.post_addCollaborator (Some 1) "2" (Some "2")
              (store (Part000.post_addCollaborator (Some 1) "2" (Some "2")
                        Scenario.shared)))) 2 2 = 1%nat
  /\ Store.rows_for
       (store (IndexJs.post_add_collaborator (Some 1) "2" (Some "2")
                 (store (IndexJs.post_add_collaborator (Some 1) "2" (Some "2")
                           Scenario.shared_js)))) 2 2 = 1%nat
  /\ store (Part000.post_addCollaborator (Some 2) "2" (Some "2")
                                         Scenario.shared)
     = Scenario.shared.
Proof.
  assert (Hc0 : Store.consistent Scenario.shared = true)
    by (vm_compute; reflexivity).
  assert (Hc1 : Store.consistent Scenario.shared_js = true)
    by (vm_compute; reflexivity).
  assert (H0 : Store.first_idea Scenario.shared 2 = Some Scenario.kiosk_row)
    by (vm_compute; reflexivity).
  assert (H1 : Store.first_idea Scenario.shared_js 2
               = Some Scenario.florist_row) by (vm_compute; reflexivity).
  assert (Hu : 1 <> 0) by discriminate.
  split; [|split].
  - exact (proj2 (proj2
             (proj1 addCollaborator_is_owner_gated_and_idempotent
                    1 "2" "2" 2 2 _ _ Hc0 eq_refl H0 eq_refl eq_refl eq_refl))).
  - exact (proj2 (proj2 (proj2 (proj2
             (proj1 (proj2 (proj2
                       addCollaborator_is_owner_gated_and_idempotent))
                    1 "2" "2" 2 2 _ _ Hc1 Hu eq_refl H1 eq_refl eq_refl
                    eq_refl))))).
  - exact (proj1 (proj2 addCollaborator_is_owner_gated_and_idempotent)
                 2 "2" (Some "2") 2 _ _ eq_refl H0 eq_refl).
Defined.

(** ** Removing a collaboration *)

Ltac by_cases :=
  repeat match goal with
         | |- context [match ?x with _ => _ end] =>
           lazymatch x with
           | context [match _ with _ => _ end] => fail
           | _ => destruct x eqn:?
           end
         end.

Section Removing.
Import Js Sql Store.

Lemma filtered_away {A : Type} (p : A -> bool) (l : list A) (x : A) :
  In x l -> ~ In x (filter (fun y => negb (p y)) l) -> p x = true.
Proof.
  intros Hx Hn. destruct (p x) eqn:Hp; [reflexivity|].
  exfalso. apply Hn. apply filter_In. rewrite Hp. tauto.
Qed.

Lemma collaboration_by_id {M : Type} (d : Store.db M) a b :
  Consistent d ->
  In a (collaborations d) -> In b (collaborations d) ->
  Collaboration.collaborationid a = Collaboration.collaborationid b -> a = b.
Proof.
  intros Hc. apply NoDup_map_inj, (collaborations_distinct _ Hc).
Qed.

(** [part_000]: the handlers that delete no collaboration. *)
Lemma p0_register_keeps now body (d : Store.db string) :
  collaborations (store (Part000.post_register now body d))
  = collaborations d.
Proof.
  unfold Part000.post_register, insert_user. by_cases; reflexivity.
Qed.

Lemma p0_addIdea_keeps now session body (d : Store.db string) :
  collaborations (store (Part000.post_addIdea now session body d))
  = collaborations d.
Proof.
  unfold Part000.post_addIdea, Part000.login_page, insert_idea.
  by_cases; reflexivity.
Qed.

Lemma p0_editIdea_keeps session id body (d : Store.db string) :
  collaborations (store (Part000.post_editIdea session id body d))
  = collaborations d.
Proof.
  unfold Part000.post_editIdea, Part000.login_page, update_idea.
  by_cases; reflexivity.
Qed.

Lemma p0_addCollaborator_keeps session id c (d : Store.db string) x :
  In x (collaborations d) ->
  In x (collaborations (store (Part000.post_addCollaborator session id c d))).
Proof.
  intros Hx.
  unfold Part000.post_addCollaborator, Part000.login_page,
    insert_collaboration.
  by_cases; cbn [store collaborations]; try assumption;
    apply in_or_app; left; assumption.
Qed.

(** [part_000]: who may make a collaboration go. *)
Lemma p0_deleteIdea_removes fk u id (d : Store.db string) x :
  In x (collaborations d) ->
  ~ In x (collaborations
            (store (Part000.post_deleteIdea fk (Some u) id d))) ->
  exists idea, first_idea d (Collaboration.ideaid x) = Some idea
               /\ isOwner idea u = true.
Proof.
  intros Hx. unfold Part000.post_deleteIdea.
  destruct (integer_in id) as [k|]; [|intros H; contradiction].
  destruct (first_idea d k) as [idea|] eqn:Hf; [|intros H; contradiction].
  destruct (isOwner idea u) eqn:Ho; cbn [negb]; [|intros H; contradiction].
  assert (Hk : has_idea d k = true)
    by (rewrite has_idea_first, Hf; reflexivity).
  unfold Part000.store_of_first_delete.
  rewrite (delete_in_two_steps fk d k Hk). cbn [store collaborations].
  intros Hn.
  apply (filtered_away (fun c => Collaboration.ideaid c =? k)) in Hn;
    [|assumption].
  apply Z.eqb_eq in Hn. rewrite Hn. exists idea. tauto.
Qed.

Lemma p0_removeCollaborator_removes u cid (d : Store.db string) x :
  Consistent d ->
  In x (collaborations d) ->
  ~ In x (collaborations
            (store (Part000.post_removeCollaborator (Some u) cid d))) ->
  exists idea, first_idea d (Collaboration.ideaid x) = Some idea
               /\ isOwner idea u = true.
Proof.
  intros Hc Hx. unfold Part000.post_removeCollaborator.
  destruct (integer_in cid) as [n|]; [|intros H; contradiction].
  destruct (first_collaboration_by_id d n) as [c|] eqn:Hf;
    [|intros H; contradiction].
  destruct (first_idea d (Collaboration.ideaid c)) as [idea|] eqn:Hi;
    [|intros H; contradiction].
  destruct (isOwner idea u) eqn:Ho; cbn [negb]; [|intros H; contradiction].
  cbn [store store_of delete_collaborations collaborations].
  intros Hn.
  apply (filtered_away (fun c => Collaboration.collaborationid c =? n)) in Hn;
    [|assumption].
  apply Z.eqb_eq in Hn.
  unfold first_collaboration_by_id in Hf. apply find_some in Hf.
  destruct Hf as (Hcin & Hcn). apply Z.eqb_eq in Hcn.
  assert (x = c) by (apply (collaboration_by_id d); congruence).
  subst x. exists idea. tauto.
Qed.

Lemma p0_leaveCollaboration_removes u id (d : Store.db string) x :
  In x (collaborations d) ->
  ~ In x (collaborations
            (store (Part000.post_leaveCollaboration (Some u) id d))) ->
  Collaboration.userid x = u.
Proof.
  intros Hx. unfold Part000.post_leaveCollaboration.
  destruct (integer_in id) as [k|]; [|intros H; contradiction].
  cbn [store store_of delete_collaborations collaborations].
  intros Hn. apply (filtered_away (is_pair k u)) in Hn; [|assumption].
  apply is_pair_spec in Hn. tauto.
Qed.

(** [index.js]: the same. *)
Lemma js_create_account_keeps body (d : Store.db (list string)) :
  collaborations (store (IndexJs.post_create_account body d))
  = collaborations d.
Proof.
  unfold IndexJs.post_create_account, insert_user. by_cases; reflexivity.
Qed.

Lemma js_login_keeps now name pw (d : Store.db (list string)) :
  collaborations (store (IndexJs.post_login now name pw d))
  = collaborations d.
Proof.
  unfold IndexJs.post_login, update_user.
  destruct name, pw; try reflexivity. destruct (find _ _); reflexivity.
Qed.

Lemma js_add_idea_keeps now session body (d : Store.db (list string)) :
  collaborations (store (IndexJs.post_add_idea now session body d))
  = collaborations d.
Proof.
  unfold IndexJs.post_add_idea, IndexJs.to_login, insert_idea.
  by_cases; reflexivity.
Qed.

Lemma js_edit_idea_keeps now session id body (d : Store.db (list string)) :
  collaborations (store (IndexJs.post_edit_idea now session id body d))
  = collaborations d.
Proof.
  unfold IndexJs.post_edit_idea, IndexJs.to_login, update_idea.
  by_cases; reflexivity.
Qed.

Lemma js_add_collaborator_keeps session id c (d : Store.db (list string)) x :
  In x (collaborations d) ->
  In x (collaborations
          (store (IndexJs.post_add_collaborator session id c d))).
Proof.
  intros Hx.
  unfold IndexJs.post_add_collaborator, IndexJs.to_login,
    insert_collaboration.
  by_cases; cbn [store collaborations]; try assumption;
    apply in_or_app; left; assumption.
Qed.

Lemma js_authenticated session u :
  IndexJs.requireAuth session = Some u -> session = Some u /\ u <> 0.
Proof.
  unfold IndexJs.requireAuth. destruct session as [v|]; [|discriminate].
  destruct (v =? 0) eqn:Hv; [discriminate|].
  intros H. inversion H; subst. apply Z.eqb_neq in Hv. tauto.
Qed.

Lemma js_delete_idea_removes fk session id (d : Store.db (list string)) x :
  In x (collaborations d) ->
  ~ In x (collaborations
            (store (IndexJs.post_delete_idea fk session id d))) ->
  exists u idea, session = Some u
                 /\ first_idea d (Collaboration.ideaid x) = Some idea
                 /\ isOwner idea u = true.
Proof.
  intros Hx. unfold IndexJs.post_delete_idea.
  destruct (IndexJs.requireAuth session) as [u|] eqn:Ha;
    [|intros H; contradiction].
  apply js_authenticated in Ha. destruct Ha as (-> & _).
  destruct (integer_in id) as [k|]; [|intros H; contradiction].
  destruct (first_idea d k) as [idea|] eqn:Hf; [|intros H; contradiction].
  destruct (isOwner idea u) eqn:Ho; [|intros H; contradiction].
  assert (Hk : has_idea d k = true)
    by (rewrite has_idea_first, Hf; reflexivity).
  destruct fk.
  - rewrite (delete_cascading d k Hk). cbn [store collaborations].
    intros Hn.
    apply (filtered_away (fun c => Collaboration.ideaid c =? k)) in Hn;
      [|assumption].
    apply Z.eqb_eq in Hn. rewrite Hn. exists u, idea. tauto.
  - unfold delete_idea. by_cases; intros H; contradiction.
Qed.

Lemma js_remove_collaborator_removes session i t (d : Store.db (list string))
  x :
  In x (collaborations d) ->
  ~ In x (collaborations
            (store (IndexJs.post_remove_collaborator session i t d))) ->
  exists u idea, session = Some u
                 /\ first_idea d (Collaboration.ideaid x) = Some idea
                 /\ isOwner idea u = true.
Proof.
  intros Hx. unfold IndexJs.post_remove_collaborator.
  destruct (IndexJs.requireAuth session) as [u|] eqn:Ha;
    [|intros H; contradiction].
  apply js_authenticated in Ha. destruct Ha as (-> & _).
  destruct (integer_in i) as [k|]; [|intros H; contradiction].
  destruct (first_idea d k) as [idea|] eqn:Hf; [|intros H; contradiction].
  destruct (isOwner idea u) eqn:Ho; [|intros H; contradiction].
  destruct (integer_in t) as [v|]; [|intros H; contradiction].
  cbn [store store_of delete_collaborations collaborations].
  intros Hn. apply (filtered_away (is_pair k v)) in Hn; [|assumption].
  apply is_pair_spec in Hn. destruct Hn as (Hk & _).
  rewrite Hk. exists u, idea. tauto.
Qed.

End Removing.

(** C4.  [/leaveCollaboration] deletes the collaboration rows of the
    session's user for the idea and nothing else, whoever owns the
    idea: afterwards that user is no collaborator of it.  And in a
    store that meets the constraints of the schema, when a request
    makes a collaboration row go, the row is the requester's own, or
    the requester owns the idea of the row; in [index.js], which has
    no route to leave, the requester always owns the idea. *)
Theorem collaborator_leaves_and_only_owner_removes_others :
  (forall (u : Z) (id : string) (k : Z) (d : Store.db string),
      Sql.integer_in id = Some k ->
      Part000.post_leaveCollaboration (Some u) id d
      = mkReply
          (Store.mk (Store.security d) (Store.idea_details d)
             (filter (fun c => negb (Store.is_pair k u c))
                     (Store.collaborations d))
             (Store.next_userid d) (Store.next_ideaid d)
             (Store.next_collaborationid d))
          (Redirect "/ideas") []
      /\ Store.isCollaborator
           (store (Part000.post_leaveCollaboration (Some u) id d)) k u
         = false)
  /\ (forall (fk : fk_action) (r : Part000.request) (d : Store.db string)
             (x : Collaboration.row),
         Store.consistent d = true ->
         In x (Store.collaborations d) ->
         ~ In x (Store.collaborations (store (Part000.handle fk r d))) ->
         exists u,
           Part000.requester r = Some u
           /\ (Collaboration.userid x = u
               \/ exists idea,
                   Store.first_idea d (Collaboration.ideaid x) = Some idea
                   /\ Store.isOwner idea u = true))
  /\ (forall (fk : fk_action) (r : IndexJs.request)
             (d : Store.db (list string)) (x : Collaboration.row),
         In x (Store.collaborations d) ->
         ~ In x (Store.collaborations (store (IndexJs.handle fk r d))) ->
         exists u idea,
           IndexJs.requester r = Some u
           /\ Store.first_idea d (Collaboration.ideaid x) = Some idea
           /\ Store.isOwner idea u = true).
Proof.
  split; [|split].
  - intros u id k d Hid. unfold Part000.post_leaveCollaboration.
    rewrite Hid. split; [reflexivity|].
    cbn [store Store.store_of Store.delete_collaborations].
    unfold Store.isCollaborator, Store.first_collaboration.
    cbn [Store.collaborations].
    destruct (find _ _) as [c|] eqn:Hf; [|reflexivity].
    apply find_some in Hf. destruct Hf as (Hin & Hp).
    apply filter_In in Hin. rewrite Hp in Hin. destruct Hin. discriminate.
  - intros fk r d x Hc Hx Hn. apply consistent_spec in Hc.
    destruct r as [now body|now session body|session id body|session id
                   |session id c|session cid|session id];
      cbn [Part000.handle Part000.requester] in *.
    + rewrite p0_register_keeps in Hn. contradiction.
    + rewrite p0_addIdea_keeps in Hn. contradiction.
    + rewrite p0_editIdea_keeps in Hn. contradiction.
    + destruct session as [u|]; [|contradiction].
      exists u. split; [reflexivity|]. right.
      exact (p0_deleteIdea_removes fk u id d x Hx Hn).
    + exfalso. apply Hn. apply p0_addCollaborator_keeps. assumption.
    + destruct session as [u|]; [|contradiction].
      exists u. split; [reflexivity|]. right.
      exact (p0_removeCollaborator_removes u cid d x Hc Hx Hn).
    + destruct session as [u|]; [|contradiction].
      exists u. split; [reflexivity|]. left.
      exact (p0_leaveCollaboration_removes u id d x Hx Hn).
  - intros fk r d x Hx Hn.
    destruct r as [body|now name pw|now session body|now session id body
                   |session id|session id c|session i t];
      cbn [IndexJs.handle IndexJs.requester] in *.
    + rewrite js_create_account_keeps in Hn. contradiction.
    + rewrite js_login_keeps in Hn. contradiction.
    + rewrite js_add_idea_keeps in Hn. contradiction.
    + rewrite js_edit_idea_keeps in Hn. contradiction.
    + exact (js_delete_idea_removes fk session id d x Hx Hn).
    + exfalso. apply Hn. apply js_add_collaborator_keeps. assumption.
    + exact (js_remove_collaborator_removes session i t d x Hx Hn).
Qed.

Lemma collaborator_leaves_and_only_owner_removes_others_witness :
  Store.isCollaborator Scenario.shared 1 2 = true
  /\ Store.isOwner Scenario.laundromat_row 2 = false
  /\ Store.isCollaborator
       (store (Part000.post_leaveCollaboration (Some 2) "1" Scenario.shared))
       1 2 = false.
Proof.
  split; [vm_compute; reflexivity|].
  split; [vm_compute; reflexivity|].
  exact (proj2 (proj1 collaborator_leaves_and_only_owner_removes_others
                      2 "1" 1 Scenario.shared eq_refl)).
Defined.

(** Bob, a collaborator and not the owner, asks for the removal of his
    row through the owner's route of either application: the row
    stays. *)
Example collaborator_cannot_use_owner_route :
  store (IndexJs.post_remove_collaborator (Some 2) "1" "2" Scenario.shared_js)
  = Scenario.shared_js
  /\ store (Part000.post_removeCollaborator (Some 2) "1" Scenario.shared)
     = Scenario.shared.
Proof. split; vm_compute; reflexivity. Qed.

(** ** Every request is one of a few changes of the store *)

Lemma filter_all {A : Type} (p : A -> bool) (l : list A) :
  existsb p l = false -> filter (fun x => negb (p x)) l = l.
Proof.
  induction l as [|x l IH]; simpl; intros H; [reflexivity|].
  apply orb_false_iff in H. destruct H as (Hx & Hl).
  rewrite Hx. simpl. rewrite IH; [reflexivity | assumption].
Qed.

Section Changes.
Import Js Sql Store.

Lemma delete_idea_changes {M : Type} (fk : fk_action) (d : Store.db M) k :
  has_idea d k = true -> change d (store_of (delete_idea fk k d)).
Proof.
  intros Hk. destruct fk.
  - rewrite (delete_cascading d k Hk). apply IdeaDeleted.
  - unfold delete_idea. rewrite Hk. cbn [andb].
    destruct (existsb _ (collaborations d)) eqn:Hr; cbn [store_of].
    + apply Unchanged.
    + rewrite <- (filter_all _ _ Hr) at 1. apply IdeaDeleted.
Qed.

Lemma insert_collaboration_changes {M : Type} (ignore : bool)
  (d : Store.db M) k t :
  change d (store_of (insert_collaboration ignore k t d)).
Proof.
  unfold insert_collaboration. rewrite existsb_find.
  destruct (find (is_pair k t) (collaborations d)) eqn:Hf.
  - destruct ignore; apply CollaborationIdDrawn.
  - destruct (has_idea d k) eqn:Hk, (has_user d t) eqn:Ht; cbn [andb store_of];
      try apply CollaborationIdDrawn.
    apply CollaborationAdded; assumption.
Qed.

Lemma insert_idea_changes {M : Type} (r : Z -> Idea.row M) (d : Store.db M) :
  (forall n, Idea.ideaid (r n) = n) ->
  change d (store_of (insert_idea r d)).
Proof.
  intros Hr. unfold insert_idea.
  destruct (has_user d _) eqn:Hu; cbn [store_of].
  - apply IdeaAdded; [apply Hr | assumption].
  - apply IdeaIdDrawn.
Qed.

Lemma store_of_reply {M : Type} (e : exec M) (f g : Store.db M -> reply M) :
  (forall d, store (f d) = d) -> (forall d, store (g d) = d) ->
  store (match e with Done d => f d | Failed d => g d end) = store_of e.
Proof. intros Hf Hg. destruct e; simpl; auto. Qed.

Theorem p0_handle_changes (fk : fk_action) (r : Part000.request)
  (d : Store.db string) :
  change d (store (Part000.handle fk r d)).
Proof.
  destruct r as [now body|now session body|session id body|session id
                 |session id c|session cid|session id];
    cbn [Part000.handle].
  - unfold Part000.post_register.
    destruct (negb _ || negb _ || negb _ || negb _ || negb _);
      [apply Unchanged|].
    destruct (first_user d _); [apply Unchanged|].
    unfold insert_user. cbn [store]. apply UserAdded. reflexivity.
  - unfold Part000.post_addIdea, Part000.login_page.
    destruct session as [u|]; [|apply Unchanged].
    destruct (negb _ || negb _); [apply Unchanged|].
    destruct (Part000.potential_of _) as [p|].
    + rewrite store_of_reply by reflexivity.
      apply insert_idea_changes. reflexivity.
    + apply Unchanged.
  - unfold Part000.post_editIdea, Part000.login_page.
    destruct session as [u|]; [|apply Unchanged].
    destruct (negb _ || negb _); [apply Unchanged|].
    destruct (integer_in id) as [k|]; [|apply Unchanged].
    destruct (first_idea d k) as [idea|]; [|apply Unchanged].
    destruct (negb _ && negb _); [apply Unchanged|].
    destruct (Part000.potential_of _) as [p|]; [|apply Unchanged].
    unfold update_idea. cbn [store].
    apply IdeaUpdated. intros i. split; reflexivity.
  - unfold Part000.post_deleteIdea, Part000.login_page.
    destruct session as [u|]; [|apply Unchanged].
    destruct (integer_in id) as [k|]; [|apply Unchanged].
    destruct (first_idea d k) as [idea|] eqn:Hf; [|apply Unchanged].
    destruct (negb (isOwner idea u)); [apply Unchanged|].
    assert (Hk : has_idea d k = true)
      by (rewrite has_idea_first, Hf; reflexivity).
    unfold Part000.store_of_first_delete.
    rewrite (delete_in_two_steps fk d k Hk). apply IdeaDeleted.
  - unfold Part000.post_addCollaborator, Part000.login_page.
    destruct session as [u|]; [|apply Unchanged].
    destruct (integer_in id) as [k|]; [|apply Unchanged].
    destruct (first_idea d k) as [idea|]; [|apply Unchanged].
    destruct (negb (isOwner idea u)); [apply Unchanged|].
    destruct (option_map integer_in c) as [[t|]|]; try apply Unchanged.
    destruct (first_collaboration d k t); [apply Unchanged|].
    rewrite store_of_reply by reflexivity.
    apply insert_collaboration_changes.
  - unfold Part000.post_removeCollaborator, Part000.login_page.
    by_cases; cbn [store store_of delete_collaborations];
      try apply Unchanged.
    apply CollaborationsDeleted.
  - unfold Part000.post_leaveCollaboration, Part000.login_page.
    by_cases; cbn [store store_of delete_collaborations];
      try apply Unchanged.
    apply CollaborationsDeleted.
Qed.

Theorem js_handle_changes (fk : fk_action) (r : IndexJs.request)
  (d : Store.db (list string)) :
  change d (store (IndexJs.handle fk r d)).
Proof.
  destruct r as [body|now name pw|now session body|now session id body
                 |session id|session id c|session i t];
    cbn [IndexJs.handle].
  - unfold IndexJs.post_create_account.
    destruct (IndexJs.a_username body) as [name|]; [|apply Unchanged].
    destruct (first_user d name); [apply Unchanged|].
    unfold insert_user. cbn [store store_of]. apply UserAdded. reflexivity.
  - unfold IndexJs.post_login, update_user.
    destruct name, pw; try apply Unchanged.
    destruct (find _ _); cbn [store store_of]; [|apply Unchanged].
    apply UserUpdated. reflexivity.
  - unfold IndexJs.post_add_idea, IndexJs.to_login.
    destruct (IndexJs.requireAuth session) as [u|]; [|apply Unchanged].
    destruct (IndexJs.ideaname body); [|apply Unchanged].
    destruct (IndexJs.ideadescription body); [|apply Unchanged].
    destruct (IndexJs.bind numeric_in _); [|apply Unchanged].
    destruct (IndexJs.bind integer_in _); [|apply Unchanged].
    rewrite store_of_reply by reflexivity.
    apply insert_idea_changes. reflexivity.
  - unfold IndexJs.post_edit_idea, IndexJs.to_login.
    destruct (IndexJs.requireAuth session) as [u|]; [|apply Unchanged].
    destruct (integer_in id) as [k|]; [|apply Unchanged].
    destruct (first_idea d k) as [idea|]; [|apply Unchanged].
    destruct (negb _ && negb _); [apply Unchanged|].
    destruct (IndexJs.bind numeric_in _); [|apply Unchanged].
    destruct (IndexJs.bind integer_in _); [|apply Unchanged].
    unfold update_idea. cbn [store store_of].
    apply IdeaUpdated. intros i. split; reflexivity.
  - unfold IndexJs.post_delete_idea, IndexJs.to_login.
    destruct (IndexJs.requireAuth session) as [u|]; [|apply Unchanged].
    destruct (integer_in id) as [k|]; [|apply Unchanged].
    destruct (first_idea d k) as [idea|] eqn:Hf; [|apply Unchanged].
    destruct (isOwner idea u); [|apply Unchanged].
    assert (Hk : has_idea d k = true)
      by (rewrite has_idea_first, Hf; reflexivity).
    rewrite store_of_reply by reflexivity.
    apply delete_idea_changes. assumption.
  - unfold IndexJs.post_add_collaborator, IndexJs.to_login.
    destruct (IndexJs.requireAuth session) as [u|]; [|apply Unchanged].
    destruct (integer_in id) as [k|]; [|apply Unchanged].
    destruct (first_idea d k) as [idea|]; [|apply Unchanged].
    destruct (isOwner idea u); [|apply Unchanged].
    destruct (match c with Some s => parseInt s | None => None end) as [t|];
      [|apply Unchanged].
    rewrite store_of_reply by reflexivity.
    apply insert_collaboration_changes.
  - unfold IndexJs.post_remove_collaborator, IndexJs.to_login.
    by_cases; cbn [store store_of delete_collaborations];
      try apply Unchanged.
    apply CollaborationsDeleted.
Qed.

End Changes.

(** ** The constraints of the schema hold after every request *)

Lemma nodup_map_filter {A K : Type} (f : A -> K) (p : A -> bool) l :
  NoDup (map f l) -> NoDup (map f (filter p l)).
Proof.
  induction l as [|x l IH]; simpl; intros H; [constructor|].
  inversion H as [|? ? Hx Hl]; subst.
  destruct (p x); simpl; [|apply IH; assumption].
  constructor; [|apply IH; assumption].
  intros Hin. apply Hx. apply in_map_iff in Hin.
  destruct Hin as (y & Hy & Hin). apply filter_In in Hin.
  apply in_map_iff. exists y. tauto.
Qed.

Lemma nodup_map_snoc {A K : Type} (f : A -> K) l x :
  NoDup (map f l) -> ~ In (f x) (map f l) -> NoDup (map f (l ++ [x])).
Proof.
  intros Hl Hx. rewrite map_app. simpl. apply NoDup_app.
  - assumption.
  - constructor; [intros [] | constructor].
  - intros a Ha [<-|[]]. contradiction.
Qed.

Section Invariant.
Import Store.
Context {M : Type}.
Implicit Types (d : Store.db M) (k u : Z).

Lemma has_user_in d u :
  has_user d u = true <-> In u (map User.userid (security d)).
Proof.
  rewrite has_user_spec, in_map_iff. split; intros (r & H1 & H2); exists r; tauto.
Qed.

Lemma has_idea_in d k :
  has_idea d k = true <-> In k (map Idea.ideaid (idea_details d)).
Proof.
  rewrite has_idea_spec, in_map_iff. split; intros (r & H1 & H2); exists r; tauto.
Qed.

(** The constraints read off the key columns of the three tables. *)
Lemma consistent_by_keys d d' :
  Consistent d ->
  NoDup (map User.userid (security d')) ->
  NoDup (map Idea.ideaid (idea_details d')) ->
  NoDup (map pair_of (collaborations d')) ->
  NoDup (map Collaboration.collaborationid (collaborations d')) ->
  (forall r, In r (security d') -> User.userid r < next_userid d') ->
  (forall i, In i (idea_details d') -> Idea.ideaid i < next_ideaid d') ->
  (forall c, In c (collaborations d') ->
             Collaboration.collaborationid c < next_collaborationid d') ->
  (forall i, In i (idea_details d') ->
             In (Idea.userid i) (map User.userid (security d'))) ->
  (forall c, In c (collaborations d') ->
             In (Collaboration.ideaid c) (map Idea.ideaid (idea_details d'))
             /\ In (Collaboration.userid c) (map User.userid (security d'))) ->
  Consistent d'.
Proof.
  intros _ H1 H2 H3 H4 H5 H6 H7 H8 H9. constructor; try assumption.
  - intros i Hi. apply has_user_in, H8, Hi.
  - intros c Hc. rewrite has_user_in, has_idea_in. apply H9, Hc.
Qed.

Lemma owner_in d i :
  Consistent d -> In i (idea_details d) ->
  In (Idea.userid i) (map User.userid (security d)).
Proof. intros Hc Hi. apply has_user_in, (owner_exists _ Hc), Hi. Qed.

Lemma references_in d c :
  Consistent d -> In c (collaborations d) ->
  In (Collaboration.ideaid c) (map Idea.ideaid (idea_details d))
  /\ In (Collaboration.userid c) (map User.userid (security d)).
Proof.
  intros Hc Hin. rewrite <- has_user_in, <- has_idea_in.
  apply (references_exist _ Hc), Hin.
Qed.

Lemma map_updated {A K : Type} (key : A -> K) (test : A -> bool)
  (f : A -> A) (l : list A) :
  (forall x, key (f x) = key x) ->
  map key (map (fun x => if test x then f x else x) l) = map key l.
Proof.
  intros Hf. rewrite map_map. apply map_ext. intros x.
  destruct (test x); [apply Hf | reflexivity].
Qed.

Theorem change_keeps_consistent d d' :
  Consistent d -> change d d' -> Consistent d'.
Proof.
  intros Hc Hch.
  pose proof (users_distinct _ Hc) as Hu.
  pose proof (ideas_distinct _ Hc) as Hi.
  pose proof (pairs_distinct _ Hc) as Hp.
  pose proof (collaborations_distinct _ Hc) as Hn.
  pose proof (users_drawn _ Hc) as Hud.
  pose proof (ideas_drawn _ Hc) as Hid.
  pose proof (collaborations_drawn _ Hc) as Hcd.
  pose proof (fun i => owner_in d i Hc) as Ho.
  pose proof (fun c => references_in d c Hc) as Hr.
  destruct Hch as [| | |row Hrow|u f Hf|row Hrow Howner|k f Hf|k
                   |k u Hnew Hk Hu'|p];
    [exact Hc | apply (consistent_by_keys d); try assumption;
                cbn [security idea_details collaborations next_userid
                     next_ideaid next_collaborationid] ..].
  - (* IdeaIdDrawn *)
    intros i Hin. specialize (Hid i Hin). lia.
  - (* CollaborationIdDrawn *)
    intros c Hin. specialize (Hcd c Hin). lia.
  - (* UserAdded *)
    apply nodup_map_snoc; [assumption|]. intros Hin.
    apply in_map_iff in Hin. destruct Hin as (r & He & Hin).
    specialize (Hud r Hin). lia.
  - intros r Hin. apply in_app_iff in Hin. destruct Hin as [Hin|[<-|[]]].
    + specialize (Hud r Hin). lia.
    + lia.
  - intros i Hin. rewrite map_app. apply in_or_app. left. auto.
  - intros c Hin. rewrite map_app. split; [apply Hr, Hin|].
    apply in_or_app. left. apply Hr, Hin.
  - (* UserUpdated *)
    rewrite map_updated by assumption. assumption.
  - intros r Hin. apply in_map_iff in Hin. destruct Hin as (r0 & <- & Hin).
    destruct (User.userid r0 =? u); [rewrite Hf|]; auto.
  - intros i Hin. rewrite map_updated by assumption. auto.
  - intros c Hin. rewrite map_updated by assumption. auto.
  - (* IdeaAdded *)
    apply nodup_map_snoc; [assumption|]. intros Hin.
    apply in_map_iff in Hin. destruct Hin as (i & He & Hin).
    specialize (Hid i Hin). lia.
  - intros i Hin. apply in_app_iff in Hin. destruct Hin as [Hin|[<-|[]]].
    + specialize (Hid i Hin). lia.
    + lia.
  - intros i Hin. apply in_app_iff in Hin. destruct Hin as [Hin|[<-|[]]].
    + auto.
    + apply has_user_in. assumption.
  - intros c Hin. rewrite map_app. split; [|apply Hr, Hin].
    apply in_or_app. left. apply Hr, Hin.
  - (* IdeaUpdated *)
    rewrite map_updated by (intros; apply Hf). assumption.
  - intros i Hin. apply in_map_iff in Hin. destruct Hin as (i0 & <- & Hin).
    destruct (Idea.ideaid i0 =? k); [rewrite (proj1 (Hf i0))|]; auto.
  - intros i Hin. apply in_map_iff in Hin. destruct Hin as (i0 & <- & Hin).
    destruct (Idea.ideaid i0 =? k); [rewrite (proj2 (Hf i0))|]; auto.
  - intros c Hin. rewrite map_updated by (intros; apply Hf). auto.
  - (* IdeaDeleted *)
    apply nodup_map_filter. assumption.
  - apply nodup_map_filter. assumption.
  - apply nodup_map_filter. assumption.
  - intros i Hin. apply filter_In in Hin. apply Hid. tauto.
  - intros c Hin. apply filter_In in Hin. apply Hcd. tauto.
  - intros i Hin. apply filter_In in Hin. apply Ho. tauto.
  - intros c Hin. apply filter_In in Hin. destruct Hin as (Hin & Hne).
    split; [|apply Hr, Hin].
    destruct (Hr c Hin) as (Hidea & _). apply in_map_iff in Hidea.
    destruct Hidea as (i & He & Hiin). apply in_map_iff. exists i.
    split; [assumption|]. apply filter_In. split; [assumption|].
    rewrite He. assumption.
  - (* CollaborationAdded *)
    apply nodup_map_snoc; [assumption|]. intros Hin.
    apply in_map_iff in Hin. destruct Hin as (c & He & Hin).
    unfold first_collaboration in Hnew.
    pose proof (find_none _ _ Hnew c Hin) as Hno.
    unfold pair_of in He. simpl in He. inversion He.
    unfold is_pair in Hno. rewrite H0, H1, !Z.eqb_refl in Hno. discriminate.
  - apply nodup_map_snoc; [assumption|]. intros Hin.
    apply in_map_iff in Hin. destruct Hin as (c & He & Hin).
    specialize (Hcd c Hin). simpl in He. lia.
  - intros c Hin. apply in_app_iff in Hin. destruct Hin as [Hin|[<-|[]]].
    + specialize (Hcd c Hin). lia.
    + simpl. lia.
  - intros c Hin. apply in_app_iff in Hin. destruct Hin as [Hin|[<-|[]]].
    + auto.
    + simpl. rewrite <- has_idea_in, <- has_user_in. tauto.
  - (* CollaborationsDeleted *)
    apply nodup_map_filter. assumption.
  - apply nodup_map_filter. assumption.
  - intros c Hin. apply filter_In in Hin. apply Hcd. tauto.
  - intros c Hin. apply filter_In in Hin. apply Hr. tauto.
Qed.

End Invariant.

(** The constraints hold in the empty store and after every run of
    requests, whatever the store does on the delete of an idea. *)
Theorem part000_keeps_constraints (fk : fk_action)
  (rs : list Part000.request) (d : Store.db string) :
  Store.consistent d = true ->
  Store.consistent (Part000.serve fk rs d) = true.
Proof.
  unfold Part000.serve. revert d.
  induction rs as [|r rs IH]; simpl; intros d Hc; [assumption|].
  apply IH. apply consistent_spec.
  apply (change_keeps_consistent d);
    [apply consistent_spec, Hc | apply p0_handle_changes].
Qed.

Lemma part000_keeps_constraints_witness :
  Store.consistent
    (Part000.serve Restrict [Part000.DeleteIdea (Some 1) "1"] Scenario.shared)
  = true.
Proof.
  apply part000_keeps_constraints. vm_compute. reflexivity.
Defined.

(** The same for [index.js]. *)
Theorem indexjs_keeps_constraints (fk : fk_action)
  (rs : list IndexJs.request) (d : Store.db (list string)) :
  Store.consistent d = true ->
  Store.consistent (IndexJs.serve fk rs d) = true.
Proof.
  unfold IndexJs.serve. revert d.
  induction rs as [|r rs IH]; simpl; intros d Hc; [assumption|].
  apply IH. apply consistent_spec.
  apply (change_keeps_consistent d);
    [apply consistent_spec, Hc | apply js_handle_changes].
Qed.

Lemma indexjs_keeps_constraints_witness :
  Store.consistent
    (IndexJs.serve Restrict [IndexJs.DeleteIdea (Some 1) "1"]
                   Scenario.shared_js)
  = true.
Proof.
  apply indexjs_keeps_constraints. vm_compute. reflexivity.
Defined.

(** ** The owner of an idea *)

Lemma find_snoc {A : Type} (p : A -> bool) (l : list A) (x : A) :
  find p (l ++ [x])
  = match find p l with
    | Some y => Some y
    | None => if p x then Some x else None
    end.
Proof.
  induction l as [|y l IH]; simpl; [reflexivity|].
  destruct (p y); [reflexivity | exact IH].
Qed.

Lemma find_updated {A : Type} (p test : A -> bool) (f : A -> A) (l : list A) :
  (forall x, p (f x) = p x) ->
  find p (map (fun x => if test x then f x else x) l)
  = option_map (fun x => if test x then f x else x) (find p l).
Proof.
  intros Hf. induction l as [|y l IH]; simpl; [reflexivity|].
  assert (Hp : p (if test y then f y else y) = p y)
    by (destruct (test y); [apply Hf | reflexivity]).
  rewrite Hp. destruct (p y); [reflexivity | exact IH].
Qed.

Lemma find_kept {A : Type} (p q : A -> bool) (l : list A) :
  (forall x, p x = true -> q x = true) ->
  find p (filter q l) = find p l.
Proof.
  intros Hpq. induction l as [|y l IH]; simpl; [reflexivity|].
  destruct (q y) eqn:Hq; simpl.
  - destruct (p y); [reflexivity | exact IH].
  - destruct (p y) eqn:Hp; [|exact IH].
    rewrite (Hpq y Hp) in Hq. discriminate.
Qed.

Lemma find_dropped {A : Type} (p : A -> bool) (l : list A) :
  find p (filter (fun x => negb (p x)) l) = None.
Proof.
  induction l as [|y l IH]; simpl; [reflexivity|].
  destruct (p y) eqn:Hp; simpl; [exact IH|]. rewrite Hp. exact IH.
Qed.

Section Owners.
Import Store.
Context {M : Type}.
Implicit Types (d : Store.db M) (k u : Z).

Lemma change_keeps_owner d d' :
  change d d' ->
  next_ideaid d <= next_ideaid d'
  /\ forall k i', k < next_ideaid d -> first_idea d' k = Some i' ->
                  exists i, first_idea d k = Some i
                            /\ Idea.userid i' = Idea.userid i.
Proof.
  intros Hch.
  destruct Hch as [| | |row Hrow|u f Hf|row Hrow Howner|k0 f Hf|k0
                   |k0 u Hnew Hk Hu'|p];
    (split; [cbn [next_ideaid]; lia|]); intros k i' Hlt Hfind;
    unfold first_idea in *; cbn [idea_details] in Hfind;
    try (exists i'; split; [assumption | reflexivity]).
  - (* IdeaAdded *)
    rewrite find_snoc in Hfind.
    destruct (find _ (idea_details d)) as [i|] eqn:Hi.
    + inversion Hfind; subst. exists i'. split; reflexivity.
    + destruct (Idea.ideaid row =? k) eqn:He; [|discriminate].
      apply Z.eqb_eq in He. lia.
  - (* IdeaUpdated *)
    rewrite find_updated in Hfind.
    + destruct (find _ (idea_details d)) as [i|] eqn:Hi; [|discriminate].
      simpl in Hfind. inversion Hfind; subst. exists i.
      split; [reflexivity|].
      destruct (Idea.ideaid i =? k0); [apply Hf | reflexivity].
    + intros x. rewrite (proj1 (Hf x)). reflexivity.
  - (* IdeaDeleted *)
    destruct (Z.eq_dec k k0) as [->|Hne].
    + rewrite (find_dropped (fun i : Idea.row M => Idea.ideaid i =? k0))
        in Hfind. discriminate.
    + rewrite find_kept in Hfind.
      * exists i'. split; [assumption | reflexivity].
      * intros x Hx. apply Z.eqb_eq in Hx. apply negb_true_iff, Z.eqb_neq.
        congruence.
Qed.


End Owners.




(** ** The listing is complete *)

(** An id is on the page exactly when the store holds an idea of that
    id that the reader may view and that passes the filters. *)
Theorem listing_lists_the_viewable_matches :
  (forall (u : Z) (s : Part000.search) (d : Store.db string) (k : Z),
      In k (Part000.ids (Part000.get_ideas (Some u) s d)) <->
      exists i, In i (Store.idea_details d) /\ Idea.ideaid i = k
                /\ Store.canView d i u = true
                /\ Part000.matches s i = true)
  /\ (forall (u : Z) (s : IndexJs.search) (d : Store.db (list string)) (k : Z),
         u <> 0 ->
         (In k (IndexJs.ids (IndexJs.get_view_ideas (Some u) s d)) <->
          exists i, In i (Store.idea_details d) /\ Idea.ideaid i = k
                    /\ Store.canView d i u = true
                    /\ IndexJs.matches s i = true)).
Proof.
  split.
  - intros u s d k. apply p0_in_ids.
  - intros u s d k Hu. apply js_in_ids. assumption.
Qed.

Lemma listing_lists_the_viewable_matches_witness :
  In 1 (IndexJs.ids
          (IndexJs.get_view_ideas (Some 2) Scenario.no_search_js
                                  Scenario.shared_js)).
Proof.
  assert (Hu : 2 <> 0) by discriminate.
  apply (proj2 listing_lists_the_viewable_matches 2 Scenario.no_search_js
               Scenario.shared_js 1 Hu).
  exists Scenario.bakery_row.
  repeat split; try (vm_compute; reflexivity).
  vm_compute. left. reflexivity.
Defined.

(** ** The scenario of the two users *)

(** Bob does not see "Laundromat" until Alice shares it; he cannot
    delete it; once he leaves, it is off his page. *)
Example scenario_laundromat :
  Part000.ids
    (Part000.get_ideas (Some 2) Scenario.no_search Scenario.unshared) = []
  /\ Part000.ids
       (Part000.get_ideas (Some 2) Scenario.no_search Scenario.shared) = [1]
  /\ store (Part000.post_deleteIdea Restrict (Some 2) "1" Scenario.shared)
     = Scenario.shared
  /\ Part000.ids
       (Part000.get_ideas (Some 2) Scenario.no_search
          (store (Part000.post_leaveCollaboration (Some 2) "1"
                    Scenario.shared))) = [].
Proof. repeat split; vm_compute; reflexivity. Qed.

(** ** The flag [is_owner] of [/view-ideas] *)

(** Every entry of the page carries [is_owner] exactly when the reader
    owns its idea. *)
Theorem is_owner_flag_is_right (u : Z) (s : IndexJs.search)
  (d : Store.db (list string)) :
  Forall (fun x => IndexJs.is_owner x = Store.isOwner (IndexJs.idea x) u)
         (IndexJs.ideas_of (IndexJs.get_view_ideas (Some u) s d)).
Proof.
  apply Forall_forall. intros x Hx.
  destruct (Z.eq_dec u 0) as [->|Hu]; [destruct Hx|].
  apply (js_in_ideas u s d x Hu) in Hx. tauto.
Qed.

(** ** Editing and removing need the right *)

(** An edit by someone who neither owns the idea nor collaborates on
    it leaves the store as it is, and redirects to the listing. *)
Theorem edit_needs_owner_or_collaborator :
  (forall (u : Z) (id : string) (k : Z) (i : Idea.row string)
          (body : Part000.idea_form) (d : Store.db string),
      Sql.integer_in id = Some k ->
      Store.first_idea d k = Some i ->
      Store.canView d i u = false ->
      Js.truthy (Part000.ideaname body) = true ->
      Js.truthy (Part000.ideadescription body) = true ->
      Part000.post_editIdea (Some u) id body d
      = mkReply d (Redirect "/ideas") [])
  /\ (forall (now u : Z) (id : string) (k : Z) (i : Idea.row (list string))
             (body : IndexJs.idea_form) (d : Store.db (list string)),
         u <> 0 ->
         Sql.integer_in id = Some k ->
         Store.first_idea d k = Some i ->
         Store.canView d i u = false ->
         IndexJs.post_edit_idea now (Some u) id body d
         = mkReply d (Redirect "/view-ideas") []).
Proof.
  split.
  - intros u id k i body d Hid Hi Hv Hn Hd.
    pose proof (first_idea_some d k i Hi) as (_ & Hk).
    unfold Store.canView in Hv. rewrite Hk in Hv.
    apply orb_false_iff in Hv. destruct Hv as (Ho & Hc).
    unfold Part000.post_editIdea. rewrite Hn, Hd, Hid, Hi, Ho, Hc.
    reflexivity.
  - intros now u id k i body d Hu Hid Hi Hv.
    pose proof (first_idea_some d k i Hi) as (_ & Hk).
    unfold Store.canView in Hv. rewrite Hk in Hv.
    apply orb_false_iff in Hv. destruct Hv as (Ho & Hc).
    unfold IndexJs.post_edit_idea, IndexJs.requireAuth.
    apply Z.eqb_neq in Hu. rewrite Hu, Hid, Hi, Ho, Hc. reflexivity.
Qed.

Lemma edit_needs_owner_or_collaborator_witness :
  Part000.post_editIdea (Some 2) "2" Scenario.cafe Scenario.shared
  = mkReply Scenario.shared (Redirect "/ideas") [].
Proof.
  assert (H0 : Store.first_idea Scenario.shared 2 = Some Scenario.kiosk_row)
    by (vm_compute; reflexivity).
  exact (proj1 edit_needs_owner_or_collaborator 2 "2" 2 _ Scenario.cafe
               Scenario.shared eq_refl H0 eq_refl eq_refl eq_refl).
Defined.

(** The owner's removal of a collaborator deletes the row named in the
    request and no other. *)
Theorem owner_removes_collaborator :
  (forall (u : Z) (cid : string) (n : Z) (c : Collaboration.row)
          (i : Idea.row string) (d : Store.db string),
      Sql.integer_in cid = Some n ->
      Store.first_collaboration_by_id d n = Some c ->
      Store.first_idea d (Collaboration.ideaid c) = Some i ->
      Store.isOwner i u = true ->
      Store.collaborations
        (store (Part000.post_removeCollaborator (Some u) cid d))
      = filter (fun x => negb (Collaboration.collaborationid x =? n))
               (Store.collaborations d))
  /\ (forall (u : Z) (ideaid userid : string) (k t : Z)
             (i : Idea.row (list string)) (d : Store.db (list string)),
         u <> 0 ->
         Sql.integer_in ideaid = Some k ->
         Store.first_idea d k = Some i ->
         Store.isOwner i u = true ->
         Sql.integer_in userid = Some t ->
         Store.collaborations
           (store (IndexJs.post_remove_collaborator (Some u) ideaid userid d))
         = filter (fun x => negb (Store.is_pair k t x))
                  (Store.collaborations d)).
Proof.
  split.
  - intros u cid n c i d Hcid Hc Hi Ho.
    unfold Part000.post_removeCollaborator. rewrite Hcid, Hc, Hi, Ho.
    reflexivity.
  - intros u ideaid userid k t i d Hu Hid Hi Ho Ht.
    unfold IndexJs.post_remove_collaborator, IndexJs.requireAuth.
    apply Z.eqb_neq in Hu. rewrite Hu, Hid, Hi, Ho, Ht. reflexivity.
Qed.

Lemma owner_removes_collaborator_witness :
  Store.collaborations
    (store (IndexJs.post_remove_collaborator (Some 1) "1" "2"
                                             Scenario.shared_js))
  = [].
Proof.
  assert (Hu : 1 <> 0) by discriminate.
  assert (H1 : Store.first_idea Scenario.shared_js 1
               = Some Scenario.bakery_row) by (vm_compute; reflexivity).
  rewrite (proj2 owner_removes_collaborator 1 "1" "2" 1 2 _
                 Scenario.shared_js Hu eq_refl H1 eq_refl eq_refl).
  vm_compute. reflexivity.
Defined.

(** * Further properties of the two applications *)

(** ** Sharing, removing and leaving, as the listing shows them *)

Section Sharing.
Import Js Sql Store.

Lemma isCollaborator_in {M : Type} (d : Store.db M) k t c :
  In c (collaborations d) -> Collaboration.ideaid c = k ->
  Collaboration.userid c = t -> isCollaborator d k t = true.
Proof.
  intros Hc Hk Ht. apply isCollaborator_spec. exists c. tauto.
Qed.

Lemma isCollaborator_dropped {M : Type} (d : Store.db M) k t :
  isCollaborator
    (store_of (delete_collaborations (is_pair k t) d)) k t = false.
Proof.
  unfold isCollaborator, first_collaboration. simpl.
  rewrite find_dropped. reflexivity.
Qed.

Lemma p0_shared u id k idea c t (d : Store.db string) :
  integer_in id = Some k -> first_idea d k = Some idea ->
  isOwner idea u = true -> integer_in c = Some t ->
  has_user d t = true ->
  idea_details (store (Part000.post_addCollaborator (Some u) id (Some c) d))
  = idea_details d
  /\ isCollaborator
       (store (Part000.post_addCollaborator (Some u) id (Some c) d)) k t
     = true.
Proof.
  intros Hid Hf Ho Hc Ht.
  destruct (first_collaboration d k t) as [c0|] eqn:Hp.
  - rewrite (p0_add_existing u id k idea c t c0 d Hid Hf Ho Hc Hp).
    split; [reflexivity|]. simpl. unfold isCollaborator. rewrite Hp.
    reflexivity.
  - rewrite (p0_add_new u id k idea c t d Hid Hf Ho Hc Ht Hp).
    split; [reflexivity|].
    apply (isCollaborator_in _ k t (Collaboration.mk (next_collaborationid d)
                                                     k t));
      [|reflexivity|reflexivity].
    simpl. apply in_or_app. right. left. reflexivity.
Qed.

Lemma js_shared u id k idea c t (d : Store.db (list string)) :
  u <> 0 ->
  integer_in id = Some k -> first_idea d k = Some idea ->
  isOwner idea u = true -> parseInt c = Some t ->
  has_user d t = true ->
  idea_details (store (IndexJs.post_add_collaborator (Some u) id (Some c) d))
  = idea_details d
  /\ isCollaborator
       (store (IndexJs.post_add_collaborator (Some u) id (Some c) d)) k t
     = true.
Proof.
  intros Hu Hid Hf Ho Hc Ht.
  destruct (first_collaboration d k t) as [c0|] eqn:Hp.
  - rewrite (js_add_existing u id k idea c t c0 d Hu Hid Hf Ho Hc Hp).
    split; [reflexivity|]. simpl. unfold isCollaborator, first_collaboration.
    simpl. unfold first_collaboration in Hp. rewrite Hp. reflexivity.
  - rewrite (js_add_new u id k idea c t d Hu Hid Hf Ho Hc Ht Hp).
    split; [reflexivity|].
    apply (isCollaborator_in _ k t (Collaboration.mk (next_collaborationid d)
                                                     k t));
      [|reflexivity|reflexivity].
    simpl. apply in_or_app. right. left. reflexivity.
Qed.

End Sharing.

(** Once its owner has added a user as a collaborator, the idea is on
    that user's page, under every search the idea passes. *)
Theorem shared_idea_is_listed :
  (forall (u t k : Z) (id c : string) (i : Idea.row string)
          (s : Part000.search) (d : Store.db string),
      Sql.integer_in id = Some k ->
      Store.first_idea d k = Some i ->
      Store.isOwner i u = true ->
      Sql.integer_in c = Some t ->
      Store.has_user d t = true ->
      Part000.matches s i = true ->
      In k (Part000.ids
              (Part000.get_ideas (Some t) s
                 (store (Part000.post_addCollaborator (Some u) id (Some c)
                                                      d)))))
  /\ (forall (u t k : Z) (id c : string) (i : Idea.row (list string))
             (s : IndexJs.search) (d : Store.db (list string)),
         u <> 0 -> t <> 0 ->
         Sql.integer_in id = Some k ->
         Store.first_idea d k = Some i ->
         Store.isOwner i u = true ->
         Js.parseInt c = Some t ->
         Store.has_user d t = true ->
         IndexJs.matches s i = true ->
         In k (IndexJs.ids
                 (IndexJs.get_view_ideas (Some t) s
                    (store (IndexJs.post_add_collaborator (Some u) id
                                                          (Some c) d))))).
Proof.
  split.
  - intros u t k id c i s d Hid Hf Ho Hc Ht Hm.
    destruct (p0_shared u id k i c t d Hid Hf Ho Hc Ht) as (Hi & Hco).
    apply p0_in_ids. exists i.
    destruct (first_idea_some d k i Hf) as (Hin & Hk).
    rewrite Hi. repeat split; try assumption.
    unfold Store.canView. rewrite Hk, Hco. apply orb_true_r.
  - intros u t k id c i s d Hu Hnz Hid Hf Ho Hc Ht Hm.
    destruct (js_shared u id k i c t d Hu Hid Hf Ho Hc Ht) as (Hi & Hco).
    apply (js_in_ids t s _ k Hnz). exists i.
    destruct (first_idea_some d k i Hf) as (Hin & Hk).
    rewrite Hi. repeat split; try assumption.
    unfold Store.canView. rewrite Hk, Hco. apply orb_true_r.
Qed.

Lemma shared_idea_is_listed_witness :
  In 1 (Part000.ids
          (Part000.get_ideas (Some 2) Scenario.no_search
             (store (Part000.post_addCollaborator (Some 1) "1" (Some "2")
                                                  Scenario.unshared)))).
Proof.
  assert (Hf : Store.first_idea Scenario.unshared 1
               = Some Scenario.laundromat_row) by (vm_compute; reflexivity).
  exact (proj1 shared_idea_is_listed 1 2 1 "1" "2" Scenario.laundromat_row
               Scenario.no_search Scenario.unshared
               eq_refl Hf eq_refl eq_refl eq_refl eq_refl).
Defined.

(** A user who does not own the idea no longer has it on the page once
    the user has left it, or once its owner has removed the user. *)
Theorem left_idea_is_not_listed :
  (forall (u k : Z) (id : string) (s : Part000.search)
          (d : Store.db string),
      Sql.integer_in id = Some k ->
      (forall i, In i (Store.idea_details d) -> Idea.ideaid i = k ->
                 Idea.userid i <> u) ->
      ~ In k (Part000.ids
                (Part000.get_ideas (Some u) s
                   (store (Part000.post_leaveCollaboration (Some u) id d)))))
  /\ (forall (u t k : Z) (ideaid userid : string)
             (i : Idea.row (list string))
             (s : IndexJs.search) (d : Store.db (list string)),
         Store.Consistent d ->
         u <> 0 -> t <> 0 -> t <> u ->
         Sql.integer_in ideaid = Some k ->
         Store.first_idea d k = Some i ->
         Store.isOwner i u = true ->
         Sql.integer_in userid = Some t ->
         ~ In k (IndexJs.ids
                   (IndexJs.get_view_ideas (Some t) s
                      (store (IndexJs.post_remove_collaborator
                                (Some u) ideaid userid d))))).
Proof.
  split.
  - intros u k id s d Hid Hown Hin.
    apply p0_in_ids in Hin. destruct Hin as (i & Hi & Hk & Hv & _).
    unfold Part000.post_leaveCollaboration in Hi, Hv. rewrite Hid in Hi, Hv.
    cbn [store] in Hi, Hv.
    unfold Store.canView in Hv. rewrite Hk, isCollaborator_dropped in Hv.
    rewrite orb_false_r in Hv. apply Z.eqb_eq in Hv.
    exact (Hown i Hi Hk Hv).
  - intros u t k ideaid userid i s d Hc Hu Hnz Htu Hid Hf Ho Ht Hin.
    apply (js_in_ids t s _ k Hnz) in Hin.
    destruct Hin as (i' & Hi & Hk & Hv & _).
    unfold IndexJs.post_remove_collaborator, IndexJs.requireAuth in Hi, Hv.
    apply Z.eqb_neq in Hu. rewrite Hu, Hid, Hf, Ho, Ht in Hi, Hv.
    cbn [store] in Hi, Hv.
    unfold Store.canView in Hv. rewrite Hk, isCollaborator_dropped in Hv.
    rewrite orb_false_r in Hv. apply Z.eqb_eq in Hv.
    destruct (first_idea_some d k i Hf) as (Hin & Hki).
    assert (i' = i) by (apply (idea_by_id d); [assumption.. | congruence]).
    subst i'. apply Z.eqb_eq in Ho. congruence.
Qed.

Lemma left_idea_is_not_listed_witness :
  ~ In 1 (Part000.ids
            (Part000.get_ideas (Some 2) Scenario.no_search
               (store (Part000.post_leaveCollaboration (Some 2) "1"
                                                       Scenario.shared)))).
Proof.
  apply (proj1 left_idea_is_not_listed 2 1 "1" Scenario.no_search
               Scenario.shared eq_refl).
  intros i Hi Hk. vm_compute in Hi.
  destruct Hi as [<-|[<-|[]]]; vm_compute; discriminate.
Defined.

(** The owner's removal, by the id of the collaboration, takes the
    idea off the page of the user it names. *)
Theorem removed_collaborator_is_not_listed
  (u n : Z) (cid : string) (c : Collaboration.row) (i : Idea.row string)
  (s : Part000.search) (d : Store.db string) :
  Store.Consistent d ->
  Sql.integer_in cid = Some n ->
  Store.first_collaboration_by_id d n = Some c ->
  Store.first_idea d (Collaboration.ideaid c) = Some i ->
  Store.isOwner i u = true ->
  Collaboration.userid c <> u ->
  ~ In (Collaboration.ideaid c)
       (Part000.ids
          (Part000.get_ideas (Some (Collaboration.userid c)) s
             (store (Part000.post_removeCollaborator (Some u) cid d)))).
Proof.
  intros Hc Hcid Hn Hf Ho Hcu Hin.
  apply p0_in_ids in Hin. destruct Hin as (i' & Hi & Hk & Hv & _).
  unfold Part000.post_removeCollaborator in Hi, Hv.
  rewrite Hcid, Hn, Hf, Ho in Hi, Hv. cbn [negb store] in Hi, Hv.
  cbn [Store.store_of Store.delete_collaborations Store.idea_details] in Hi.
  destruct (first_idea_some d _ i Hf) as (Hin & Hki).
  assert (i' = i) by (apply (idea_by_id d); [assumption.. | congruence]).
  subst i'. unfold Store.canView in Hv. apply orb_true_iff in Hv.
  destruct Hv as [Hv|Hv].
  - apply Z.eqb_eq in Ho, Hv. congruence.
  - apply isCollaborator_spec in Hv. destruct Hv as (c' & Hc' & Hk' & Hu').
    cbn [Store.store_of Store.delete_collaborations Store.collaborations]
      in Hc'.
    apply filter_In in Hc'. destruct Hc' as (Hc' & Hne).
    unfold Store.first_collaboration_by_id in Hn. apply find_some in Hn.
    destruct Hn as (Hcin & Hcn).
    assert (c' = c).
    { apply (NoDup_map_inj Store.pair_of (Store.collaborations d));
        [apply (Store.pairs_distinct _ Hc) | assumption | assumption |].
      unfold Store.pair_of. congruence. }
    subst c'. rewrite Hcn in Hne. discriminate.
Qed.

Lemma removed_collaborator_is_not_listed_witness :
  ~ In 1 (Part000.ids
            (Part000.get_ideas (Some 2) Scenario.no_search
               (store (Part000.post_removeCollaborator (Some 1) "1"
                                                       Scenario.shared)))).
Proof.
  assert (Hc : Store.Consistent Scenario.shared)
    by (apply consistent_spec; vm_compute; reflexivity).
  assert (Hn : Store.first_collaboration_by_id Scenario.shared 1
               = Some (Collaboration.mk 1 1 2)) by (vm_compute; reflexivity).
  assert (Hf : Store.first_idea Scenario.shared 1
               = Some Scenario.laundromat_row) by (vm_compute; reflexivity).
  assert (Hu : 2 <> 1) by discriminate.
  exact (removed_collaborator_is_not_listed 1 1 "1" _ _ Scenario.no_search
           Scenario.shared Hc eq_refl Hn Hf eq_refl Hu).
Defined.

(** ** A deleted idea *)

Section Deleted.
Import Js Sql Store.
Context {M : Type}.
Implicit Types (d : Store.db M) (k u : Z).

Lemma in_without d k i :
  In i (idea_details (without d k)) <->
  In i (idea_details d) /\ Idea.ideaid i <> k.
Proof.
  unfold without. simpl. rewrite filter_In, negb_true_iff, Z.eqb_neq.
  reflexivity.
Qed.

Lemma canView_without d k i u :
  Idea.ideaid i <> k -> canView (without d k) i u = canView d i u.
Proof.
  intros Hk. unfold canView. f_equal.
  unfold isCollaborator, first_collaboration, without. simpl.
  rewrite find_kept; [reflexivity|].
  intros c Hp. apply is_pair_spec in Hp. destruct Hp as (Hp & _).
  apply negb_true_iff, Z.eqb_neq. congruence.
Qed.

Lemma delete_idea_unreferenced (fk : fk_action) d k :
  has_idea d k = true ->
  fk = Cascade
  \/ (forall c, In c (collaborations d) -> Collaboration.ideaid c <> k) ->
  delete_idea fk k d = Done (without d k).
Proof.
  intros Hk [->|Hno]; [apply delete_cascading, Hk|].
  assert (Hr : existsb (fun c => Collaboration.ideaid c =? k)
                       (collaborations d) = false).
  { apply not_true_is_false. intros He. apply existsb_exists in He.
    destruct He as (c & Hc & He). apply Z.eqb_eq in He.
    exact (Hno c Hc He). }
  unfold delete_idea, without. rewrite Hk, (filter_all _ _ Hr), Hr.
  destruct fk; reflexivity.
Qed.

End Deleted.

Lemma p0_deleted (fk : fk_action) u id k i (d : Store.db string) :
  Sql.integer_in id = Some k -> Store.first_idea d k = Some i ->
  Store.isOwner i u = true ->
  store (Part000.post_deleteIdea fk (Some u) id d) = without d k.
Proof.
  intros Hid Hf Ho. unfold Part000.post_deleteIdea.
  rewrite Hid, Hf, Ho. cbn [negb].
  assert (Hk : Store.has_idea d k = true)
    by (rewrite has_idea_first, Hf; reflexivity).
  unfold Part000.store_of_first_delete.
  rewrite (delete_in_two_steps fk d k Hk). reflexivity.
Qed.

Lemma js_deleted (fk : fk_action) u id k i (d : Store.db (list string)) :
  u <> 0 ->
  Sql.integer_in id = Some k -> Store.first_idea d k = Some i ->
  Store.isOwner i u = true ->
  fk = Cascade
  \/ (forall c, In c (Store.collaborations d) ->
                Collaboration.ideaid c <> k) ->
  store (IndexJs.post_delete_idea fk (Some u) id d) = without d k.
Proof.
  intros Hu Hid Hf Ho Hfk.
  unfold IndexJs.post_delete_idea, IndexJs.requireAuth.
  apply Z.eqb_neq in Hu. rewrite Hu, Hid, Hf, Ho.
  assert (Hk : Store.has_idea d k = true)
    by (rewrite has_idea_first, Hf; reflexivity).
  rewrite (delete_idea_unreferenced fk d k Hk Hfk). reflexivity.
Qed.

Lemma viewable_without {M : Type} (d : Store.db M) (k k' v : Z)
  (m : Idea.row M -> bool) :
  (exists i, In i (Store.idea_details (without d k)) /\ Idea.ideaid i = k'
             /\ Store.canView (without d k) i v = true /\ m i = true)
  <-> k' <> k
      /\ exists i, In i (Store.idea_details d) /\ Idea.ideaid i = k'
                   /\ Store.canView d i v = true /\ m i = true.
Proof.
  split.
  - intros (i & Hi & Hk & Hv & Hm). apply in_without in Hi.
    destruct Hi as (Hi & Hne). split; [congruence|].
    exists i. rewrite (canView_without d k i v Hne) in Hv. tauto.
  - intros (Hne & i & Hi & Hk & Hv & Hm). exists i.
    assert (Idea.ideaid i <> k) by congruence.
    rewrite in_without, canView_without by assumption. tauto.
Qed.

(** Once its owner has deleted an idea, the pages list what they
    listed before except that idea: it is on nobody's page, and every
    other idea is on the pages it was on. *)
Theorem deleted_idea_is_on_no_page :
  (forall (fk : fk_action) (u v k k' : Z) (id : string)
          (i : Idea.row string) (s : Part000.search) (d : Store.db string),
      Sql.integer_in id = Some k ->
      Store.first_idea d k = Some i ->
      Store.isOwner i u = true ->
      (In k' (Part000.ids
                (Part000.get_ideas (Some v) s
                   (store (Part000.post_deleteIdea fk (Some u) id d))))
       <-> k' <> k
           /\ In k' (Part000.ids (Part000.get_ideas (Some v) s d))))
  /\ (forall (fk : fk_action) (u v k k' : Z) (id : string)
             (i : Idea.row (list string)) (s : IndexJs.search)
             (d : Store.db (list string)),
         u <> 0 -> v <> 0 ->
         Sql.integer_in id = Some k ->
         Store.first_idea d k = Some i ->
         Store.isOwner i u = true ->
         fk = Cascade
         \/ (forall c, In c (Store.collaborations d) ->
                       Collaboration.ideaid c <> k) ->
         (In k' (IndexJs.ids
                   (IndexJs.get_view_ideas (Some v) s
                      (store (IndexJs.post_delete_idea fk (Some u) id d))))
          <-> k' <> k
              /\ In k' (IndexJs.ids (IndexJs.get_view_ideas (Some v) s d)))).
Proof.
  split.
  - intros fk u v k k' id i s d Hid Hf Ho.
    rewrite (p0_deleted fk u id k i d Hid Hf Ho), !p0_in_ids.
    apply viewable_without.
  - intros fk u v k k' id i s d Hu Hv Hid Hf Ho Hfk.
    rewrite (js_deleted fk u id k i d Hu Hid Hf Ho Hfk).
    rewrite !(js_in_ids v s _ k' Hv).
    apply viewable_without.
Qed.

Lemma deleted_idea_is_on_no_page_witness :
  In 2 (Part000.ids
          (Part000.get_ideas (Some 1) Scenario.no_search
             (store (Part000.post_deleteIdea Restrict (Some 1) "1"
                                             Scenario.shared)))).
Proof.
  assert (Hf : Store.first_idea Scenario.shared 1
               = Some Scenario.laundromat_row) by (vm_compute; reflexivity).
  apply (proj1 deleted_idea_is_on_no_page Restrict 1 1 1 2 "1"
               Scenario.laundromat_row Scenario.no_search Scenario.shared
               eq_refl Hf eq_refl).
  split; [discriminate|]. vm_compute. tauto.
Defined.

(** ** A new idea on the page *)

Lemma descending_unique (l1 l2 : list Z) :
  StronglySorted (fun a b => b < a) l1 ->
  StronglySorted (fun a b => b < a) l2 ->
  (forall x, In x l1 <-> In x l2) -> l1 = l2.
Proof.
  intros H1. revert l2.
  induction H1 as [|x l1 Hl1 IH Hx]; intros l2 H2 Hin.
  - destruct l2 as [|y l2]; [reflexivity|].
    exfalso. apply (Hin y). left. reflexivity.
  - destruct l2 as [|y l2].
    { exfalso. apply (Hin x). left. reflexivity. }
    inversion H2 as [|? ? Hl2 Hy]; subst.
    rewrite Forall_forall in Hx, Hy.
    assert (He : x = y).
    { destruct (proj1 (Hin x) (or_introl eq_refl)) as [->|Hxy];
        [reflexivity|].
      destruct (proj2 (Hin y) (or_introl eq_refl)) as [->|Hyx];
        [reflexivity|].
      pose proof (Hx y Hyx). pose proof (Hy x Hxy). lia. }
    subst y. f_equal. apply IH; [assumption|].
    intros z. split; intros Hz.
    + destruct (proj1 (Hin z) (or_intror Hz)) as [<-|H]; [|assumption].
      pose proof (Hx x Hz). lia.
    + destruct (proj2 (Hin z) (or_intror Hz)) as [<-|H]; [|assumption].
      pose proof (Hy x Hz). lia.
Qed.

Lemma p0_ids_strictly_sorted (session : option Z) (s : Part000.search)
  (d : Store.db string) :
  Store.Consistent d ->
  StronglySorted (fun a b => b < a)
                 (Part000.ids (Part000.get_ideas session s d)).
Proof.
  intros Hc.
  apply (strictly_descending (fun x => x)).
  - exact (p0_ids_sorted session s d).
  - rewrite map_id. apply p0_ids_distinct, Hc.
Qed.

Lemma unreferenced_next {M : Type} (d : Store.db M) (v : Z) :
  Store.Consistent d ->
  Store.isCollaborator d (Store.next_ideaid d) v = false.
Proof.
  intros Hc. apply not_true_is_false. intros H.
  apply isCollaborator_spec in H. destruct H as (c & Hin & Hk & _).
  destruct (Store.references_exist _ Hc c Hin) as (Hi & _).
  apply has_idea_spec in Hi. destruct Hi as (i & Hi & He).
  pose proof (Store.ideas_drawn _ Hc i Hi). lia.
Qed.

(** A valid new idea is the first entry of its creator's page, when it
    passes the search; apart from it, every page lists what it listed,
    in the same order. *)
Theorem new_idea_heads_the_page (now u v : Z) (body : Part000.idea_form)
  (p : option Z) (s : Part000.search) (d : Store.db string) :
  Store.Consistent d ->
  Store.has_user d u = true ->
  Js.truthy (Part000.ideaname body) = true ->
  Js.truthy (Part000.ideadescription body) = true ->
  Part000.potential_of (Part000.potential body) = Some p ->
  exists row,
    Store.first_idea (store (Part000.post_addIdea now (Some u) body d))
                     (Store.next_ideaid d) = Some row
    /\ Part000.ids
         (Part000.get_ideas (Some v) s
            (store (Part000.post_addIdea now (Some u) body d)))
       = (if (u =? v) && Part000.matches s row
          then [Store.next_ideaid d] else [])
         ++ Part000.ids (Part000.get_ideas (Some v) s d).
Proof.
  intros Hc Hu Hn Hd Hp.
  assert (Hc' : Store.Consistent
                  (store (Part000.post_addIdea now (Some u) body d))).
  { apply (change_keeps_consistent d); [assumption|].
    exact (p0_handle_changes Restrict (Part000.AddIdea now (Some u) body) d). }
  revert Hc'.
  unfold Part000.post_addIdea. rewrite Hn, Hd, Hp. cbn [negb orb].
  unfold Store.insert_idea. cbn [Idea.userid]. rewrite Hu. cbn [store].
  set (row := Idea.mk (Store.next_ideaid d) u _ _ _ _ _ _ p (Some now) None).
  set (d' := Store.mk _ _ _ _ _ _). intros Hc'.
  assert (Hlt : forall x, In x (Part000.ids (Part000.get_ideas (Some v) s d))
                          -> x < Store.next_ideaid d).
  { intros x Hx. apply p0_in_ids in Hx. destruct Hx as (i & Hi & <- & _).
    apply (Store.ideas_drawn _ Hc i Hi). }
  assert (Hfirst : Store.first_idea d' (Store.next_ideaid d) = Some row).
  { unfold Store.first_idea, d'. cbn [Store.idea_details].
    rewrite find_snoc.
    destruct (find _ (Store.idea_details d)) as [i|] eqn:Hf.
    - apply find_some in Hf. destruct Hf as (Hi & He).
      apply Z.eqb_eq in He. pose proof (Store.ideas_drawn _ Hc i Hi). lia.
    - unfold row. cbn [Idea.ideaid]. rewrite Z.eqb_refl. reflexivity. }
  exists row. split; [exact Hfirst|].
  assert (Hview : forall i, Store.canView d' i v = Store.canView d i v)
    by reflexivity.
  assert (Hrow : Store.canView d row v = (u =? v)).
  { unfold Store.canView, row. cbn [Idea.ideaid].
    rewrite (unreferenced_next d v Hc). apply orb_false_r. }
  apply descending_unique.
  - apply p0_ids_strictly_sorted, Hc'.
  - pose proof (p0_ids_strictly_sorted (Some v) s d Hc) as Hs.
    destruct ((u =? v) && Part000.matches s row); [|exact Hs].
    constructor; [exact Hs|]. apply Forall_forall. exact Hlt.
  - intros x. rewrite in_app_iff, !p0_in_ids. split.
    + intros (i & Hi & Hk & Hv & Hm). unfold d' in Hi.
      cbn [Store.idea_details] in Hi. apply in_app_iff in Hi.
      rewrite Hview in Hv. destruct Hi as [Hi|[<-|[]]].
      * right. exists i. tauto.
      * left. rewrite Hrow in Hv. rewrite Hv, Hm. left. exact Hk.
    + intros [Hx|(i & Hi & Hk & Hv & Hm)].
      * destruct (u =? v) eqn:He; [|destruct Hx].
        destruct (Part000.matches s row) eqn:Hm; [|destruct Hx].
        destruct Hx as [<-|[]]. exists row.
        rewrite Hview, Hrow. repeat split; try assumption.
        unfold d'. cbn [Store.idea_details]. apply in_or_app. right.
        left. reflexivity.
      * exists i. rewrite Hview. repeat split; try assumption.
        unfold d'. cbn [Store.idea_details]. apply in_or_app. left.
        assumption.
Qed.

Lemma new_idea_heads_the_page_witness :
  exists row,
    Store.first_idea
      (store (Part000.post_addIdea 30 (Some 2) Scenario.cafe Scenario.shared))
      3 = Some row
    /\ Part000.ids
         (Part000.get_ideas (Some 2) Scenario.no_search
            (store (Part000.post_addIdea 30 (Some 2) Scenario.cafe
                                         Scenario.shared)))
       = (if (2 =? 2) && Part000.matches Scenario.no_search row
          then [3] else [])
         ++ Part000.ids
              (Part000.get_ideas (Some 2) Scenario.no_search Scenario.shared).
Proof.
  assert (Hc : Store.Consistent Scenario.shared)
    by (apply consistent_spec; vm_compute; reflexivity).
  exact (new_idea_heads_the_page 30 2 2 Scenario.cafe None Scenario.no_search
           Scenario.shared Hc eq_refl eq_refl eq_refl eq_refl).
Defined.

(** ** The accounts *)

Lemma fold_left_invariant {S R : Type} (step : S -> R -> S) (P : S -> Prop) :
  (forall d r, P d -> P (step d r)) ->
  forall rs d, P d -> P (fold_left step rs d).
Proof.
  intros Hstep rs. induction rs as [|r rs IH]; simpl; intros d Hd;
    [assumption|].
  apply IH, Hstep, Hd.
Qed.

Section Accounts.
Import Js Sql Store.

(** [part_000]: only [/register] writes to [security], one row at the
    end, under a name no row has. *)
Lemma p0_security_step (fk : fk_action) (r : Part000.request)
  (d : Store.db string) :
  security (store (Part000.handle fk r d)) = security d
  \/ exists row,
       security (store (Part000.handle fk r d)) = security d ++ [row]
       /\ first_user d (User.username row) = None.
Proof.
  destruct r as [now body|now session body|session id body|session id
                 |session id c|session cid|session id];
    cbn [Part000.handle].
  - unfold Part000.post_register, insert_user.
    destruct (_ || _); [left; reflexivity|].
    destruct (first_user d _) eqn:Hf; [left; reflexivity|].
    right. eexists. split; [reflexivity|]. exact Hf.
  - left. unfold Part000.post_addIdea, Part000.login_page, insert_idea.
    by_cases; reflexivity.
  - left. unfold Part000.post_editIdea, Part000.login_page, update_idea.
    by_cases; reflexivity.
  - left. unfold Part000.post_deleteIdea, Part000.login_page,
      Part000.store_of_first_delete, delete_idea, delete_collaborations.
    by_cases; reflexivity.
  - left. unfold Part000.post_addCollaborator, Part000.login_page,
      insert_collaboration.
    by_cases; reflexivity.
  - left. unfold Part000.post_removeCollaborator, Part000.login_page.
    by_cases; reflexivity.
  - left. unfold Part000.post_leaveCollaboration, Part000.login_page.
    by_cases; reflexivity.
Qed.

(** [index.js]: [/create-account] adds a row under a new name, and
    [/login] rewrites [lastlogin]; nothing else writes to [security]. *)
Lemma js_security_step (fk : fk_action) (r : IndexJs.request)
  (d : Store.db (list string)) :
  security (store (IndexJs.handle fk r d)) = security d
  \/ (exists row,
         security (store (IndexJs.handle fk r d)) = security d ++ [row]
         /\ first_user d (User.username row) = None)
  \/ exists u now,
       security (store (IndexJs.handle fk r d))
       = map (fun r => if User.userid r =? u
                       then User.mk (User.userid r) (User.username r)
                                    (User.passwordhash r) (User.email r)
                                    (User.firstname r) (User.lastname r)
                                    (User.accountcreated r) (Some now)
                                    (User.failedattempts r)
                       else r) (security d).
Proof.
  destruct r as [body|now name pw|now session body|now session id body
                 |session id|session id c|session i t];
    cbn [IndexJs.handle].
  - unfold IndexJs.post_create_account, insert_user.
    destruct (IndexJs.a_username body) as [name|]; [|left; reflexivity].
    destruct (first_user d name) eqn:Hf; [left; reflexivity|].
    right. left. eexists. split; [reflexivity|]. exact Hf.
  - unfold IndexJs.post_login.
    destruct name as [name|]; [|left; reflexivity].
    destruct pw as [pw|]; [|left; reflexivity].
    destruct (find _ _) as [user|]; [|left; reflexivity].
    right. right. exists (User.userid user), now. reflexivity.
  - left. unfold IndexJs.post_add_idea, IndexJs.to_login, insert_idea.
    by_cases; reflexivity.
  - left. unfold IndexJs.post_edit_idea, IndexJs.to_login, update_idea.
    by_cases; reflexivity.
  - left. unfold IndexJs.post_delete_idea, IndexJs.to_login, delete_idea.
    by_cases; reflexivity.
  - left. unfold IndexJs.post_add_collaborator, IndexJs.to_login,
      insert_collaboration.
    by_cases; reflexivity.
  - left. unfold IndexJs.post_remove_collaborator, IndexJs.to_login.
    by_cases; reflexivity.
Qed.

Lemma first_user_none (M : Type) (d : Store.db M) name :
  first_user d name = None -> ~ In name (map User.username (security d)).
Proof.
  unfold first_user. intros Hf Hin. apply in_map_iff in Hin.
  destruct Hin as (r & <- & Hr).
  pose proof (find_none _ _ Hf r Hr) as H. simpl in H.
  rewrite String.eqb_refl in H. discriminate.
Qed.

Lemma nodup_snoc {K : Type} (l : list K) (x : K) :
  NoDup l -> ~ In x l -> NoDup (l ++ [x]).
Proof.
  intros Hl Hx. apply NoDup_app; [assumption | repeat constructor; intros [] |].
  intros y Hy [<-|[]]. contradiction.
Qed.

End Accounts.

(** No sequence of requests gives two accounts the same user name. *)
Theorem usernames_stay_distinct :
  (forall (fk : fk_action) (rs : list Part000.request)
          (d : Store.db string),
      NoDup (map User.username (Store.security d)) ->
      NoDup (map User.username (Store.security (Part000.serve fk rs d))))
  /\ (forall (fk : fk_action) (rs : list IndexJs.request)
             (d : Store.db (list string)),
         NoDup (map User.username (Store.security d)) ->
         NoDup (map User.username (Store.security (IndexJs.serve fk rs d)))).
Proof.
  split; intros fk rs d; unfold Part000.serve, IndexJs.serve;
    apply (fold_left_invariant _
             (fun d => NoDup (map User.username (Store.security d))));
    clear d; intros d r Hd.
  - destruct (p0_security_step fk r d) as [->|(row & -> & Hnew)];
      [assumption|].
    rewrite map_app. apply nodup_snoc; [assumption|].
    apply first_user_none, Hnew.
  - destruct (js_security_step fk r d)
      as [->|[(row & -> & Hnew)|(u & now & ->)]]; [assumption| |].
    + rewrite map_app. apply nodup_snoc; [assumption|].
      apply first_user_none, Hnew.
    + rewrite map_map.
      rewrite (map_ext _ User.username); [assumption|].
      intros a. destruct (User.userid a =? u); reflexivity.
Qed.

Lemma usernames_stay_distinct_witness :
  NoDup (map User.username
             (Store.security
                (Part000.serve Restrict
                   [Part000.Register 12 Scenario.alice] Scenario.shared))).
Proof.
  apply (proj1 usernames_stay_distinct).
  vm_compute. repeat constructor; simpl; intuition discriminate.
Defined.

(** No request removes an account.  [part_000] never rewrites one
    either: the table only grows at its end.  [index.js] rewrites only
    the time of the last login. *)
Theorem accounts_are_kept :
  (forall (fk : fk_action) (rs : list Part000.request)
          (d : Store.db string),
      exists l,
        Store.security (Part000.serve fk rs d) = Store.security d ++ l)
  /\ (forall (fk : fk_action) (rs : list IndexJs.request)
             (d : Store.db (list string)),
         exists l,
           map (fun r => (User.userid r, User.username r,
                          User.passwordhash r, User.email r,
                          User.firstname r, User.lastname r,
                          User.accountcreated r, User.failedattempts r))
               (Store.security (IndexJs.serve fk rs d))
           = map (fun r => (User.userid r, User.username r,
                            User.passwordhash r, User.email r,
                            User.firstname r, User.lastname r,
                            User.accountcreated r, User.failedattempts r))
                 (Store.security d) ++ l).
Proof.
  split; intros fk rs d.
  - unfold Part000.serve.
    apply (fold_left_invariant _
             (fun d' => exists l,
                  Store.security d' = Store.security d ++ l)).
    + intros d' r (l & Hl).
      destruct (p0_security_step fk r d') as [->|(row & -> & _)].
      * exists l. exact Hl.
      * exists (l ++ [row]). rewrite Hl, app_assoc. reflexivity.
    + exists []. rewrite app_nil_r. reflexivity.
  - unfold IndexJs.serve.
    set (cols := fun r : User.row => _).
    apply (fold_left_invariant _
             (fun d' => exists l,
                  map cols (Store.security d')
                  = map cols (Store.security d) ++ l)).
    + intros d' r (l & Hl).
      destruct (js_security_step fk r d')
        as [->|[(row & -> & _)|(u & now & ->)]].
      * exists l. exact Hl.
      * exists (l ++ [cols row]).
        rewrite map_app, Hl, app_assoc. reflexivity.
      * exists l. rewrite <- Hl, map_map. apply map_ext.
        intros a. destruct (User.userid a =? u); reflexivity.
    + exists []. rewrite app_nil_r. reflexivity.
Qed.

(** ** Logging in *)

Section LoggingIn.
Import Js Sql Store.

Lemma credentials_spec name pw (r : User.row) :
  Part000Pages.credentials name pw r = true <->
  User.username r = name /\ User.passwordhash r = Some pw.
Proof.
  unfold Part000Pages.credentials. rewrite andb_true_iff, String.eqb_eq.
  destruct (User.passwordhash r) as [h|].
  - rewrite String.eqb_eq. split; intros (H1 & H2); split; congruence.
  - split; intros (_ & H); discriminate.
Qed.

Lemma filter_head {A : Type} (p : A -> bool) (l : list A) :
  find p l = match filter p l with
             | x :: _ => Some x
             | [] => None
             end.
Proof.
  induction l as [|y l IH]; simpl; [reflexivity|].
  destruct (p y); [reflexivity | exact IH].
Qed.

Lemma find_nothing {A : Type} (p : A -> bool) (l : list A) :
  (forall x, In x l -> p x = false) -> find p l = None.
Proof.
  induction l as [|y l IH]; simpl; intros H; [reflexivity|].
  rewrite (H y) by (left; reflexivity). apply IH. auto.
Qed.

(** The row with the name and the password, when names are distinct. *)
Lemma find_credentials name pw (rows : list User.row) r :
  NoDup (map User.username rows) -> In r rows ->
  User.username r = name -> User.passwordhash r = Some pw ->
  find (Part000Pages.credentials name pw) rows = Some r.
Proof.
  intros Hnd Hr Hn Hp.
  destruct (find _ rows) as [r'|] eqn:Hf.
  - apply find_some in Hf. destruct Hf as (Hr' & Hc).
    apply credentials_spec in Hc. f_equal.
    apply (NoDup_map_inj User.username rows); [assumption.. | ].
    destruct Hc. congruence.
  - pose proof (find_none _ _ Hf r Hr) as H.
    assert (Part000Pages.credentials name pw r = true)
      by (apply credentials_spec; tauto).
    congruence.
Qed.

Lemma find_no_credentials name pw (rows : list User.row) :
  (forall r, In r rows ->
             ~ (User.username r = name /\ User.passwordhash r = Some pw)) ->
  find (Part000Pages.credentials name pw) rows = None.
Proof.
  intros H. apply find_nothing. intros r Hr.
  apply not_true_is_false. intros Hc. apply credentials_spec in Hc.
  exact (H r Hr Hc).
Qed.

End LoggingIn.

(** A login under a name and a password that no account has together
    changes neither the session nor the store; with user names
    distinct, the login of an account puts that account in the
    session. *)
Theorem login_takes_name_and_password :
  (forall (name pw : string) (s : Part000Pages.session)
          (d : Store.db string),
      (forall r, In r (Store.security d) ->
                 ~ (User.username r = name
                    /\ User.passwordhash r = Some pw)) ->
      Part000Pages.post_login (Some name) (Some pw) s d
      = Part000Pages.mkVisit s
          (Render "login" "Invalid username or password") [])
  /\ (forall (name pw : string) (s : Part000Pages.session)
             (d : Store.db string) (r : User.row),
         NoDup (map User.username (Store.security d)) ->
         In r (Store.security d) ->
         User.username r = name -> User.passwordhash r = Some pw ->
         Part000Pages.post_login (Some name) (Some pw) s d
         = Part000Pages.mkVisit (Some (Part000Pages.account_of r))
                                (Redirect "/") [])
  /\ (forall (now : Z) (name pw : string) (s : IndexJsPages.session)
             (d : Store.db (list string)),
         (forall r, In r (Store.security d) ->
                    ~ (User.username r = name
                       /\ User.passwordhash r = Some pw)) ->
         IndexJsPages.login now (Some name) (Some pw) s d
         = IndexJsPages.mkVisit s
             (mkReply d (Render "login" "Invalid username or password") []))
  /\ (forall (now : Z) (name pw : string) (s : IndexJsPages.session)
             (d : Store.db (list string)) (r : User.row),
         NoDup (map User.username (Store.security d)) ->
         In r (Store.security d) ->
         User.username r = name -> User.passwordhash r = Some pw ->
         IndexJsPages.session_after
           (IndexJsPages.login now (Some name) (Some pw) s d)
         = Some (IndexJsPages.account_of r)
         /\ answer (IndexJsPages.reply_of
                      (IndexJsPages.login now (Some name) (Some pw) s d))
            = Redirect "/").
Proof.
  split; [|split; [|split]].
  - intros name pw s d Hno. unfold Part000Pages.post_login.
    pose proof (filter_head (Part000Pages.credentials name pw)
                            (Store.security d)) as Hh.
    rewrite (find_no_credentials name pw _ Hno) in Hh.
    destruct (filter _ _); [reflexivity | discriminate].
  - intros name pw s d r Hnd Hr Hn Hp. unfold Part000Pages.post_login.
    pose proof (filter_head (Part000Pages.credentials name pw)
                            (Store.security d)) as Hh.
    rewrite (find_credentials name pw _ r Hnd Hr Hn Hp) in Hh.
    destruct (filter _ _); [discriminate|]. inversion Hh. reflexivity.
  - intros now name pw s d Hno.
    pose proof (find_no_credentials name pw _ Hno) as Hf.
    unfold IndexJsPages.login, IndexJs.post_login.
    unfold Part000Pages.credentials in Hf. rewrite Hf. reflexivity.
  - intros now name pw s d r Hnd Hr Hn Hp.
    pose proof (find_credentials name pw _ r Hnd Hr Hn Hp) as Hf.
    unfold IndexJsPages.login, IndexJs.post_login.
    unfold Part000Pages.credentials in Hf. rewrite Hf.
    split; reflexivity.
Qed.

Lemma login_takes_name_and_password_witness :
  Part000Pages.post_login (Some "bob") (Some "pw2") None Scenario.shared
  = Part000Pages.mkVisit
      (Some (Part000Pages.mkAccount 2 "bob" (Some "b@x.org") (Some "Bob")
                                    (Some "B")))
      (Redirect "/") [].
Proof.
  assert (Hnd : NoDup (map User.username (Store.security Scenario.shared))).
  { vm_compute. repeat constructor; simpl; intuition discriminate. }
  assert (Hr : In (User.mk 2 "bob" (Some "pw2") (Some "b@x.org") (Some "Bob")
                           (Some "B") (Some 11) None (Some 0))
                  (Store.security Scenario.shared)).
  { vm_compute. right. left. reflexivity. }
  exact (proj1 (proj2 login_takes_name_and_password) "bob" "pw2" None
               Scenario.shared _ Hnd Hr eq_refl eq_refl).
Defined.

Section NewAccounts.
Import Js Sql Store.

Lemma unknown_name {M : Type} (d : Store.db M) name pw :
  first_user d name = None ->
  find (Part000Pages.credentials name pw) (security d) = None.
Proof.
  intros Hf. apply find_nothing. intros r Hr.
  pose proof (find_none _ _ Hf r Hr) as Hn. simpl in Hn.
  unfold Part000Pages.credentials. rewrite Hn. reflexivity.
Qed.

Lemma filter_snoc_head {A : Type} (p : A -> bool) (l : list A) (x : A) :
  find p l = None -> p x = true -> filter p (l ++ [x]) = [x].
Proof.
  intros Hf Hx. rewrite filter_app. simpl. rewrite Hx.
  rewrite filter_head in Hf.
  destruct (filter p l); [reflexivity | discriminate].
Qed.

(** The reply of [/create-account] is the one of
    [IndexJs.post_create_account]. *)
Lemma js_create_account_reply body s (d : Store.db (list string)) :
  IndexJsPages.reply_of (IndexJsPages.create_account body s d)
  = IndexJs.post_create_account body d.
Proof.
  unfold IndexJsPages.create_account, IndexJs.post_create_account.
  destruct (IndexJs.a_username body) as [name|]; [|reflexivity].
  destruct (first_user d name) eqn:Hf; [reflexivity|].
  unfold first_user, insert_user. cbn [store_of security].
  rewrite find_snoc. unfold first_user in Hf. rewrite Hf.
  cbn [User.username]. rewrite String.eqb_refl. reflexivity.
Qed.

End NewAccounts.

(** The account that [/register] has made logs in with the name and
    the password of the form.  [/create-account] logs the new account
    in at once, and the same account logs in later with its name and
    password. *)
Theorem new_account_logs_in :
  (forall (now : Z) (body : Part000.register_form)
          (s : Part000Pages.session) (d : Store.db string),
      Js.truthy (Part000.r_username body) = true ->
      Js.truthy (Part000.r_password body) = true ->
      Js.truthy (Part000.r_email body) = true ->
      Js.truthy (Part000.r_firstname body) = true ->
      Js.truthy (Part000.r_lastname body) = true ->
      Store.first_user d (Js.or_empty (Part000.r_username body)) = None ->
      Part000Pages.post_login (Part000.r_username body)
        (Part000.r_password body) s
        (store (Part000.post_register now body d))
      = Part000Pages.mkVisit
          (Some (Part000Pages.mkAccount (Store.next_userid d)
                   (Js.or_empty (Part000.r_username body))
                   (Part000.r_email body) (Part000.r_firstname body)
                   (Part000.r_lastname body)))
          (Redirect "/") [])
  /\ (forall (body : IndexJs.account_form) (name : string)
             (s : IndexJsPages.session) (d : Store.db (list string)),
         IndexJs.a_username body = Some name ->
         Store.first_user d name = None ->
         IndexJsPages.create_account body s d
         = IndexJsPages.mkVisit
             (Some (IndexJsPages.mkAccount (Store.next_userid d) name
                                           (IndexJs.a_firstname body)))
             (IndexJs.post_create_account body d))
  /\ (forall (now : Z) (body : IndexJs.account_form) (name pw : string)
             (s : IndexJsPages.session) (d : Store.db (list string)),
         IndexJs.a_username body = Some name ->
         IndexJs.a_password body = Some pw ->
         Store.first_user d name = None ->
         IndexJsPages.session_after
           (IndexJsPages.login now (Some name) (Some pw) s
              (store (IndexJs.post_create_account body d)))
         = Some (IndexJsPages.mkAccount (Store.next_userid d) name
                                        (IndexJs.a_firstname body))).
Proof.
  split; [|split].
  - intros now body s d Hn Hp He Hf Hl Hnew.
    unfold Part000.post_register. rewrite Hn, Hp, He, Hf, Hl, Hnew.
    cbn [negb orb Store.insert_user store].
    destruct (Part000.r_username body) as [name|]; [|discriminate].
    destruct (Part000.r_password body) as [pw|]; [|discriminate].
    unfold Part000Pages.post_login. cbn [Store.security Js.or_empty].
    rewrite filter_snoc_head.
    + reflexivity.
    + apply unknown_name. exact Hnew.
    + unfold Part000Pages.credentials. cbn [User.username User.passwordhash].
      rewrite !String.eqb_refl. reflexivity.
  - intros body name s d Hn Hnew.
    rewrite <- (js_create_account_reply body s d).
    unfold IndexJsPages.create_account. rewrite Hn, Hnew.
    unfold Store.first_user, Store.insert_user.
    cbn [Store.store_of Store.security].
    rewrite find_snoc. unfold Store.first_user in Hnew. rewrite Hnew.
    cbn [User.username]. rewrite String.eqb_refl. reflexivity.
  - intros now body name pw s d Hn Hp Hnew.
    unfold IndexJs.post_create_account. rewrite Hn, Hnew.
    cbn [store Store.store_of Store.insert_user].
    unfold IndexJsPages.login. cbn [Store.security].
    pose proof (unknown_name d name pw Hnew) as Hu.
    unfold Part000Pages.credentials in Hu.
    rewrite find_snoc, Hu, Hp. cbn [User.username User.passwordhash].
    rewrite !String.eqb_refl. reflexivity.
Qed.

Lemma new_account_logs_in_witness :
  IndexJsPages.create_account Scenario.carol None Store.empty
  = IndexJsPages.mkVisit
      (Some (IndexJsPages.mkAccount 1 "carol" (Some "Carol")))
      (IndexJs.post_create_account Scenario.carol Store.empty).
Proof.
  exact (proj1 (proj2 new_account_logs_in) Scenario.carol "carol" None
               Store.empty eq_refl eq_refl).
Defined.

(** ** The page that edits an idea *)

Section EditPages.
Import Js Sql Store.
Context {M : Type}.
Implicit Types (d : Store.db M) (k u : Z).

Lemma in_collaborators_on d k (c : Collaboration.row) (r : User.row) :
  In (c, r)
     (filter (fun j : Collaboration.row * User.row =>
                Collaboration.ideaid (fst j) =? k)
             (join (fun c s => Collaboration.userid c =? User.userid s)
                   (collaborations d) (security d)))
  <-> In c (collaborations d) /\ Collaboration.ideaid c = k
      /\ In r (security d) /\ User.userid r = Collaboration.userid c.
Proof.
  rewrite filter_In, in_join. cbn [fst]. rewrite !Z.eqb_eq.
  split; intros H; repeat split; try tauto; symmetry; tauto.
Qed.

Lemma collaborator_on d k (r : User.row) :
  (exists c, In (c, r)
               (filter (fun j : Collaboration.row * User.row =>
                          Collaboration.ideaid (fst j) =? k)
                       (join (fun c s => Collaboration.userid c
                                         =? User.userid s)
                             (collaborations d) (security d))))
  <-> In r (security d) /\ isCollaborator d k (User.userid r) = true.
Proof.
  rewrite isCollaborator_spec. split.
  - intros (c & Hc). apply in_collaborators_on in Hc.
    split; [tauto|]. exists c. repeat split; try tauto. symmetry. tauto.
  - intros (Hr & c & Hc & Hk & Hu). exists c.
    apply in_collaborators_on. repeat split; try assumption.
    symmetry. assumption.
Qed.

End EditPages.

Lemma canView_allowed {M : Type} (d : Store.db M) (i : Idea.row M) (u : Z) :
  negb (Store.isOwner i u) && negb (Store.isCollaborator d (Idea.ideaid i) u)
  = false ->
  Store.canView d i u = true.
Proof.
  unfold Store.canView.
  destruct (Store.isOwner i u), (Store.isCollaborator d _ u);
    try reflexivity; discriminate.
Qed.

Lemma p0_available (d : Store.db string) (i : Idea.row string)
  (r : User.row) :
  In r (Part000Pages.availableUsers_for d i
          (Part000Pages.collaborators_on d (Idea.ideaid i)))
  <-> In r (Store.security d) /\ User.userid r <> Idea.userid i
      /\ Store.isCollaborator d (Idea.ideaid i) (User.userid r) = false.
Proof.
  unfold Part000Pages.availableUsers_for.
  rewrite filter_In, andb_true_iff, !negb_true_iff, Z.eqb_neq.
  split; intros (Hr & Ho & Hc); repeat split; try assumption.
  - apply not_true_is_false. intros Hco. apply not_true_iff_false in Hc.
    apply Hc. apply existsb_exists.
    destruct (proj2 (collaborator_on d (Idea.ideaid i) r) (conj Hr Hco))
      as (c & Hin).
    exists (c, r). split; [exact Hin|]. apply Z.eqb_refl.
  - apply not_true_is_false. intros He. apply existsb_exists in He.
    destruct He as ((c & r') & Hin & He). cbn [snd] in He.
    apply Z.eqb_eq in He.
    unfold Part000Pages.collaborators_on in Hin.
    apply in_collaborators_on in Hin.
    destruct Hin as (Hcin & Hk & _ & Hu).
    assert (Hco : Store.isCollaborator d (Idea.ideaid i) (User.userid r)
                  = true).
    { apply isCollaborator_spec. exists c. repeat split; try assumption.
      congruence. }
    congruence.
Qed.

Lemma p0_edit_page
  (u : Z) (id : string) (d : Store.db string) (i : Idea.row string)
  (cs : list (Collaboration.row * User.row)) (av : list User.row)
  (o : bool) :
  Part000Pages.get_editIdea (Some u) id d = Part000Pages.EditPage i cs av o ->
  Store.first_idea d (Idea.ideaid i) = Some i
  /\ Sql.integer_in id = Some (Idea.ideaid i)
  /\ Store.canView d i u = true
  /\ o = Store.isOwner i u
  /\ (forall c r,
         In (c, r) cs
         <-> In c (Store.collaborations d)
             /\ Collaboration.ideaid c = Idea.ideaid i
             /\ In r (Store.security d)
             /\ User.userid r = Collaboration.userid c)
  /\ (forall r,
         In r av
         <-> In r (Store.security d) /\ User.userid r <> Idea.userid i
             /\ Store.isCollaborator d (Idea.ideaid i) (User.userid r)
                = false).
Proof.
  unfold Part000Pages.get_editIdea.
  destruct (Sql.integer_in id) as [k|]; [|discriminate].
  destruct (Store.first_idea d k) as [idea|] eqn:Hf; [|discriminate].
  destruct (negb (Store.isOwner idea u)
            && negb (Store.isCollaborator d k u)) eqn:Hv; [discriminate|].
  intros H. inversion H; subst; clear H.
  destruct (first_idea_some d k i Hf) as (_ & <-).
  refine (conj Hf (conj eq_refl (conj _ (conj eq_refl (conj _ _))))).
  - unfold Store.canView.
    destruct (Store.isOwner i u), (Store.isCollaborator d _ u);
      try reflexivity; discriminate.
  - intros c r. apply in_collaborators_on.
  - intros r. apply p0_available.
Qed.

(** The page of [/editIdea/:id] is shown to the owner and the
    collaborators of the idea only.  Its collaborators are the users
    with a collaboration on the idea, and the users it offers to add
    are the users who are neither the owner nor one of these. *)
Theorem editIdea_page_lists_the_right_users
  (u : Z) (id : string) (d : Store.db string) (i : Idea.row string)
  (cs : list (Collaboration.row * User.row)) (av : list User.row)
  (o : bool) :
  Part000Pages.get_editIdea (Some u) id d = Part000Pages.EditPage i cs av o ->
  Store.first_idea d (Idea.ideaid i) = Some i
  /\ Sql.integer_in id = Some (Idea.ideaid i)
  /\ Store.canView d i u = true
  /\ o = Store.isOwner i u
  /\ (forall c r,
         In (c, r) cs
         <-> In c (Store.collaborations d)
             /\ Collaboration.ideaid c = Idea.ideaid i
             /\ In r (Store.security d)
             /\ User.userid r = Collaboration.userid c)
  /\ (forall r,
         In r av
         <-> In r (Store.security d) /\ User.userid r <> Idea.userid i
             /\ Store.isCollaborator d (Idea.ideaid i) (User.userid r)
                = false).
Proof.
  unfold Part000Pages.get_editIdea.
  destruct (Sql.integer_in id) as [k|]; [|discriminate].
  destruct (Store.first_idea d k) as [idea|] eqn:Hf; [|discriminate].
  destruct (negb (Store.isOwner idea u)
            && negb (Store.isCollaborator d k u)) eqn:Hv; [discriminate|].
  intros H. inversion H; subst; clear H.
  destruct (first_idea_some d k i Hf) as (_ & <-).
  split; [exact Hf|]. split; [reflexivity|].
  split; [apply (canView_allowed d i u Hv)|]. split; [reflexivity|].
  split; [intros c r; apply in_collaborators_on | intros r; apply p0_available].
Qed.

Lemma editIdea_page_lists_the_right_users_witness :
  Store.canView Scenario.shared Scenario.laundromat_row 2 = true.
Proof.
  assert (H : Part000Pages.get_editIdea (Some 2) "1" Scenario.shared
              = Part000Pages.EditPage Scenario.laundromat_row
                  [(Collaboration.mk 1 1 2,
                    User.mk 2 "bob" (Some "pw2") (Some "b@x.org")
                            (Some "Bob") (Some "B") (Some 11) None (Some 0))]
                  [] false)
    by (vm_compute; reflexivity).
  exact (proj1 (proj2 (proj2
           (editIdea_page_lists_the_right_users 2 "1" Scenario.shared
              _ _ _ _ H)))).
Defined.

(** [index.js]: who is on the page of [/edit-idea/:id]. *)
Lemma js_edit_page
  (u : Z) (id : string) (d : Store.db (list string))
  (i : Idea.row (list string)) (o : bool) (cs all : list User.row) :
  IndexJsPages.get_edit_idea (Some u) id d
  = IndexJsPages.EditPage i o cs all ->
  Store.first_idea d (Idea.ideaid i) = Some i
  /\ Sql.integer_in id = Some (Idea.ideaid i)
  /\ Store.canView d i u = true
  /\ o = Store.isOwner i u
  /\ (forall r,
         In r cs
         <-> In r (Store.security d)
             /\ Store.isCollaborator d (Idea.ideaid i) (User.userid r)
                = true)
  /\ (forall r,
         In r all
         <-> In r (Store.security d) /\ User.userid r <> Idea.userid i).
Proof.
  unfold IndexJsPages.get_edit_idea.
  destruct (IndexJs.requireAuth (Some u)) as [u'|] eqn:Hu; [|discriminate].
  assert (u' = u).
  { unfold IndexJs.requireAuth in Hu.
    destruct (u =? 0); [discriminate | congruence]. }
  subst u'.
  destruct (Sql.integer_in id) as [k|]; [|discriminate].
  destruct (Store.first_idea d k) as [idea|] eqn:Hf; [|discriminate].
  destruct (negb (Store.isOwner idea u)
            && negb (Store.isCollaborator d k u)) eqn:Hv; [discriminate|].
  intros H. inversion H; subst; clear H.
  destruct (first_idea_some d k i Hf) as (_ & <-).
  refine (conj Hf (conj eq_refl (conj _ (conj eq_refl (conj _ _))))).
  - unfold Store.canView.
    destruct (Store.isOwner i u), (Store.isCollaborator d _ u);
      try reflexivity; discriminate.
  - intros r. rewrite <- collaborator_on, in_map_iff. split.
    + intros ((c & r') & <- & Hin). exists c. exact Hin.
    + intros (c & Hin). exists (c, r). split; [reflexivity | exact Hin].
  - intros r. rewrite filter_In, negb_true_iff, Z.eqb_neq. reflexivity.
Qed.

(** The page of [/edit-idea/:id] is shown to the owner and the
    collaborators of the idea only.  Its collaborators are the users
    with a collaboration on the idea; the users it offers to add are
    all the users but the owner, the collaborators among them. *)
Theorem edit_idea_page_offers_all_but_the_owner
  (u : Z) (id : string) (d : Store.db (list string))
  (i : Idea.row (list string)) (o : bool) (cs all : list User.row) :
  IndexJsPages.get_edit_idea (Some u) id d
  = IndexJsPages.EditPage i o cs all ->
  Store.canView d i u = true
  /\ o = Store.isOwner i u
  /\ (forall r,
         In r cs
         <-> In r (Store.security d)
             /\ Store.isCollaborator d (Idea.ideaid i) (User.userid r)
                = true)
  /\ (forall r,
         In r all
         <-> In r (Store.security d) /\ User.userid r <> Idea.userid i)
  /\ (forall r, In r cs -> User.userid r <> Idea.userid i -> In r all).
Proof.
  intros H.
  destruct (js_edit_page u id d i o cs all H)
    as (_ & _ & Hv & Ho & Hcs & Hall).
  refine (conj Hv (conj Ho (conj Hcs (conj Hall _)))).
  intros r Hr Hne. apply Hall. apply Hcs in Hr. tauto.
Qed.

Lemma edit_idea_page_offers_all_but_the_owner_witness :
  In (User.mk 2 "dave" (Some "pw4") (Some "d@x.org") (Some "Dave")
              (Some "D") None None None)
     [User.mk 2 "dave" (Some "pw4") (Some "d@x.org") (Some "Dave")
              (Some "D") None None None].
Proof.
  assert (H : IndexJsPages.get_edit_idea (Some 1) "1" Scenario.shared_js
              = IndexJsPages.EditPage Scenario.bakery_row true
                  [User.mk 2 "dave" (Some "pw4") (Some "d@x.org")
                           (Some "Dave") (Some "D") None None None]
                  [User.mk 2 "dave" (Some "pw4") (Some "d@x.org")
                           (Some "Dave") (Some "D") None None None])
    by (vm_compute; reflexivity).
  apply (proj2 (proj2 (proj2 (proj2
           (edit_idea_page_offers_all_but_the_owner 1 "1" Scenario.shared_js
              _ _ _ _ H))))).
  - left. reflexivity.
  - vm_compute. discriminate.
Defined.

Lemma isCollaborator_appended {M : Type} (d : Store.db M) (k t n x : Z) :
  Store.isCollaborator
    (Store.mk (Store.security d) (Store.idea_details d)
              (Store.collaborations d ++ [Collaboration.mk n k t])
              (Store.next_userid d) (Store.next_ideaid d)
              (Store.next_collaborationid d + 1)) k x
  = Store.isCollaborator d k x || (t =? x).
Proof.
  unfold Store.isCollaborator, Store.first_collaboration.
  cbn [Store.collaborations]. rewrite find_snoc.
  destruct (find _ (Store.collaborations d)); [reflexivity|].
  unfold Store.is_pair. cbn [Collaboration.ideaid Collaboration.userid].
  rewrite Z.eqb_refl. destruct (t =? x); reflexivity.
Qed.

(** When the owner adds a user the page offers, the user moves from
    the users offered to the collaborators of the page, and nothing
    else on the page changes. *)
Theorem offered_user_becomes_collaborator
  (u : Z) (id c : string) (d : Store.db string) (i : Idea.row string)
  (cs : list (Collaboration.row * User.row)) (av : list User.row)
  (r : User.row) :
  Part000Pages.get_editIdea (Some u) id d
  = Part000Pages.EditPage i cs av true ->
  In r av ->
  Sql.integer_in c = Some (User.userid r) ->
  exists cs' av',
    Part000Pages.get_editIdea (Some u) id
      (store (Part000.post_addCollaborator (Some u) id (Some c) d))
    = Part000Pages.EditPage i cs' av' true
    /\ (forall x r',
           In (x, r') cs'
           <-> In (x, r') cs
               \/ (x = Collaboration.mk (Store.next_collaborationid d)
                                        (Idea.ideaid i) (User.userid r)
                   /\ In r' (Store.security d)
                   /\ User.userid r' = User.userid r))
    /\ (forall r',
           In r' av' <-> In r' av /\ User.userid r' <> User.userid r).
Proof.
  intros Hpage Hr Hc.
  destruct (p0_edit_page u id d i cs av true Hpage)
    as (Hf & Hid & _ & Ho & Hcs & Hav).
  symmetry in Ho.
  destruct (proj1 (Hav r) Hr) as (Hsec & Hne & Hnc).
  assert (Hp : Store.first_collaboration d (Idea.ideaid i) (User.userid r)
               = None).
  { unfold Store.isCollaborator in Hnc.
    destruct (Store.first_collaboration _ _ _); [discriminate|reflexivity]. }
  assert (Ht : Store.has_user d (User.userid r) = true).
  { apply has_user_spec. exists r. tauto. }
  rewrite (p0_add_new u id _ i c _ d Hid Hf Ho Hc Ht Hp). cbn [store].
  set (d' := Store.mk _ _ _ _ _ _).
  assert (Hf' : Store.first_idea d' (Idea.ideaid i) = Some i) by exact Hf.
  unfold Part000Pages.get_editIdea. rewrite Hid, Hf', Ho. cbn [negb andb].
  eexists. eexists. split; [reflexivity|]. split.
  - intros x r'. unfold Part000Pages.collaborators_on.
    rewrite in_collaborators_on, Hcs. unfold d'.
    cbn [Store.collaborations Store.security]. rewrite in_app_iff.
    split.
    + intros ([Hx|[<-|[]]] & Hk & Hr' & Hu); [left; tauto|].
      right. cbn [Collaboration.userid] in Hu. tauto.
    + intros [(Hx & Hk & Hr' & Hu)|(-> & Hr' & Hu)].
      * tauto.
      * cbn [Collaboration.ideaid Collaboration.userid].
        repeat split; try assumption. right. left. reflexivity.
  - intros r'. rewrite p0_available, Hav. unfold d'.
    rewrite isCollaborator_appended. cbn [Store.security].
    rewrite orb_false_iff, Z.eqb_neq.
    split; intros H; repeat split; try tauto.
    + intros He. destruct H as (_ & _ & _ & Hn). apply Hn. congruence.
    + intros He. destruct H as (_ & Hn). apply Hn. congruence.
Qed.

Lemma offered_user_becomes_collaborator_witness :
  exists cs' av',
    Part000Pages.get_editIdea (Some 1) "2"
      (store (Part000.post_addCollaborator (Some 1) "2" (Some "2")
                                           Scenario.shared))
    = Part000Pages.EditPage Scenario.kiosk_row cs' av' true
    /\ (forall x r',
           In (x, r') cs'
           <-> In (x, r') []
               \/ (x = Collaboration.mk
                         (Store.next_collaborationid Scenario.shared)
                         (Idea.ideaid Scenario.kiosk_row)
                         (User.userid
                            (User.mk 2 "bob" (Some "pw2") (Some "b@x.org")
                                     (Some "Bob") (Some "B") (Some 11) None
                                     (Some 0)))
                   /\ In r' (Store.security Scenario.shared)
                   /\ User.userid r'
                      = User.userid
                          (User.mk 2 "bob" (Some "pw2") (Some "b@x.org")
                                   (Some "Bob") (Some "B") (Some 11) None
                                   (Some 0))))
    /\ (forall r',
           In r' av'
           <-> In r' [User.mk 2 "bob" (Some "pw2") (Some "b@x.org")
                              (Some "Bob") (Some "B") (Some 11) None
                              (Some 0)]
               /\ User.userid r'
                  <> User.userid
                       (User.mk 2 "bob" (Some "pw2") (Some "b@x.org")
                                (Some "Bob") (Some "B") (Some 11) None
                                (Some 0))).
Proof.
  assert (H : Part000Pages.get_editIdea (Some 1) "2" Scenario.shared
              = Part000Pages.EditPage Scenario.kiosk_row []
                  [User.mk 2 "bob" (Some "pw2") (Some "b@x.org")
                           (Some "Bob") (Some "B") (Some 11) None (Some 0)]
                  true)
    by (vm_compute; reflexivity).
  apply (offered_user_becomes_collaborator 1 "2" "2" Scenario.shared
           Scenario.kiosk_row _ _ _ H).
  - left. reflexivity.
  - reflexivity.
Defined.

(** ** Who can change or delete an idea *)

Section IdeaSteps.
Import Js Sql Store.

Lemma canView_checked {M : Type} (d : Store.db M) k i u :
  first_idea d k = Some i ->
  negb (isOwner i u) && negb (isCollaborator d k u) = false ->
  canView d i u = true.
Proof.
  intros Hf Hv. destruct (first_idea_some d k i Hf) as (_ & <-).
  unfold canView.
  destruct (isOwner i u), (isCollaborator d _ u);
    try reflexivity; discriminate.
Qed.

Lemma p0_ideas_step (fk : fk_action) (r : Part000.request)
  (d : Store.db string) :
  ideas_step (Part000.requester r) d (store (Part000.handle fk r d)).
Proof.
  destruct r as [now body|now session body|session id body|session id
                 |session id c|session cid|session id];
    cbn [Part000.handle Part000.requester].
  - left. unfold Part000.post_register, insert_user. by_cases; reflexivity.
  - unfold Part000.post_addIdea, Part000.login_page, insert_idea.
    destruct session as [u|]; [|left; reflexivity].
    destruct (_ || _); [left; reflexivity|].
    destruct (Part000.potential_of _) as [p|]; [|left; reflexivity].
    destruct (has_user d _); [|left; reflexivity].
    right. left. eexists. reflexivity.
  - unfold Part000.post_editIdea, Part000.login_page.
    destruct session as [u|]; [|left; reflexivity].
    destruct (_ || _); [left; reflexivity|].
    destruct (integer_in id) as [k|]; [|left; reflexivity].
    destruct (first_idea d k) as [i|] eqn:Hf; [|left; reflexivity].
    destruct (negb (isOwner i u) && negb (isCollaborator d k u)) eqn:Hv;
      [left; reflexivity|].
    destruct (Part000.potential_of _) as [p|]; [|left; reflexivity].
    right. right. left.
    exists u, k, i, (Part000.updatedIdea body p).
    repeat split; try assumption; try reflexivity.
    apply (canView_checked d k); assumption.
  - unfold Part000.post_deleteIdea, Part000.login_page.
    destruct session as [u|]; [|left; reflexivity].
    destruct (integer_in id) as [k|]; [|left; reflexivity].
    destruct (first_idea d k) as [i|] eqn:Hf; [|left; reflexivity].
    destruct (isOwner i u) eqn:Ho; cbn [negb]; [|left; reflexivity].
    assert (Hk : has_idea d k = true)
      by (rewrite has_idea_first, Hf; reflexivity).
    unfold Part000.store_of_first_delete.
    rewrite (delete_in_two_steps fk d k Hk).
    right. right. right. exists u, k, i. repeat split; assumption.
  - left. unfold Part000.post_addCollaborator, Part000.login_page,
      insert_collaboration.
    by_cases; reflexivity.
  - left. unfold Part000.post_removeCollaborator, Part000.login_page.
    by_cases; reflexivity.
  - left. unfold Part000.post_leaveCollaboration, Part000.login_page.
    by_cases; reflexivity.
Qed.

Lemma js_ideas_step (fk : fk_action) (r : IndexJs.request)
  (d : Store.db (list string)) :
  ideas_step (IndexJs.requireAuth (IndexJs.requester r)) d
             (store (IndexJs.handle fk r d)).
Proof.
  destruct r as [body|now name pw|now session body|now session id body
                 |session id|session id c|session i t];
    cbn [IndexJs.handle IndexJs.requester].
  - left. unfold IndexJs.post_create_account, insert_user.
    by_cases; reflexivity.
  - left. unfold IndexJs.post_login, update_user.
    destruct name; [|reflexivity]. destruct pw; [|reflexivity].
    destruct (find _ _); reflexivity.
  - unfold IndexJs.post_add_idea, IndexJs.to_login, insert_idea.
    destruct (IndexJs.requireAuth session) as [u|]; [|left; reflexivity].
    destruct (IndexJs.ideaname body); [|left; reflexivity].
    destruct (IndexJs.ideadescription body); [|left; reflexivity].
    destruct (IndexJs.bind numeric_in _); [|left; reflexivity].
    destruct (IndexJs.bind integer_in _); [|left; reflexivity].
    destruct (has_user d _); [|left; reflexivity].
    right. left. eexists. reflexivity.
  - unfold IndexJs.post_edit_idea, IndexJs.to_login.
    destruct (IndexJs.requireAuth session) as [u|]; [|left; reflexivity].
    destruct (integer_in id) as [k|]; [|left; reflexivity].
    destruct (first_idea d k) as [i|] eqn:Hf; [|left; reflexivity].
    destruct (negb (isOwner i u) && negb (isCollaborator d k u)) eqn:Hv;
      [left; reflexivity|].
    destruct (IndexJs.bind numeric_in _) as [cost|]; [|left; reflexivity].
    destruct (IndexJs.bind integer_in _) as [p|]; [|left; reflexivity].
    right. right. left.
    exists u, k, i, (IndexJs.updated now body cost p).
    repeat split; try assumption; try reflexivity.
    apply (canView_checked d k); assumption.
  - unfold IndexJs.post_delete_idea, IndexJs.to_login.
    destruct (IndexJs.requireAuth session) as [u|]; [|left; reflexivity].
    destruct (integer_in id) as [k|]; [|left; reflexivity].
    destruct (first_idea d k) as [i|] eqn:Hf; [|left; reflexivity].
    destruct (isOwner i u) eqn:Ho; [|left; reflexivity].
    unfold delete_idea.
    destruct fk; [|destruct (_ && _); [left; reflexivity|]];
      right; right; right; exists u, k, i; repeat split; assumption.
  - left. unfold IndexJs.post_add_collaborator, IndexJs.to_login,
      insert_collaboration.
    by_cases; reflexivity.
  - left. unfold IndexJs.post_remove_collaborator, IndexJs.to_login.
    by_cases; reflexivity.
Qed.

Context {M : Type}.
Implicit Types (d : Store.db M).

(** A row the requester may not view stays as it is. *)
Lemma step_keeps_unviewable who d d' (i : Idea.row M) :
  Consistent d -> ideas_step who d d' ->
  In i (idea_details d) ->
  (forall u, who = Some u -> canView d i u = false) ->
  In i (idea_details d').
Proof.
  intros Hc Hstep Hi Hno.
  destruct Hstep as [->|[(row & ->)|[(u & k & i0 & f & Hw & Hf & Hv & _ & ->)
                                    |(u & k & i0 & Hw & Hf & Ho & ->)]]].
  - assumption.
  - apply in_or_app. left. assumption.
  - destruct (first_idea_some d k i0 Hf) as (Hi0 & Hk).
    apply in_map_iff. exists i. split; [|assumption].
    destruct (Idea.ideaid i =? k) eqn:He; [|reflexivity].
    apply Z.eqb_eq in He.
    assert (i = i0) by (apply (idea_by_id d); [assumption.. | congruence]).
    subst i0. rewrite (Hno u Hw) in Hv. discriminate.
  - destruct (first_idea_some d k i0 Hf) as (Hi0 & Hk).
    apply filter_In. split; [assumption|].
    apply negb_true_iff, Z.eqb_neq. intros He.
    assert (i = i0) by (apply (idea_by_id d); [assumption.. | congruence]).
    subst i0. pose proof (Hno u Hw) as Hv. unfold canView in Hv.
    rewrite Ho in Hv. discriminate.
Qed.

(** An idea the requester does not own stays, with its owner. *)
Lemma step_keeps_unowned who d d' (i : Idea.row M) :
  Consistent d -> ideas_step who d d' ->
  In i (idea_details d) ->
  (forall u, who = Some u -> isOwner i u = false) ->
  exists i', In i' (idea_details d')
             /\ Idea.ideaid i' = Idea.ideaid i
             /\ Idea.userid i' = Idea.userid i.
Proof.
  intros Hc Hstep Hi Hno.
  destruct Hstep as [->|[(row & ->)|[(u & k & i0 & f & Hw & Hf & Hv & Hkeep
                                      & ->)
                                    |(u & k & i0 & Hw & Hf & Ho & ->)]]].
  - exists i. tauto.
  - exists i. split; [apply in_or_app; left; assumption | tauto].
  - exists (if Idea.ideaid i =? k then f i else i). split.
    + apply in_map_iff. exists i. tauto.
    + destruct (Idea.ideaid i =? k); [apply Hkeep | tauto].
  - destruct (first_idea_some d k i0 Hf) as (Hi0 & Hk).
    exists i. split; [|tauto].
    apply filter_In. split; [assumption|].
    apply negb_true_iff, Z.eqb_neq. intros He.
    assert (i = i0) by (apply (idea_by_id d); [assumption.. | congruence]).
    subst i0. rewrite (Hno u Hw) in Ho. discriminate.
Qed.

End IdeaSteps.

Lemma js_requester_authenticated (r : IndexJs.request) (u : Z) :
  IndexJs.requireAuth (IndexJs.requester r) = Some u ->
  IndexJs.requester r = Some u.
Proof.
  unfold IndexJs.requireAuth. destruct (IndexJs.requester r) as [v|];
    [|discriminate].
  destruct (v =? 0); [discriminate | tauto].
Qed.

(** No request changes or deletes the row of an idea that the user
    who sends it may not view. *)
Theorem strangers_leave_an_idea_as_it_is :
  (forall (fk : fk_action) (r : Part000.request) (d : Store.db string)
          (i : Idea.row string),
      Store.Consistent d ->
      In i (Store.idea_details d) ->
      (forall u, Part000.requester r = Some u ->
                 Store.canView d i u = false) ->
      In i (Store.idea_details (store (Part000.handle fk r d))))
  /\ (forall (fk : fk_action) (r : IndexJs.request)
             (d : Store.db (list string)) (i : Idea.row (list string)),
         Store.Consistent d ->
         In i (Store.idea_details d) ->
         (forall u, IndexJs.requester r = Some u ->
                    Store.canView d i u = false) ->
         In i (Store.idea_details (store (IndexJs.handle fk r d)))).
Proof.
  split; intros fk r d i Hc Hi Hno.
  - apply (step_keeps_unviewable (Part000.requester r) d);
      [assumption | apply p0_ideas_step | assumption | assumption].
  - apply (step_keeps_unviewable
             (IndexJs.requireAuth (IndexJs.requester r)) d);
      [assumption | apply js_ideas_step | assumption |].
    intros u Hu. apply Hno, js_requester_authenticated, Hu.
Qed.

Lemma strangers_leave_an_idea_as_it_is_witness :
  In Scenario.kiosk_row
     (Store.idea_details
        (store (Part000.handle Restrict
                  (Part000.EditIdea (Some 2) "2" Scenario.cafe)
                  Scenario.shared))).
Proof.
  assert (Hc : Store.Consistent Scenario.shared)
    by (apply consistent_spec; vm_compute; reflexivity).
  apply (proj1 strangers_leave_an_idea_as_it_is Restrict
               (Part000.EditIdea (Some 2) "2" Scenario.cafe)
               Scenario.shared Scenario.kiosk_row Hc).
  - vm_compute. right. left. reflexivity.
  - intros u Hu. inversion Hu. vm_compute. reflexivity.
Defined.

(** No request deletes an idea, or gives it another owner, unless the
    owner of the idea sends it. *)
Theorem only_the_owner_deletes_an_idea :
  (forall (fk : fk_action) (r : Part000.request) (d : Store.db string)
          (i : Idea.row string),
      Store.Consistent d ->
      In i (Store.idea_details d) ->
      (forall u, Part000.requester r = Some u ->
                 Store.isOwner i u = false) ->
      exists i',
        In i' (Store.idea_details (store (Part000.handle fk r d)))
        /\ Idea.ideaid i' = Idea.ideaid i
        /\ Idea.userid i' = Idea.userid i)
  /\ (forall (fk : fk_action) (r : IndexJs.request)
             (d : Store.db (list string)) (i : Idea.row (list string)),
         Store.Consistent d ->
         In i (Store.idea_details d) ->
         (forall u, IndexJs.requester r = Some u ->
                    Store.isOwner i u = false) ->
         exists i',
           In i' (Store.idea_details (store (IndexJs.handle fk r d)))
           /\ Idea.ideaid i' = Idea.ideaid i
           /\ Idea.userid i' = Idea.userid i).
Proof.
  split; intros fk r d i Hc Hi Hno.
  - apply (step_keeps_unowned (Part000.requester r) d);
      [assumption | apply p0_ideas_step | assumption | assumption].
  - apply (step_keeps_unowned
             (IndexJs.requireAuth (IndexJs.requester r)) d);
      [assumption | apply js_ideas_step | assumption |].
    intros u Hu. apply Hno, js_requester_authenticated, Hu.
Qed.

Lemma only_the_owner_deletes_an_idea_witness :
  exists i',
    In i' (Store.idea_details
             (store (IndexJs.handle Cascade
                       (IndexJs.DeleteIdea (Some 2) "1")
                       Scenario.shared_js)))
    /\ Idea.ideaid i' = Idea.ideaid Scenario.bakery_row
    /\ Idea.userid i' = Idea.userid Scenario.bakery_row.
Proof.
  assert (Hc : Store.Consistent Scenario.shared_js)
    by (apply consistent_spec; vm_compute; reflexivity).
  apply (proj2 only_the_owner_deletes_an_idea Cascade
               (IndexJs.DeleteIdea (Some 2) "1")
               Scenario.shared_js Scenario.bakery_row Hc).
  - vm_compute. left. reflexivity.
  - intros u Hu. inversion Hu. vm_compute. reflexivity.
Defined.

(** ** The users a page names *)

Lemma join_filtered {A B : Type} (on : A -> B -> bool) (p : A -> bool)
  (l : list A) (r : list B) :
  Store.join on (filter p l) r
  = filter (fun j : A * B => p (fst j)) (Store.join on l r).
Proof.
  unfold Store.join.
  induction l as [|a l IH]; simpl; [reflexivity|].
  rewrite filter_app, <- IH.
  destruct (p a) eqn:Hp; simpl.
  - f_equal. symmetry.
    induction (filter (on a) r) as [|b bs IHb]; simpl; [reflexivity|].
    rewrite Hp, IHb. reflexivity.
  - assert (He : filter (fun j : A * B => p (fst j))
                        (map (pair a) (filter (on a) r)) = []).
    { induction (filter (on a) r) as [|b bs IHb]; simpl; [reflexivity|].
      rewrite Hp. exact IHb. }
    rewrite He. reflexivity.
Qed.

Lemma owner_joined {M : Type} (d : Store.db M) (i : Idea.row M)
  (o : option User.row) :
  Store.Consistent d -> In i (Store.idea_details d) ->
  match o with
  | Some r => In r (Store.security d) /\ User.userid r = Idea.userid i
  | None => forall r, In r (Store.security d) ->
                      User.userid r <> Idea.userid i
  end ->
  exists r, o = Some r /\ In r (Store.security d)
            /\ User.userid r = Idea.userid i.
Proof.
  intros Hc Hi Ho. destruct o as [r|].
  - exists r. tauto.
  - exfalso. pose proof (Store.owner_exists _ Hc i Hi) as Hu.
    apply has_user_spec in Hu. destruct Hu as (r & Hr & He).
    exact (Ho r Hr He).
Qed.

(** In a store that meets the constraints of the schema, every entry
    of a listing names the owner of its idea.  An entry of [/ideas]
    carries the collaborators that the page of [/editIdea] shows for
    the idea, each as often, in whatever order the two statements give
    them: the users with a collaboration on it. *)
Theorem listing_names_owner_and_collaborators :
  (forall (u : Z) (s : Part000.search) (d : Store.db string)
          (x : Part000.listed),
      Store.Consistent d ->
      In x (Part000.ideas_of (Part000.get_ideas (Some u) s d)) ->
      (exists r, Part000.owner x = Some r /\ In r (Store.security d)
                 /\ User.userid r = Idea.userid (Part000.idea x))
      /\ Permutation
           (Part000.collaborators x)
           (map snd (Part000Pages.collaborators_on d
                       (Idea.ideaid (Part000.idea x))))
      /\ (forall r,
             In r (Part000.collaborators x)
             <-> In r (Store.security d)
                 /\ Store.isCollaborator d (Idea.ideaid (Part000.idea x))
                                         (User.userid r) = true))
  /\ (forall (u : Z) (s : IndexJs.search) (d : Store.db (list string))
             (x : IndexJs.listed),
         Store.Consistent d ->
         In x (IndexJs.ideas_of (IndexJs.get_view_ideas (Some u) s d)) ->
         exists r, IndexJs.creator x = Some r /\ In r (Store.security d)
                   /\ User.userid r = Idea.userid (IndexJs.idea x)).
Proof.
  split.
  - intros u s d x Hc Hx. unfold Part000.get_ideas in Hx.
    destruct (Part000.run _ d) as [rows|] eqn:Hr; [|destruct Hx].
    cbn [Part000.ideas_of] in Hx. apply in_map_iff in Hx.
    destruct Hx as (j & <- & Hj).
    cbn [Part000.idea Part000.owner Part000.collaborators].
    destruct (p0_in_rows u s d rows j Hr Hj) as (Hf & _).
    apply p0_in_from in Hf. destruct Hf as (Hi & Ho & _).
    assert (He : Part000.collaborators_of d (Idea.ideaid (Part000.j_idea j))
                 = map snd (Part000Pages.collaborators_on d
                              (Idea.ideaid (Part000.j_idea j)))).
    { unfold Part000.collaborators_of, Part000Pages.collaborators_on.
      rewrite join_filtered. reflexivity. }
    split; [|split].
    + apply (owner_joined d); assumption.
    + rewrite He. apply Permutation_refl.
    + intros r. rewrite He, <- collaborator_on, in_map_iff.
      unfold Part000Pages.collaborators_on. split.
      * intros ((c & r') & <- & Hin). exists c. exact Hin.
      * intros (c & Hin). exists (c, r). split; [reflexivity | exact Hin].
  - intros u s d x Hc Hx.
    destruct (Z.eq_dec u 0) as [->|Hu]; [destruct Hx|].
    rewrite (js_page u s d Hu) in Hx.
    destruct (Store.bound _); [|destruct Hx].
    cbn [IndexJs.ideas_of] in Hx. apply in_sort_by in Hx.
    apply in_app_iff in Hx. destruct Hx as [Hx|Hx];
      apply in_map_iff in Hx; destruct Hx as (j & <- & Hj);
      apply filter_In in Hj; destruct Hj as (Hj & _);
      cbn [IndexJs.idea IndexJs.creator].
    + apply js_in_with_creator in Hj. destruct Hj as (Hi & Ho).
      apply (owner_joined d); assumption.
    + apply js_in_shared_from in Hj. destruct Hj as (Hj & _).
      apply js_in_with_creator in Hj. destruct Hj as (Hi & Ho).
      apply (owner_joined d); assumption.
Qed.

Lemma listing_names_owner_and_collaborators_witness :
  exists r,
    IndexJs.creator (IndexJs.mkListed Scenario.bakery_row
                       (Some (User.mk 1 "carol" (Some "pw3") (Some "c@x.org")
                                      (Some "Carol") (Some "C") None None
                                      None)) false)
    = Some r
    /\ In r (Store.security Scenario.shared_js)
    /\ User.userid r
       = Idea.userid
           (IndexJs.idea
              (IndexJs.mkListed Scenario.bakery_row
                 (Some (User.mk 1 "carol" (Some "pw3") (Some "c@x.org")
                                (Some "Carol") (Some "C") None None None))
                 false)).
Proof.
  assert (Hc : Store.Consistent Scenario.shared_js)
    by (apply consistent_spec; vm_compute; reflexivity).
  apply (proj2 listing_names_owner_and_collaborators 2
               Scenario.no_search_js Scenario.shared_js _ Hc).
  vm_compute. left. reflexivity.
Defined.

(** ** The search by name *)

Section Like.
Import Js Sql.

Lemma like_percent_end (s : list ascii) : like ["%"%char] s = true.
Proof.
  induction s as [|x s IH]; [reflexivity|].
  simpl. simpl in IH. exact IH.
Qed.

Lemma like_percent (q s : list ascii) :
  like ("%"%char :: q) s = true <->
  exists a s', s = a ++ s' /\ like q s' = true.
Proof.
  induction s as [|x s IH].
  - simpl. rewrite orb_false_r. split.
    + intros H. exists [], []. tauto.
    + intros (a & s' & He & H). symmetry in He.
      apply app_eq_nil in He. destruct He as (_ & ->). exact H.
  - change (like ("%"%char :: q) (x :: s))
      with (like q (x :: s) || like ("%"%char :: q) s).
    rewrite orb_true_iff, IH. split.
    + intros [H|(a & s' & -> & H)].
      * exists [], (x :: s). tauto.
      * exists (x :: a), s'. tauto.
    + intros (a & s' & He & H). destruct a as [|y a].
      * left. simpl in He. subst s'. exact H.
      * right. inversion He; subst. exists a, s'. tauto.
Qed.

Lemma like_literal (c : ascii) (q s : list ascii) :
  literal_char c ->
  like (c :: q) s
  = match s with
    | [] => false
    | x :: s' => Ascii.eqb x c && like q s'
    end.
Proof.
  intros (H1 & H2 & H3).
  apply Ascii.eqb_neq in H1, H2, H3. simpl. rewrite H1, H2, H3.
  reflexivity.
Qed.

Lemma like_prefix (p s : list ascii) :
  Forall literal_char p ->
  like (p ++ ["%"%char]) s = true <-> exists b, s = p ++ b.
Proof.
  intros Hp. revert s. induction Hp as [|c p Hc Hp IH]; intros s.
  - cbn [app]. rewrite like_percent_end. split; [|reflexivity].
    intros _. exists s. reflexivity.
  - cbn [app]. rewrite (like_literal c _ s Hc). destruct s as [|x s].
    + split; [discriminate|]. intros (b & H). discriminate.
    + rewrite andb_true_iff, Ascii.eqb_eq, IH. split.
      * intros (-> & b & ->). exists b. reflexivity.
      * intros (b & H). inversion H; subst. split; [reflexivity|].
        exists b. reflexivity.
Qed.

Lemma lower_char_literal (c : ascii) :
  literal_char c -> literal_char (lower_char c).
Proof.
  unfold literal_char.
  destruct c as [[] [] [] [] [] [] [] []]; vm_compute;
    intros (H1 & H2 & H3); repeat split; solve [assumption | discriminate].
Qed.

Lemma list_ascii_of_string_app (a b : string) :
  list_ascii_of_string (a ++ b)
  = list_ascii_of_string a ++ list_ascii_of_string b.
Proof.
  induction a as [|c a IH]; simpl; [reflexivity|]. rewrite IH. reflexivity.
Qed.

Lemma lower_pattern (x : string) :
  lower ("%" ++ x ++ "%")%string = "%"%char :: lower x ++ ["%"%char].
Proof.
  unfold lower. rewrite !list_ascii_of_string_app, !map_app. reflexivity.
Qed.

End Like.

Lemma p0_name_only (x : string) (i : Idea.row string) :
  x <> "" ->
  Part000.matches (Part000.mkSearch (Some x) None None None None None) i
  = Sql.contains_ci (Some (Idea.ideaname i)) x.
Proof.
  intros Hx. apply truthy_text in Hx.
  unfold Part000.matches, Part000.filters.
  cbn [Part000.searchName Part000.searchMarketing Part000.searchCustomer
       Part000.minCost Part000.maxCost Part000.minPotential Js.or_empty].
  rewrite Hx. cbn -[Sql.contains_ci]. apply andb_true_r.
Qed.

Lemma js_name_only (x : string) (i : Idea.row (list string)) :
  x <> "" ->
  IndexJs.matches (IndexJs.mkSearch None None (Some x) None) i
  = Sql.contains_ci (Some (Idea.ideaname i)) x.
Proof.
  intros Hx. apply truthy_text in Hx.
  unfold IndexJs.matches, IndexJs.filters.
  cbn [IndexJs.q_marketingstrategy IndexJs.q_maxcost IndexJs.q_ideaname
       IndexJs.q_potential Js.or_empty].
  rewrite Hx. cbn -[Sql.contains_ci]. apply andb_true_r.
Qed.

Lemma contains_literal (s x : string) :
  Forall literal_char (list_ascii_of_string x) ->
  Sql.contains_ci (Some s) x = true <->
  exists a b, Sql.lower s = a ++ Sql.lower x ++ b.
Proof.
  intros Hx. unfold Sql.contains_ci. rewrite lower_pattern, like_percent.
  assert (Hl : Forall literal_char (Sql.lower x)).
  { unfold Sql.lower. apply Forall_forall. intros c Hc.
    apply in_map_iff in Hc. destruct Hc as (c0 & <- & Hc0).
    apply lower_char_literal. rewrite Forall_forall in Hx. apply Hx, Hc0. }
  split.
  - intros (a & s' & He & H). apply (like_prefix _ _ Hl) in H.
    destruct H as (b & ->). exists a, b. exact He.
  - intros (a & b & He). exists a, (Sql.lower x ++ b). split; [exact He|].
    apply (like_prefix _ _ Hl). exists b. reflexivity.
Qed.

(** A search by a name without [%], [_] and the backslash lists the
    viewable ideas whose name contains the text, letter case apart. *)
Theorem name_search_finds_substrings :
  (forall (u k : Z) (x : string) (d : Store.db string),
      x <> "" ->
      Forall literal_char (list_ascii_of_string x) ->
      (In k (Part000.ids
               (Part000.get_ideas (Some u)
                  (Part000.mkSearch (Some x) None None None None None) d))
       <-> exists i, In i (Store.idea_details d) /\ Idea.ideaid i = k
                     /\ Store.canView d i u = true
                     /\ exists a b, Sql.lower (Idea.ideaname i)
                                    = a ++ Sql.lower x ++ b))
  /\ (forall (u k : Z) (x : string) (d : Store.db (list string)),
         u <> 0 ->
         x <> "" ->
         Forall literal_char (list_ascii_of_string x) ->
         (In k (IndexJs.ids
                  (IndexJs.get_view_ideas (Some u)
                     (IndexJs.mkSearch None None (Some x) None) d))
          <-> exists i, In i (Store.idea_details d) /\ Idea.ideaid i = k
                        /\ Store.canView d i u = true
                        /\ exists a b, Sql.lower (Idea.ideaname i)
                                       = a ++ Sql.lower x ++ b)).
Proof.
  split.
  - intros u k x d Hx Hl. rewrite p0_in_ids.
    split; intros (i & Hi & Hk & Hv & Hm); exists i;
      repeat split; try assumption.
    + rewrite (p0_name_only x i Hx) in Hm.
      apply (contains_literal _ x Hl). exact Hm.
    + rewrite (p0_name_only x i Hx).
      apply (contains_literal _ x Hl). exact Hm.
  - intros u k x d Hu Hx Hl. rewrite (js_in_ids u _ d k Hu).
    split; intros (i & Hi & Hk & Hv & Hm); exists i;
      repeat split; try assumption.
    + rewrite (js_name_only x i Hx) in Hm.
      apply (contains_literal _ x Hl). exact Hm.
    + rewrite (js_name_only x i Hx).
      apply (contains_literal _ x Hl). exact Hm.
Qed.

Lemma name_search_finds_substrings_witness :
  In 1 (Part000.ids
          (Part000.get_ideas (Some 2)
             (Part000.mkSearch (Some "LAUND") None None None None None)
             Scenario.shared)).
Proof.
  assert (Hx : "LAUND"%string <> ""%string) by discriminate.
  assert (Hl : Forall literal_char (list_ascii_of_string "LAUND")).
  { repeat constructor; discriminate. }
  apply (proj1 name_search_finds_substrings 2 1 "LAUND" Scenario.shared
               Hx Hl).
  exists Scenario.laundromat_row.
  split; [vm_compute; left; reflexivity|].
  split; [reflexivity|]. split; [vm_compute; reflexivity|].
  exists [], (Sql.lower "romat"). vm_compute. reflexivity.
Defined.

(** The wild cards of LIKE stay wild cards in a search by name: [%]
    alone lists what no search lists, and [_] alone the ideas of a
    name that is not empty. *)
Theorem name_search_keeps_wild_cards :
  (forall (u k : Z) (d : Store.db string),
      In k (Part000.ids
              (Part000.get_ideas (Some u)
                 (Part000.mkSearch (Some "%") None None None None None) d))
      <-> In k (Part000.ids
                  (Part000.get_ideas (Some u)
                     (Part000.mkSearch None None None None None None) d)))
  /\ (forall (u k : Z) (d : Store.db string),
         In k (Part000.ids
                 (Part000.get_ideas (Some u)
                    (Part000.mkSearch (Some "_") None None None None None)
                    d))
         <-> exists i, In i (Store.idea_details d) /\ Idea.ideaid i = k
                       /\ Store.canView d i u = true
                       /\ Idea.ideaname i <> "")
  /\ (forall (u k : Z) (d : Store.db (list string)),
         In k (IndexJs.ids
                 (IndexJs.get_view_ideas (Some u)
                    (IndexJs.mkSearch None None (Some "%") None) d))
         <-> In k (IndexJs.ids
                     (IndexJs.get_view_ideas (Some u)
                        (IndexJs.mkSearch None None None None) d))).
Proof.
  assert (Hp : "%"%string <> ""%string) by discriminate.
  assert (Hu_ : "_"%string <> ""%string) by discriminate.
  assert (Hall : forall s, Sql.contains_ci (Some s) "%" = true).
  { intros s. unfold Sql.contains_ci.
    change (Sql.lower ("%" ++ "%" ++ "%"))
      with ("%"%char :: "%"%char :: ["%"%char]).
    apply like_percent. exists [], (Sql.lower s). split; [reflexivity|].
    apply like_percent. exists [], (Sql.lower s). split; [reflexivity|].
    apply like_percent_end. }
  assert (Hone : forall s, Sql.contains_ci (Some s) "_" = true <-> s <> "").
  { intros s. unfold Sql.contains_ci.
    change (Sql.lower ("%" ++ "_" ++ "%"))
      with ("%"%char :: "_"%char :: ["%"%char]).
    rewrite like_percent. split.
    - intros (a & s' & He & H) ->. destruct a; [|discriminate].
      simpl in He. subst s'. discriminate.
    - intros Hs. destruct s as [|c s]; [contradiction|].
      exists [], (Sql.lower (String c s)). split; [reflexivity|].
      change (Sql.like ["%"%char] (Sql.lower s) = true).
      apply like_percent_end. }
  split; [|split].
  - intros u k d. rewrite !p0_in_ids.
    split; intros (i & Hi & Hk & Hv & Hm); exists i;
      repeat split; try assumption.
    rewrite (p0_name_only "%" i Hp). apply Hall.
  - intros u k d. rewrite !p0_in_ids.
    split; intros (i & Hi & Hk & Hv & Hm); exists i;
      repeat split; try assumption.
    + rewrite (p0_name_only "_" i Hu_) in Hm. apply Hone. exact Hm.
    + rewrite (p0_name_only "_" i Hu_). apply Hone. exact Hm.
  - intros u k d.
    destruct (Z.eq_dec u 0) as [->|Hu]; [reflexivity|].
    rewrite !(js_in_ids u _ d k Hu).
    split; intros (i & Hi & Hk & Hv & Hm); exists i;
      repeat split; try assumption.
    rewrite (js_name_only "%" i Hp). apply Hall.
Qed.

(** ** The ids written into the addresses of redirects *)

Section RoundTrip.
Import Js Sql.

Lemma digits_of_uint_acc (d : Decimal.uint) (p : positive) (n : Z) :
  digits 10 (list_ascii_of_string (NilEmpty.string_of_uint d)) (Z.pos p) n
  = (Z.pos (Pos.of_uint_acc d p), n + Z.of_nat (Decimal.nb_digits d), []).
Proof.
  revert p n. induction d; intros p n; cbn [Pos.of_uint_acc];
    cbn [NilEmpty.string_of_uint list_ascii_of_string digits Decimal.nb_digits];
    [rewrite Z.add_0_r; reflexivity|..];
    (change (digit 10 _) with (Some 0) || change (digit 10 _) with (Some 1)
     || change (digit 10 _) with (Some 2) || change (digit 10 _) with (Some 3)
     || change (digit 10 _) with (Some 4) || change (digit 10 _) with (Some 5)
     || change (digit 10 _) with (Some 6) || change (digit 10 _) with (Some 7)
     || change (digit 10 _) with (Some 8) || change (digit 10 _) with (Some 9));
    cbv iota beta;
    match goal with
    | |- digits 10 _ ?a _ = (Z.pos (Pos.of_uint_acc _ ?q), _, _) =>
      replace a with (Z.pos q) by lia
    end;
    rewrite IHd; f_equal; f_equal; lia.
Qed.

Lemma digits_of_uint (d : Decimal.uint) (n : Z) :
  digits 10 (list_ascii_of_string (NilEmpty.string_of_uint d)) 0 n
  = (Z.of_uint d, n + Z.of_nat (Decimal.nb_digits d), []).
Proof.
  revert n. unfold Z.of_uint. induction d; intros n;
    cbn [NilEmpty.string_of_uint list_ascii_of_string digits Decimal.nb_digits
         Pos.of_uint];
    [rewrite Z.add_0_r; reflexivity|..];
    (change (digit 10 _) with (Some 0) || change (digit 10 _) with (Some 1)
     || change (digit 10 _) with (Some 2) || change (digit 10 _) with (Some 3)
     || change (digit 10 _) with (Some 4) || change (digit 10 _) with (Some 5)
     || change (digit 10 _) with (Some 6) || change (digit 10 _) with (Some 7)
     || change (digit 10 _) with (Some 8) || change (digit 10 _) with (Some 9));
    cbv iota beta.
  - change (0 * 10 + 0) with 0. rewrite IHd. f_equal. f_equal. lia.
  - change (0 * 10 + 1) with (Z.pos 1). rewrite digits_of_uint_acc. f_equal. f_equal. lia.
  - change (0 * 10 + 2) with (Z.pos 2). rewrite digits_of_uint_acc. f_equal. f_equal. lia.
  - change (0 * 10 + 3) with (Z.pos 3). rewrite digits_of_uint_acc. f_equal. f_equal. lia.
  - change (0 * 10 + 4) with (Z.pos 4). rewrite digits_of_uint_acc. f_equal. f_equal. lia.
  - change (0 * 10 + 5) with (Z.pos 5). rewrite digits_of_uint_acc. f_equal. f_equal. lia.
  - change (0 * 10 + 6) with (Z.pos 6). rewrite digits_of_uint_acc. f_equal. f_equal. lia.
  - change (0 * 10 + 7) with (Z.pos 7). rewrite digits_of_uint_acc. f_equal. f_equal. lia.
  - change (0 * 10 + 8) with (Z.pos 8). rewrite digits_of_uint_acc. f_equal. f_equal. lia.
  - change (0 * 10 + 9) with (Z.pos 9). rewrite digits_of_uint_acc. f_equal. f_equal. lia.
Qed.


Lemma uint_headed (d : Decimal.uint) :
  d <> Decimal.Nil ->
  trim_start (list_ascii_of_string (NilEmpty.string_of_uint d))
  = list_ascii_of_string (NilEmpty.string_of_uint d)
  /\ sign (list_ascii_of_string (NilEmpty.string_of_uint d))
     = (false, list_ascii_of_string (NilEmpty.string_of_uint d))
  /\ 0 < Z.of_nat (Decimal.nb_digits d).
Proof.
  intros Hd. destruct d; [contradiction|..];
    cbn [NilEmpty.string_of_uint list_ascii_of_string Decimal.nb_digits];
    (split; [reflexivity | split; [reflexivity | lia]]).
Qed.

Lemma to_uint_nonnil (p : positive) : Pos.to_uint p <> Decimal.Nil.
Proof.
  intros H. pose proof (DecimalPos.Unsigned.of_to p) as Ho.
  rewrite H in Ho. discriminate.
Qed.

Lemma integer_in_uint (d : Decimal.uint) :
  d <> Decimal.Nil ->
  integer_in (NilEmpty.string_of_uint d) = Some (Z.of_uint d)
  /\ integer_in (String "-" (NilEmpty.string_of_uint d))
     = Some (- Z.of_uint d).
Proof.
  intros Hd. destruct (uint_headed d Hd) as (Ht & Hs & Hn).
  unfold integer_in. cbn [list_ascii_of_string].
  change (trim_start ("-"%char :: ?l)) with ("-"%char :: l).
  rewrite Ht, Hs. cbn [sign]. rewrite digits_of_uint.
  assert (He : (0 + Z.of_nat (Decimal.nb_digits d) =? 0) = false)
    by (apply Z.eqb_neq; lia).
  rewrite He. split; reflexivity.
Qed.

Lemma integer_in_string_of_Z (z : Z) : integer_in (string_of_Z z) = Some z.
Proof.
  unfold string_of_Z.
  rewrite <- (DecimalZ.of_to z) at 2.
  destruct z as [|p|p]; cbn [Z.to_int NilZero.string_of_int Z.of_int].
  - reflexivity.
  - pose proof (to_uint_nonnil p) as Hn.
    assert (He : NilZero.string_of_uint (Pos.to_uint p)
                 = NilEmpty.string_of_uint (Pos.to_uint p)).
    { destruct (Pos.to_uint p); [contradiction | reflexivity..]. }
    rewrite He. apply integer_in_uint, Hn.
  - pose proof (to_uint_nonnil p) as Hn.
    assert (He : NilZero.string_of_uint (Pos.to_uint p)
                 = NilEmpty.string_of_uint (Pos.to_uint p)).
    { destruct (Pos.to_uint p); [contradiction | reflexivity..]. }
    rewrite He. apply integer_in_uint, Hn.
Qed.

End RoundTrip.

(** After the owner has removed a collaboration, the redirect leads
    to the page of the idea, which shows the collaborators it showed
    but the one removed. *)
Theorem removal_redirects_to_the_page
  (u n : Z) (cid : string) (c : Collaboration.row) (i : Idea.row string)
  (d : Store.db string) :
  Sql.integer_in cid = Some n ->
  Store.first_collaboration_by_id d n = Some c ->
  Store.first_idea d (Collaboration.ideaid c) = Some i ->
  Store.isOwner i u = true ->
  exists id cs av,
    answer (Part000.post_removeCollaborator (Some u) cid d)
    = Redirect ("/editIdea/" ++ id)
    /\ Part000Pages.get_editIdea (Some u) id
         (store (Part000.post_removeCollaborator (Some u) cid d))
       = Part000Pages.EditPage i cs av true
    /\ (forall x r,
           In (x, r) cs
           <-> In (x, r) (Part000Pages.collaborators_on d
                            (Collaboration.ideaid c))
               /\ Collaboration.collaborationid x <> n).
Proof.
  intros Hcid Hn Hf Ho.
  unfold Part000.post_removeCollaborator. rewrite Hcid, Hn, Hf, Ho.
  cbn [negb answer store].
  set (d' := Store.store_of _).
  assert (Hf' : Store.first_idea d' (Collaboration.ideaid c) = Some i)
    by exact Hf.
  exists (string_of_Z (Collaboration.ideaid c)).
  unfold Part000Pages.get_editIdea.
  rewrite integer_in_string_of_Z, Hf', Ho. cbn [negb andb].
  eexists. eexists. split; [reflexivity|]. split; [reflexivity|].
  intros x r. unfold Part000Pages.collaborators_on.
  rewrite !in_collaborators_on. unfold d'.
  cbn [Store.store_of Store.delete_collaborations Store.collaborations
       Store.security].
  rewrite filter_In, negb_true_iff, Z.eqb_neq. tauto.
Qed.

Lemma removal_redirects_to_the_page_witness :
  exists id cs av,
    answer (Part000.post_removeCollaborator (Some 1) "1" Scenario.shared)
    = Redirect ("/editIdea/" ++ id)
    /\ Part000Pages.get_editIdea (Some 1) id
         (store (Part000.post_removeCollaborator (Some 1) "1"
                                                 Scenario.shared))
       = Part000Pages.EditPage Scenario.laundromat_row cs av true
    /\ (forall x r,
           In (x, r) cs
           <-> In (x, r) (Part000Pages.collaborators_on Scenario.shared
                            (Collaboration.ideaid (Collaboration.mk 1 1 2)))
               /\ Collaboration.collaborationid x <> 1).
Proof.
  assert (Hn : Store.first_collaboration_by_id Scenario.shared 1
               = Some (Collaboration.mk 1 1 2)) by (vm_compute; reflexivity).
  assert (Hf : Store.first_idea Scenario.shared 1
               = Some Scenario.laundromat_row) by (vm_compute; reflexivity).
  exact (removal_redirects_to_the_page 1 1 "1" _ _ Scenario.shared
           eq_refl Hn Hf eq_refl).
Defined.

(** ** Requests without a session, and requests without an answer *)

(** Without a logged-in user, a request other than a registration or a
    login is sent to the login page and leaves the store as it is. *)
Theorem unauthenticated_requests_change_nothing :
  (forall (fk : fk_action) (r : Part000.request) (d : Store.db string),
      Part000.requester r = None ->
      (forall now body, r <> Part000.Register now body) ->
      Part000.handle fk r d = Part000.login_page d)
  /\ (forall (fk : fk_action) (r : IndexJs.request)
             (d : Store.db (list string)),
         IndexJs.requireAuth (IndexJs.requester r) = None ->
         (forall body, r <> IndexJs.CreateAccount body) ->
         (forall now name pw, r <> IndexJs.LogIn now name pw) ->
         IndexJs.handle fk r d = IndexJs.to_login d).
Proof.
  split.
  - intros fk r d Hr Hreg.
    destruct r; cbn [Part000.requester] in Hr; subst;
      try reflexivity.
    exfalso. exact (Hreg _ _ eq_refl).
  - intros fk r d Hr Hc Hl.
    destruct r; cbn [IndexJs.requester] in Hr; cbn [IndexJs.handle].
    + exfalso. exact (Hc _ eq_refl).
    + exfalso. exact (Hl _ _ _ eq_refl).
    + unfold IndexJs.post_add_idea. rewrite Hr. reflexivity.
    + unfold IndexJs.post_edit_idea. rewrite Hr. reflexivity.
    + unfold IndexJs.post_delete_idea. rewrite Hr. reflexivity.
    + unfold IndexJs.post_add_collaborator. rewrite Hr. reflexivity.
    + unfold IndexJs.post_remove_collaborator. rewrite Hr. reflexivity.
Qed.

Lemma unauthenticated_requests_change_nothing_witness :
  IndexJs.handle Cascade (IndexJs.DeleteIdea (Some 0) "1") Scenario.shared_js
  = IndexJs.to_login Scenario.shared_js.
Proof.
  apply (proj2 unauthenticated_requests_change_nothing Cascade
               (IndexJs.DeleteIdea (Some 0) "1") Scenario.shared_js).
  - reflexivity.
  - intros body H. discriminate H.
  - intros now name pw H. discriminate H.
Defined.

Lemma digitless_is_no_integer (t : string) :
  Forall (fun c => Js.digit 10 c = None) (list_ascii_of_string t) ->
  Sql.integer_in t = None.
Proof.
  intros Ht.
  assert (Htrim : forall l, Forall (fun c => Js.digit 10 c = None) l ->
                            Forall (fun c => Js.digit 10 c = None)
                                   (Js.trim_start l)).
  { induction 1 as [|c l Hc Hl IH]; simpl; [constructor|].
    destruct (Js.is_space c); [exact IH | constructor; assumption]. }
  assert (Hsign : forall l, Forall (fun c => Js.digit 10 c = None) l ->
                            Forall (fun c => Js.digit 10 c = None)
                                   (snd (Js.sign l))).
  { intros l Hl. unfold Js.sign. destruct l as [|c l]; [constructor|].
    inversion Hl; subst.
    destruct (Ascii.eqb_spec c "-") as [->|_]; [assumption|].
    destruct (Ascii.eqb_spec c "+") as [->|_]; [assumption|].
    destruct c as [[] [] [] [] [] [] [] []]; simpl; first
      [assumption | constructor; assumption]. }
  unfold Sql.integer_in.
  pose proof (Hsign _ (Htrim _ Ht)) as Hcs.
  destruct (Js.sign (Js.trim_start (list_ascii_of_string t))) as [neg cs].
  cbn [snd] in Hcs.
  assert (Hd : Js.digits 10 cs 0 0 = (0, 0, cs)).
  { destruct Hcs as [|c l Hc Hl]; [reflexivity|].
    cbn [Js.digits]. rewrite Hc. reflexivity. }
  rewrite Hd. reflexivity.
Qed.

(** [index.js] answers every request.  In [part_000] the one request
    that may stay without an answer is the owner's [/addCollaborator]:
    the look-up of the existing collaboration is outside every [catch].
    Such a request leaves the store as it is; and without a user id,
    or with one that holds no digit, it is never answered. *)
Theorem requests_are_answered_but_one :
  (forall (fk : fk_action) (r : IndexJs.request)
          (d : Store.db (list string)),
      answer (IndexJs.handle fk r d) <> Unanswered)
  /\ (forall (fk : fk_action) (r : Part000.request) (d : Store.db string),
         answer (Part000.handle fk r d) = Unanswered ->
         exists u id c k i,
           r = Part000.AddCollaborator (Some u) id c
           /\ Sql.integer_in id = Some k
           /\ Store.first_idea d k = Some i
           /\ Store.isOwner i u = true
           /\ store (Part000.handle fk r d) = d)
  /\ (forall (fk : fk_action) (u k : Z) (id : string)
             (c : option string) (i : Idea.row string)
             (d : Store.db string),
         Sql.integer_in id = Some k ->
         Store.first_idea d k = Some i ->
         Store.isOwner i u = true ->
         match c with
         | Some t => Forall (fun ch => Js.digit 10 ch = None)
                            (list_ascii_of_string t)
         | None => True
         end ->
         Part000.handle fk (Part000.AddCollaborator (Some u) id c) d
         = mkReply d Unanswered []).
Proof.
  split; [|split].
  - intros fk r d. destruct r; cbn [IndexJs.handle].
    + unfold IndexJs.post_create_account. by_cases; discriminate.
    + unfold IndexJs.post_login.
      destruct username; [|discriminate]. destruct password; [|discriminate].
      destruct (find _ _); discriminate.
    + unfold IndexJs.post_add_idea, IndexJs.to_login. by_cases; discriminate.
    + unfold IndexJs.post_edit_idea, IndexJs.to_login. by_cases; discriminate.
    + unfold IndexJs.post_delete_idea, IndexJs.to_login.
      by_cases; discriminate.
    + unfold IndexJs.post_add_collaborator, IndexJs.to_login.
      by_cases; discriminate.
    + unfold IndexJs.post_remove_collaborator, IndexJs.to_login.
      by_cases; discriminate.
  - intros fk r d. destruct r as [now body|now session body|session id body
                                  |session id|session id c|session cid
                                  |session id];
      cbn [Part000.handle].
    + unfold Part000.post_register. by_cases; discriminate.
    + unfold Part000.post_addIdea, Part000.login_page. by_cases; discriminate.
    + unfold Part000.post_editIdea, Part000.login_page.
      by_cases; discriminate.
    + unfold Part000.post_deleteIdea, Part000.login_page.
      by_cases; discriminate.
    + unfold Part000.post_addCollaborator, Part000.login_page.
      destruct session as [u|]; [|discriminate].
      destruct (Sql.integer_in id) as [k|] eqn:Hid; [|discriminate].
      destruct (Store.first_idea d k) as [i|] eqn:Hf; [|discriminate].
      destruct (Store.isOwner i u) eqn:Ho; cbn [negb]; [|discriminate].
      destruct c as [t|]; cbn [option_map].
      * destruct (Sql.integer_in t) as [target|] eqn:Ht.
        -- by_cases; discriminate.
        -- intros _. exists u, id, (Some t), k, i. tauto.
      * intros _. exists u, id, None, k, i. tauto.
    + unfold Part000.post_removeCollaborator, Part000.login_page.
      by_cases; discriminate.
    + unfold Part000.post_leaveCollaboration, Part000.login_page.
      by_cases; discriminate.
  - intros fk u k id c i d Hid Hf Ho Hc. cbn [Part000.handle].
    unfold Part000.post_addCollaborator. rewrite Hid, Hf, Ho. cbn [negb].
    destruct c as [t|]; cbn [option_map];
      [rewrite (digitless_is_no_integer t Hc)|]; reflexivity.
Qed.

Lemma requests_are_answered_but_one_witness :
  Part000.handle Restrict (Part000.AddCollaborator (Some 1) "1" (Some "bob"))
                 Scenario.shared
  = mkReply Scenario.shared Unanswered [].
Proof.
  assert (Hf : Store.first_idea Scenario.shared 1
               = Some Scenario.laundromat_row) by (vm_compute; reflexivity).
  apply (proj2 (proj2 requests_are_answered_but_one) Restrict 1 1 "1"
               (Some "bob") Scenario.laundromat_row Scenario.shared
               eq_refl Hf eq_refl).
  repeat constructor.
Defined.

(** ** The ids of deleted ideas *)

(** An id that the sequence has handed out and that names no idea any
    more, its idea deleted, never names an idea again. *)
Theorem deleted_id_is_never_used_again :
  (forall (fk : fk_action) (rs : list Part000.request)
          (d : Store.db string) (k : Z),
      k < Store.next_ideaid d ->
      Store.first_idea d k = None ->
      Store.first_idea (Part000.serve fk rs d) k = None)
  /\ (forall (fk : fk_action) (rs : list IndexJs.request)
             (d : Store.db (list string)) (k : Z),
         k < Store.next_ideaid d ->
         Store.first_idea d k = None ->
         Store.first_idea (IndexJs.serve fk rs d) k = None).
Proof.
  assert (Hgen : forall (M R : Type)
                        (step : Store.db M -> R -> Store.db M),
             (forall d r, Store.change d (step d r)) ->
             forall rs d k,
               k < Store.next_ideaid d ->
               Store.first_idea d k = None ->
               Store.first_idea (fold_left step rs d) k = None).
  { intros M R step Hstep rs d k Hlt Hnone.
    apply (fold_left_invariant step
             (fun d' => k < Store.next_ideaid d'
                        /\ Store.first_idea d' k = None));
      [|split; assumption].
    intros d' r (Hlt' & Hn').
    destruct (change_keeps_owner d' (step d' r) (Hstep d' r))
      as (Hle & Hback).
    split; [lia|].
    destruct (Store.first_idea (step d' r) k) as [j|] eqn:Hj; [|reflexivity].
    destruct (Hback k j Hlt' Hj) as (i0 & Hi0 & _). congruence. }
  split; intros fk rs d k; unfold Part000.serve, IndexJs.serve;
    apply Hgen; intros d' r;
    [apply p0_handle_changes | apply js_handle_changes].
Qed.

Lemma deleted_id_is_never_used_again_witness :
  Store.first_idea
    (Part000.serve Restrict
       [Part000.AddIdea 40 (Some 2) Scenario.cafe]
       (store (Part000.post_deleteIdea Restrict (Some 1) "2"
                                       Scenario.shared))) 2
  = None.
Proof.
  apply (proj1 deleted_id_is_never_used_again); vm_compute; reflexivity.
Defined.

(** ** The time of the last login *)

(** A login of [index.js] writes the time of the login into the
    account that logs in, and leaves every other account, and every
    other column of this one, as it was. *)
Theorem login_refreshes_last_login
  (now : Z) (name pw : string) (d : Store.db (list string)) (r : User.row) :
  NoDup (map User.username (Store.security d)) ->
  NoDup (map User.userid (Store.security d)) ->
  In r (Store.security d) ->
  User.username r = name -> User.passwordhash r = Some pw ->
  Store.security (store (IndexJs.post_login now (Some name) (Some pw) d))
  = map (fun x => if User.username x =? name
                  then User.mk (User.userid x) (User.username x)
                               (User.passwordhash x) (User.email x)
                               (User.firstname x) (User.lastname x)
                               (User.accountcreated x) (Some now)
                               (User.failedattempts x)
                  else x)%string
        (Store.security d)
  /\ Store.idea_details
       (store (IndexJs.post_login now (Some name) (Some pw) d))
     = Store.idea_details d
  /\ Store.collaborations
       (store (IndexJs.post_login now (Some name) (Some pw) d))
     = Store.collaborations d.
Proof.
  intros Hnames Hids Hr Hn Hp.
  pose proof (find_credentials name pw _ r Hnames Hr Hn Hp) as Hf.
  unfold IndexJs.post_login.
  unfold Part000Pages.credentials in Hf. rewrite Hf.
  cbn [store Store.store_of Store.update_user Store.security
       Store.idea_details Store.collaborations].
  split; [|split; reflexivity].
  apply map_ext_in. intros x Hx.
  destruct (User.userid x =? User.userid r) eqn:He.
  - apply Z.eqb_eq in He.
    assert (x = r)
      by (apply (NoDup_map_inj User.userid (Store.security d)); assumption).
    subst x. rewrite Hn, String.eqb_refl. reflexivity.
  - destruct (String.eqb_spec (User.username x) name) as [Hxn|]; [|reflexivity].
    assert (x = r).
    { apply (NoDup_map_inj User.username (Store.security d));
        [assumption.. | congruence]. }
    subst x. rewrite Z.eqb_refl in He. discriminate.
Qed.

Lemma login_refreshes_last_login_witness :
  Store.security
    (store (IndexJs.post_login 50 (Some "dave") (Some "pw4")
                               Scenario.shared_js))
  = map (fun x => if User.username x =? "dave"
                  then User.mk (User.userid x) (User.username x)
                               (User.passwordhash x) (User.email x)
                               (User.firstname x) (User.lastname x)
                               (User.accountcreated x) (Some 50)
                               (User.failedattempts x)
                  else x)%string
        (Store.security Scenario.shared_js).
Proof.
  assert (Hn : NoDup (map User.username (Store.security Scenario.shared_js))).
  { vm_compute. repeat constructor; simpl; intuition discriminate. }
  assert (Hi : NoDup (map User.userid (Store.security Scenario.shared_js))).
  { vm_compute. repeat constructor; simpl; intuition discriminate. }
  assert (Hr : In (User.mk 2 "dave" (Some "pw4") (Some "d@x.org") (Some "Dave")
                           (Some "D") None None None)
                  (Store.security Scenario.shared_js)).
  { vm_compute. right. left. reflexivity. }
  exact (proj1 (login_refreshes_last_login 50 "dave" "pw4"
                  Scenario.shared_js _ Hn Hi Hr eq_refl eq_refl)).
Defined.

(** ** A new idea on the page of [/view-ideas] *)

Section Newest.
Context {A : Type} (key : A -> Z).

Lemma insert_by_greatest (x : A) (l : list A) :
  (forall y, In y l -> key y < key x) ->
  Store.insert_by (fun a b => key b - key a) x l = x :: l.
Proof.
  destruct l as [|y l]; [reflexivity|]. intros H. simpl.
  pose proof (H y (or_introl eq_refl)).
  destruct (key y - key x <=? 0) eqn:He; [reflexivity|].
  apply Z.leb_gt in He. lia.
Qed.

Lemma insert_by_after (x y : A) (l : list A) :
  key y < key x ->
  Store.insert_by (fun a b => key b - key a) y (x :: l)
  = x :: Store.insert_by (fun a b => key b - key a) y l.
Proof.
  intros H. simpl.
  destruct (key x - key y <=? 0) eqn:He; [|reflexivity].
  apply Z.leb_le in He. lia.
Qed.

(** The row of the greatest key comes first, whatever its place. *)
Lemma sort_by_greatest (x : A) (l1 l2 : list A) :
  (forall y, In y (l1 ++ l2) -> key y < key x) ->
  Store.sort_by (fun a b => key b - key a) (l1 ++ x :: l2)
  = x :: Store.sort_by (fun a b => key b - key a) (l1 ++ l2).
Proof.
  induction l1 as [|a l1 IH]; intros H.
  - cbn [app Store.sort_by fold_right].
    apply insert_by_greatest. intros y Hy. apply H.
    apply in_sort_by in Hy. exact Hy.
  - cbn [app Store.sort_by fold_right].
    fold (Store.sort_by (fun a b => key b - key a) (l1 ++ x :: l2)).
    fold (Store.sort_by (fun a b => key b - key a) (l1 ++ l2)).
    rewrite IH by (intros y Hy; apply H; right; exact Hy).
    apply insert_by_after. apply H. left. reflexivity.
Qed.

End Newest.

Lemma left_join_snoc {A B : Type} (on : A -> B -> bool) (l : list A)
  (x : A) (r : list B) :
  Store.left_join on (l ++ [x]) r
  = Store.left_join on l r ++ Store.left_join on [x] r.
Proof. unfold Store.left_join. apply flat_map_app. Qed.

Lemma join_app {A B : Type} (on : A -> B -> bool) (l1 l2 : list A)
  (r : list B) :
  Store.join on (l1 ++ l2) r = Store.join on l1 r ++ Store.join on l2 r.
Proof. unfold Store.join. apply flat_map_app. Qed.

Lemma filter_nothing {A : Type} (p : A -> bool) (l : list A) :
  (forall x, In x l -> p x = false) -> filter p l = [].
Proof.
  induction l as [|y l IH]; simpl; intros H; [reflexivity|].
  rewrite (H y) by (left; reflexivity). apply IH. auto.
Qed.

Lemma the_user {M : Type} (d : Store.db M) (u : Z) :
  Store.Consistent d -> Store.has_user d u = true ->
  exists r, filter (fun s => u =? User.userid s) (Store.security d) = [r]
            /\ User.userid r = u.
Proof.
  intros Hc Hu. apply has_user_spec in Hu. destruct Hu as (r & Hr & He).
  pose proof (at_most_one User.userid (fun s => u =? User.userid s) u
                (Store.security d) (Store.users_distinct _ Hc)) as Hle.
  assert (Hin : In r (filter (fun s => u =? User.userid s)
                             (Store.security d))).
  { apply filter_In. split; [assumption|]. apply Z.eqb_eq. congruence. }
  destruct (filter _ (Store.security d)) as [|a [|b l]] eqn:Hf.
  - destruct Hin.
  - exists a. destruct Hin as [->|[]]. tauto.
  - exfalso.
    assert (Hl : (List.length (a :: b :: l) <= 1)%nat).
    { apply Hle. intros x _ Hx. apply Z.eqb_eq in Hx. congruence. }
    simpl in Hl. lia.
Qed.

(** [index.js]: the page after an [/add-idea] that the store accepts,
    at a time later than that of every idea of the store. *)
Lemma js_new_idea_page
  (now u v : Z) (body : IndexJs.idea_form) (name description : string)
  (cost : option Js.number) (p : option Z) (s : IndexJs.search)
  (d : Store.db (list string)) :
  Store.Consistent d ->
  u <> 0 -> v <> 0 ->
  Store.has_user d u = true ->
  IndexJs.ideaname body = Some name ->
  IndexJs.ideadescription body = Some description ->
  IndexJs.bind Sql.numeric_in (IndexJs.estimatedcost body) = Some cost ->
  IndexJs.bind Sql.integer_in (IndexJs.potential body) = Some p ->
  0 < now ->
  (forall i t, In i (Store.idea_details d) -> Idea.createdat i = Some t ->
               t < now) ->
  exists row,
    Store.first_idea (store (IndexJs.post_add_idea now (Some u) body d))
                     (Store.next_ideaid d) = Some row
    /\ IndexJs.ids
         (IndexJs.get_view_ideas (Some v) s
            (store (IndexJs.post_add_idea now (Some u) body d)))
       = (if (u =? v) && IndexJs.matches s row
          then [Store.next_ideaid d] else [])
         ++ IndexJs.ids (IndexJs.get_view_ideas (Some v) s d).
Proof.
  intros Hc Hu Hv Huser Hname Hdesc Hcost Hp Hnow Htimes.
  unfold IndexJs.post_add_idea, IndexJs.requireAuth.
  apply Z.eqb_neq in Hu. rewrite Hu, Hname, Hdesc, Hcost, Hp.
  unfold Store.insert_idea. cbn [Idea.userid]. rewrite Huser. cbn [store].
  set (row := Idea.mk (Store.next_ideaid d) u _ _ _ _ _ _ p (Some now) None).
  set (d' := Store.mk _ _ _ _ _ _).
  exists row. split.
  { unfold Store.first_idea, d'. cbn [Store.idea_details].
    rewrite find_snoc.
    destruct (find _ (Store.idea_details d)) as [i|] eqn:Hf.
    - apply find_some in Hf. destruct Hf as (Hi & He).
      apply Z.eqb_eq in He. pose proof (Store.ideas_drawn _ Hc i Hi). lia.
    - unfold row. cbn [Idea.ideaid]. rewrite Z.eqb_refl. reflexivity. }
  destruct (the_user d u Hc Huser) as (r & Hr & _).
  assert (Hwc : IndexJs.with_creator d'
                = IndexJs.with_creator d ++ [(row, Some r)]).
  { unfold IndexJs.with_creator, d'.
    cbn [Store.idea_details Store.security].
    rewrite left_join_snoc. f_equal.
    unfold Store.left_join. cbn [flat_map]. unfold row at 1.
    cbn [Idea.userid]. rewrite Hr. reflexivity. }
  assert (Hsf : IndexJs.shared_from d' = IndexJs.shared_from d).
  { unfold IndexJs.shared_from. rewrite Hwc, join_app.
    unfold d' at 2. cbn [Store.collaborations].
    unfold Store.join at 2. cbn [flat_map fst].
    rewrite filter_nothing; [rewrite !app_nil_r; reflexivity|].
    intros c Hcin. apply Z.eqb_neq. unfold row. cbn [Idea.ideaid].
    intros He.
    destruct (Store.references_exist _ Hc c Hcin) as (Hi & _).
    apply has_idea_spec in Hi. destruct Hi as (i & Hi & Hk).
    pose proof (Store.ideas_drawn _ Hc i Hi). lia. }
  unfold IndexJs.ids.
  rewrite (js_page v s d' Hv), (js_page v s d Hv), Hwc, Hsf.
  assert (Hm : Store.bound
                 (IndexJs.filters (fun i => i) s (Store.mkBuilder [] true))
               = false -> IndexJs.matches s row = false).
  { intros Hb. unfold IndexJs.matches. rewrite Hb. reflexivity. }
  destruct (Store.bound _).
  2:{ rewrite (Hm eq_refl), andb_false_r. reflexivity. }
  clear Hm. cbn [IndexJs.ideas_of].
  rewrite filter_app, map_app.
  cbn [filter fst]. unfold row at 1. cbn [Idea.userid]. fold row.
  destruct ((u =? v) && IndexJs.matches s row).
  - cbn [map fst snd]. rewrite <- app_assoc. cbn [app].
    rewrite (sort_by_greatest IndexJs.time_of).
    + reflexivity.
    + intros y Hy.
      assert (Hin : In (IndexJs.idea y) (Store.idea_details d)).
      { apply in_app_iff in Hy. destruct Hy as [Hy|Hy];
          apply in_map_iff in Hy; destruct Hy as (j & <- & Hj);
          apply filter_In in Hj; destruct Hj as (Hj & _);
          cbn [IndexJs.idea].
        - apply js_in_with_creator in Hj. tauto.
        - apply js_in_shared_from in Hj. destruct Hj as (Hj & _).
          apply js_in_with_creator in Hj. tauto. }
      unfold IndexJs.time_of at 2. cbn [IndexJs.idea]. unfold row at 1.
      cbn [Idea.createdat]. unfold IndexJs.time_of.
      destruct (Idea.createdat (IndexJs.idea y)) as [t|] eqn:Ht;
        [exact (Htimes _ t Hin Ht) | exact Hnow].
  - cbn [map]. rewrite app_nil_r. reflexivity.
Qed.

(** A new idea that the store accepts, and whose time of creation is
    later than that of every idea of the store, is the first entry of
    its creator's page when it passes the search.  Apart from it, every
    page lists the ideas it listed; and it lists them in the order it
    had when no two ideas of the store have the same time of creation,
    which is when the sort decides the order alone. *)
Theorem newest_idea_heads_the_page
  (now u v : Z) (body : IndexJs.idea_form) (name description : string)
  (cost : option Js.number) (p : option Z) (s : IndexJs.search)
  (d : Store.db (list string)) :
  Store.Consistent d ->
  u <> 0 -> v <> 0 ->
  Store.has_user d u = true ->
  IndexJs.ideaname body = Some name ->
  IndexJs.ideadescription body = Some description ->
  IndexJs.bind Sql.numeric_in (IndexJs.estimatedcost body) = Some cost ->
  IndexJs.bind Sql.integer_in (IndexJs.potential body) = Some p ->
  (forall c, cost = Some c -> Sql.numeric_fits c = true) ->
  (forall n, p = Some n -> -2147483648 <= n <= 2147483647) ->
  0 < now ->
  (forall i t, In i (Store.idea_details d) -> Idea.createdat i = Some t ->
               t < now) ->
  exists row rest,
    Store.first_idea (store (IndexJs.post_add_idea now (Some u) body d))
                     (Store.next_ideaid d) = Some row
    /\ IndexJs.ids
         (IndexJs.get_view_ideas (Some v) s
            (store (IndexJs.post_add_idea now (Some u) body d)))
       = (if (u =? v) && IndexJs.matches s row
          then [Store.next_ideaid d] else [])
         ++ rest
    /\ Permutation rest (IndexJs.ids (IndexJs.get_view_ideas (Some v) s d))
    /\ (NoDup (map (fun i => match Idea.createdat i with
                             | Some t => t
                             | None => 0
                             end) (Store.idea_details d)) ->
        rest = IndexJs.ids (IndexJs.get_view_ideas (Some v) s d)).
Proof.
  intros Hc Hu Hv Huser Hname Hdesc Hcost Hp _ _ Hnow Htimes.
  destruct (js_new_idea_page now u v body name description cost p s d
              Hc Hu Hv Huser Hname Hdesc Hcost Hp Hnow Htimes)
    as (row & Hrow & Hpage).
  exists row, (IndexJs.ids (IndexJs.get_view_ideas (Some v) s d)).
  split; [exact Hrow|]. split; [exact Hpage|].
  split; [apply Permutation_refl | reflexivity].
Qed.

Lemma newest_idea_heads_the_page_witness :
  exists row rest,
    Store.first_idea
      (store (IndexJs.post_add_idea 30 (Some 2) Scenario.florist
                                    Scenario.shared_js))
      (Store.next_ideaid Scenario.shared_js) = Some row
    /\ IndexJs.ids
         (IndexJs.get_view_ideas (Some 2) Scenario.no_search_js
            (store (IndexJs.post_add_idea 30 (Some 2) Scenario.florist
                                          Scenario.shared_js)))
       = (if (2 =? 2) && IndexJs.matches Scenario.no_search_js row
          then [Store.next_ideaid Scenario.shared_js] else [])
         ++ rest
    /\ Permutation rest
         (IndexJs.ids
            (IndexJs.get_view_ideas (Some 2) Scenario.no_search_js
                                    Scenario.shared_js))
    /\ (NoDup (map (fun i => match Idea.createdat i with
                             | Some t => t
                             | None => 0
                             end)
                   (Store.idea_details Scenario.shared_js)) ->
        rest = IndexJs.ids
                 (IndexJs.get_view_ideas (Some 2) Scenario.no_search_js
                                         Scenario.shared_js)).
Proof.
  assert (Hc : Store.Consistent Scenario.shared_js)
    by (apply consistent_spec; vm_compute; reflexivity).
  assert (Hu : 2 <> 0) by discriminate.
  assert (Hnow : 0 < 30) by reflexivity.
  apply (newest_idea_heads_the_page 30 2 2 Scenario.florist "Florist"
           "Flowers" (Some (Js.Finite 500 0)) (Some 3)
           Scenario.no_search_js Scenario.shared_js Hc Hu Hu
           eq_refl eq_refl eq_refl eq_refl eq_refl).
  - intros c Hcost. inversion Hcost. vm_compute. reflexivity.
  - intros n Hn. inversion Hn. lia.
  - exact Hnow.
  - intros i t Hi Ht. vm_compute in Hi.
    destruct Hi as [<-|[<-|[]]]; inversion Ht; reflexivity.
Defined.

(** ** From the registration to the first idea *)

Lemma only_member {K : Type} (l : list K) (a : K) :
  NoDup l -> (forall x, In x l <-> x = a) -> l = [a].
Proof.
  intros Hnd Hin. destruct l as [|x l].
  - exfalso. apply (Hin a). reflexivity.
  - assert (x = a) by (apply Hin; left; reflexivity). subst x.
    f_equal. destruct l as [|y l]; [reflexivity|]. exfalso.
    assert (y = a) by (apply Hin; right; left; reflexivity). subst y.
    inversion Hnd as [|? ? Hno _]. apply Hno. left. reflexivity.
Qed.

(** A user who registers, logs in with the name and the password of
    the form and adds a valid idea has exactly this idea on the page
    of [/ideas]. *)
Theorem new_user_sees_the_first_idea
  (now later : Z) (body : Part000.register_form) (form : Part000.idea_form)
  (p : option Z) (d : Store.db string) :
  Store.Consistent d ->
  Js.truthy (Part000.r_username body) = true ->
  Js.truthy (Part000.r_password body) = true ->
  Js.truthy (Part000.r_email body) = true ->
  Js.truthy (Part000.r_firstname body) = true ->
  Js.truthy (Part000.r_lastname body) = true ->
  Store.first_user d (Js.or_empty (Part000.r_username body)) = None ->
  Js.truthy (Part000.ideaname form) = true ->
  Js.truthy (Part000.ideadescription form) = true ->
  Part000.potential_of (Part000.potential form) = Some p ->
  let registered := store (Part000.post_register now body d) in
  let session :=
    Part000Pages.user_of
      (Part000Pages.session_after
         (Part000Pages.post_login (Part000.r_username body)
            (Part000.r_password body) None registered)) in
  session = Some (Store.next_userid d)
  /\ Part000.ids
       (Part000.get_ideas session
          (Part000.mkSearch None None None None None None)
          (store (Part000.post_addIdea later session form registered)))
     = [Store.next_ideaid d].
Proof.
  intros Hc Hn Hp He Hf Hl Hnew Hin Hid Hpot.
  unfold Part000.post_register. rewrite Hn, Hp, He, Hf, Hl, Hnew.
  cbn [negb orb Store.insert_user store].
  set (d1 := Store.mk _ _ _ _ _ _). cbv zeta.
  assert (Hs : Part000Pages.user_of
                 (Part000Pages.session_after
                    (Part000Pages.post_login (Part000.r_username body)
                       (Part000.r_password body) None d1))
               = Some (Store.next_userid d)).
  { destruct (Part000.r_username body) as [name|]; [|discriminate].
    destruct (Part000.r_password body) as [pw|]; [|discriminate].
    unfold Part000Pages.post_login, d1. cbn [Store.security Js.or_empty].
    rewrite filter_snoc_head.
    - reflexivity.
    - apply unknown_name. exact Hnew.
    - unfold Part000Pages.credentials.
      cbn [User.username User.passwordhash].
      rewrite !String.eqb_refl. reflexivity. }
  rewrite Hs. split; [reflexivity|].
  assert (Hc1 : Store.Consistent d1).
  { apply (change_keeps_consistent d); [assumption|].
    unfold d1. apply Store.UserAdded. reflexivity. }
  assert (Hu1 : Store.has_user d1 (Store.next_userid d) = true).
  { unfold Store.has_user, d1. cbn [Store.security].
    rewrite existsb_app. cbn [existsb User.userid].
    rewrite Z.eqb_refl. apply orb_true_iff. right. reflexivity. }
  assert (Hc2 : Store.Consistent
                  (store (Part000.post_addIdea later
                            (Some (Store.next_userid d)) form d1))).
  { apply (change_keeps_consistent d1); [assumption|].
    exact (p0_handle_changes Restrict
             (Part000.AddIdea later (Some (Store.next_userid d)) form) d1). }
  revert Hc2.
  unfold Part000.post_addIdea. rewrite Hin, Hid, Hpot. cbn [negb orb].
  unfold Store.insert_idea. cbn [Idea.userid]. rewrite Hu1. cbn [store].
  set (row := Idea.mk _ _ _ _ _ _ _ _ p (Some later) None).
  set (d2 := Store.mk _ _ _ _ _ _). intros Hc2.
  apply only_member; [apply p0_ids_distinct, Hc2|].
  intros x. rewrite p0_in_ids. split.
  - intros (i & Hi & Hk & Hv & _).
    unfold d2 in Hi. cbn [Store.idea_details] in Hi.
    apply in_app_iff in Hi. destruct Hi as [Hi|[<-|[]]]; [|exact (eq_sym Hk)].
    exfalso. unfold Store.canView in Hv. apply orb_true_iff in Hv.
    destruct Hv as [Hv|Hv].
    + apply Z.eqb_eq in Hv.
      pose proof (Store.owner_exists _ Hc i Hi) as Ho.
      apply has_user_spec in Ho. destruct Ho as (r & Hr & Hru).
      pose proof (Store.users_drawn _ Hc r Hr). lia.
    + apply isCollaborator_spec in Hv.
      destruct Hv as (c & Hcin & _ & Hcu).
      destruct (Store.references_exist _ Hc c Hcin) as (_ & Ho).
      apply has_user_spec in Ho. destruct Ho as (r & Hr & Hru).
      pose proof (Store.users_drawn _ Hc r Hr). lia.
  - intros ->. exists row. split; [|split; [reflexivity|split]].
    + unfold d2. cbn [Store.idea_details]. apply in_or_app. right.
      left. reflexivity.
    + unfold Store.canView, Store.isOwner, row. cbn [Idea.userid].
      rewrite Z.eqb_refl. reflexivity.
    + reflexivity.
Qed.

Lemma new_user_sees_the_first_idea_witness :
  Part000.ids
    (Part000.get_ideas (Some 1)
       (Part000.mkSearch None None None None None None)
       (store (Part000.post_addIdea 20 (Some 1) Scenario.laundromat
                 (store (Part000.post_register 10 Scenario.alice
                                               Store.empty)))))
  = [1].
Proof.
  assert (Hc : Store.Consistent (@Store.empty string))
    by (apply consistent_spec; vm_compute; reflexivity).
  exact (proj2 (new_user_sees_the_first_idea 10 20 Scenario.alice
                  Scenario.laundromat (Some 7) Store.empty Hc
                  eq_refl eq_refl eq_refl eq_refl eq_refl eq_refl
                  eq_refl eq_refl eq_refl)).
Defined.
